(** * Weather_Prediction_System: a shallow embedding of [weather.py]

    The module [weather.py] is a collection of small functions over Python
    values: strings, unbounded integers and binary64 floats.  The embedding
    keeps that data model:

    - a Python [str] is a [string] holding its UTF-8 bytes;
    - a Python [int] is a [Z];
    - a Python [float] is a [spec_float] at precision 53 and maximal
      exponent 1024, with the IEEE-754 operations of the Standard Library
      ([SFadd], [SFsub], [SFmul], [SFdiv]: round to nearest, ties to even);
    - a raised exception is the [Raise] branch of the [result] type, and
      the functions of the module are written in the error monad.

    The builtins the module calls ([float], [int], [round], [str], [min],
    [max], [list.index], [sum], [datetime.fromisoformat], [strftime]) are
    modelled after CPython 3.11. *)

From Stdlib Require Import ZArith List String Ascii Bool Lia.
From Stdlib Require Import SpecFloat DecimalString.
From Stdlib Require Import Permutation DecimalPos DecimalN.
From Stdlib Require DecimalFacts.
Import ListNotations.

Open Scope string_scope.
Open Scope Z_scope.

(** ** Exceptions and the error monad *)

Inductive exn : Type :=
| ValueError
| TypeError
| IndexError
| ZeroDivisionError
| OverflowError
| StopIteration.

Inductive result (A : Type) : Type :=
| OK (a : A)
| Raise (e : exn).

Arguments OK {A} a.
Arguments Raise {A} e.

Definition bind {A B : Type} (c : result A) (k : A -> result B) : result B :=
  match c with
  | OK a => k a
  | Raise e => Raise e
  end.

Notation "'let*' x ':=' c 'in' k" := (bind c (fun x => k))
  (at level 10, x pattern, c at level 100, k at level 200).

(** [mapM f xs] is the list comprehension [[f(x) for x in xs]]: it evaluates
    [f] on the elements from left to right and stops at the first exception. *)
Fixpoint mapM {A B : Type} (f : A -> result B) (xs : list A) : result (list B) :=
  match xs with
  | [] => OK []
  | x :: xs' =>
      let* y := f x in
      let* ys := mapM f xs' in
      OK (y :: ys)
  end.

Definition succeeds {A : Type} (c : result A) : Prop := exists a, c = OK a.
Definition fails {A : Type} (c : result A) : Prop := exists e, c = Raise e.

(** ** Binary64 floats *)

Module F64.

Definition prec : Z := 53.
Definition emax : Z := 1024.

Definition float : Type := spec_float.

Definition add : float -> float -> float := SFadd prec emax.
Definition sub : float -> float -> float := SFsub prec emax.
Definition mul : float -> float -> float := SFmul prec emax.
Definition div : float -> float -> float := SFdiv prec emax.

(** The comparisons [==], [<] and [>] of Python floats: all three are
    false as soon as one side is a NaN. *)
Definition eqb (x y : float) : bool := SFeqb x y.
Definition ltb (x y : float) : bool := SFltb x y.
Definition gtb (x y : float) : bool := SFltb y x.
Definition leb (x y : float) : bool := SFleb x y.

Definition is_nan (x : float) : bool :=
  match x with S754_nan => true | _ => false end.

Definition is_finite (x : float) : bool :=
  match x with S754_zero _ | S754_finite _ _ _ => true | _ => false end.

Definition zero : float := S754_zero false.

(** A key whose lexicographic order is the order of the floats: the class
    (infinities, negatives, zeros, positives), then exponent and
    mantissa, both negated for a negative float. *)
Definition key (x : float) : Z * Z * Z :=
  match x with
  | S754_nan => (0, 0, 0)
  | S754_zero _ => (0, 0, 0)
  | S754_infinity true => (-2, 0, 0)
  | S754_infinity false => (2, 0, 0)
  | S754_finite true m e => (-1, - e, - Zpos m)
  | S754_finite false m e => (1, e, Zpos m)
  end.

Definition lex3 (a b : Z * Z * Z) : comparison :=
  let '(a1, a2, a3) := a in
  let '(b1, b2, b3) := b in
  match a1 ?= b1 with
  | Eq => match a2 ?= b2 with
          | Eq => a3 ?= b3
          | c => c
          end
  | c => c
  end.

(** The double nearest to the integer [z] (ties to even); an infinity
    when [z] is out of range. *)
Definition of_Z (z : Z) : float := binary_normalize prec emax z 0 false.

(** The double nearest to the rational [(-1)^s * n / d]. *)
Definition of_ratio (s : bool) (n d : positive) : float :=
  let '(mz, ez, lz) := SFdiv_core_binary prec emax (Zpos n) 0 (Zpos d) 0 in
  binary_round_aux prec emax s mz ez lz.

(** The double nearest to the decimal [(-1)^s * n * 10^k], which is what
    the C library's [strtod] returns. *)
Definition of_decimal (s : bool) (n : N) (k : Z) : float :=
  match n with
  | N0 => S754_zero s
  | Npos p =>
      match k with
      | Zneg k' => of_ratio s p (Pos.pow 10 k')
      | _ => binary_normalize prec emax
               (cond_Zopp s (Zpos p * 10 ^ k)) 0 false
      end
  end.

(** Rounding of the non-negative rational [n / d] to an integer, ties to
    the even neighbour. *)
Definition div_half_even (n d : Z) : Z :=
  let q := n / d in
  let r := n mod d in
  match 2 * r ?= d with
  | Lt => q
  | Gt => q + 1
  | Eq => if Z.even q then q else q + 1
  end.

(** [round_half_even_tenths m e] is the integer nearest to
    [10 * m * 2^e], ties to even. *)
Definition round_half_even_tenths (m : positive) (e : Z) : Z :=
  match e with
  | Zneg e' => div_half_even (10 * Zpos m) (Zpos (Pos.pow 2 e'))
  | _ => 10 * Zpos m * 2 ^ e
  end.

(** [round(x, 1)]: CPython prints [x] with one digit after the point,
    correctly rounded from the exact binary value with ties to even, and
    reads the decimal back with [strtod].  Infinities and NaN round to
    themselves. *)
Definition round1 (x : float) : float :=
  match x with
  | S754_finite s m e =>
      of_decimal s (Z.to_N (round_half_even_tenths m e)) (-1)
  | _ => x
  end.

End F64.

(** ** Decimal strings *)

Definition string_of_N (n : N) : string :=
  NilZero.string_of_uint (N.to_uint n).

(** [str(z)] for a Python [int]. *)
Definition string_of_Z (z : Z) : string :=
  match z with
  | Zneg p => "-" ++ string_of_N (Npos p)
  | _ => string_of_N (Z.to_N z)
  end.

Fixpoint replicate (n : nat) (c : ascii) : string :=
  match n with
  | O => EmptyString
  | S n' => String c (replicate n' c)
  end.

Definition zeros (n : Z) : string := replicate (Z.to_nat n) "0"%char.

Definition strlen (s : string) : Z := Z.of_nat (String.length s).

(** ** [repr] of a float

    CPython prints a float with the shortest string of decimal digits that
    reads back as the same double and, among those, the one nearest to the
    exact value; it switches to exponent notation when the decimal point
    would fall before the fourth leading zero or after the sixteenth
    digit. *)

Module Repr.

Import F64.

(** The exact value of a finite double is [num m e / den e]. *)
Definition num (m : positive) (e : Z) : Z :=
  match e with
  | Zneg _ => Zpos m
  | _ => Zpos m * 2 ^ e
  end.

Definition den (e : Z) : Z :=
  match e with
  | Zneg e' => Zpos (Pos.pow 2 e')
  | _ => 1
  end.

Definition nb_digits (n : Z) : Z :=
  Z.of_nat (Decimal.nb_digits (N.to_uint (Z.to_N n))).

(** The position of the decimal point: [10^(p-1) <= m * 2^e < 10^p].
    The value is scaled by [10^400] so that its integer part carries all
    the leading digits, also for the smallest subnormal. *)
Definition decpt (m : positive) (e : Z) : Z :=
  nb_digits (num m e * 10 ^ 400 / den e) - 400.

(** [m * 2^e / 10^k] as a fraction. *)
Definition scaled (m : positive) (e k : Z) : Z * Z :=
  match k with
  | Zneg k' => (num m e * Zpos (Pos.pow 10 k'), den e)
  | _ => (num m e, den e * 10 ^ k)
  end.

Definition reads_back (m : positive) (e : Z) (d k : Z) : bool :=
  eqb (of_decimal false (Z.to_N d) k) (S754_finite false m e).

(** The [n]-digit decimal [d * 10^k] nearest to the value among those
    that read back as the same double, if there is one; when the value is
    half-way between two such decimals, the one whose last digit is
    even. *)
Definition candidate (m : positive) (e : Z) (p : Z) (n : Z) : option (Z * Z) :=
  let k := p - n in
  let '(a, b) := scaled m e k in
  let lo := a / b in
  let r := a mod b in
  let hi := lo + 1 in
  let lo_ok := reads_back m e lo k in
  let hi_ok := reads_back m e hi k in
  if lo_ok && (negb hi_ok || (2 * r <? b) || ((2 * r =? b) && Z.even lo))
  then Some (lo, k)
  else if hi_ok then Some (hi, k)
  else None.

Fixpoint search (m : positive) (e : Z) (p : Z) (n : Z) (fuel : nat) : Z * Z :=
  match fuel with
  | O => (fst (scaled m e (p - 17)) / snd (scaled m e (p - 17)), p - 17)
  | S fuel' =>
      match candidate m e p n with
      | Some dk => dk
      | None => search m e p (n + 1) fuel'
      end
  end.

(** The digits and the position of the decimal point:
    the value reads [0.d1d2...dn * 10^pt]. *)
Definition shortest (m : positive) (e : Z) : string * Z :=
  let p := decpt m e in
  let '(d, k) := search m e p 1 17 in
  let ds := string_of_N (Z.to_N d) in
  if d =? 10 ^ (strlen ds - 1) then ("1", k + strlen ds)
  else (ds, k + strlen ds).

Definition fixed_notation (ds : string) (pt : Z) : string :=
  if pt <=? 0 then "0." ++ zeros (- pt) ++ ds
  else if strlen ds <=? pt then ds ++ zeros (pt - strlen ds) ++ ".0"
  else substring 0 (Z.to_nat pt) ds ++ "." ++
       substring (Z.to_nat pt) (String.length ds - Z.to_nat pt) ds.

Definition exponent_notation (ds : string) (pt : Z) : string :=
  let x := pt - 1 in
  let mant :=
    match ds with
    | String d1 EmptyString => ds
    | String d1 rest => String d1 ("." ++ rest)
    | EmptyString => ds
    end in
  let xs := string_of_N (Z.abs_N x) in
  mant ++ "e" ++ (if x <? 0 then "-" else "+") ++
  (if strlen xs <? 2 then "0" ++ xs else xs).

Definition repr_finite (m : positive) (e : Z) : string :=
  let '(ds, pt) := shortest m e in
  if (pt <=? -4) || (16 <? pt) then exponent_notation ds pt
  else fixed_notation ds pt.

Definition repr (x : float) : string :=
  match x with
  | S754_nan => "nan"
  | S754_infinity false => "inf"
  | S754_infinity true => "-inf"
  | S754_zero false => "0.0"
  | S754_zero true => "-0.0"
  | S754_finite false m e => repr_finite m e
  | S754_finite true m e => "-" ++ repr_finite m e
  end.

End Repr.

(** ** Python values and the conversions [float], [int] and [str]

    The conversions of a text follow CPython 3.11: [int] and [float]
    accept the decimal digits and the white space of Unicode 14 beyond
    ASCII, and [int] and [str] refuse more than 4300 digits, the default of
    the interpreter's limit on integer strings. *)

Inductive pyobj : Type :=
| PyInt (z : Z)
| PyFloat (f : F64.float)
| PyStr (s : string).

Module Text.

Definition code (c : ascii) : Z := Z.of_N (N_of_ascii c).

Definition is_digit (c : ascii) : bool := (48 <=? code c) && (code c <=? 57).

Definition digit_val (c : ascii) : Z := code c - 48.

(** The characters [" \t\n\v\f\r"]. *)
Definition is_space (c : ascii) : bool :=
  ((9 <=? code c) && (code c <=? 13)) || (code c =? 32).

Definition lower (c : ascii) : ascii :=
  if (65 <=? code c) && (code c <=? 90)
  then ascii_of_N (Z.to_N (code c + 32)) else c.

Fixpoint lowercase (s : string) : string :=
  match s with
  | EmptyString => EmptyString
  | String c s' => String (lower c) (lowercase s')
  end.

Fixpoint lstrip (s : string) : string :=
  match s with
  | String c s' => if is_space c then lstrip s' else s
  | EmptyString => EmptyString
  end.

Fixpoint rstrip (s : string) : string :=
  match s with
  | EmptyString => EmptyString
  | String c s' =>
      match rstrip s' with
      | EmptyString => if is_space c then EmptyString else String c EmptyString
      | r => String c r
      end
  end.

Definition strip (s : string) : string := rstrip (lstrip s).

Definition starts_with_digit (s : string) : bool :=
  match s with
  | String c _ => is_digit c
  | EmptyString => false
  end.

(** The longest prefix of digits, in which a single underscore may stand
    between two digits; returns the digits and the rest of the text. *)
Fixpoint digit_run (s : string) (after_digit : bool) : string * string :=
  match s with
  | EmptyString => (EmptyString, EmptyString)
  | String c s' =>
      if is_digit c then
        let '(ds, r) := digit_run s' true in (String c ds, r)
      else if Ascii.eqb c "_" && after_digit && starts_with_digit s' then
        digit_run s' false
      else (EmptyString, s)
  end.

Fixpoint value_of_digits (ds : string) (acc : Z) : Z :=
  match ds with
  | EmptyString => acc
  | String c ds' => value_of_digits ds' (10 * acc + digit_val c)
  end.

(** *** Texts beyond ASCII

    A text holds the UTF-8 bytes of a Python [str].  Before they read a
    number, [int] and [float] replace every character beyond ASCII: a
    decimal digit of any script by the ASCII digit of the same value, a
    white space by a blank, and anything else by a question mark, which
    no number contains. *)

(** A byte [10xxxxxx], which continues a character. *)
Definition continuation (c : ascii) : bool :=
  (128 <=? code c) && (code c <? 192).

(** The code points of a text; [-1] stands for a byte that starts no
    well-formed character (no Python [str] has such bytes). *)
Fixpoint decode (s : string) : list Z :=
  match s with
  | EmptyString => []
  | String c0 s1 =>
      let b0 := code c0 in
      if b0 <? 128 then b0 :: decode s1
      else
        match s1 with
        | String c1 s2 =>
            if negb (continuation c1) then -1 :: decode s1
            else if (194 <=? b0) && (b0 <? 224) then
              ((b0 - 192) * 64 + (code c1 - 128)) :: decode s2
            else
              match s2 with
              | String c2 s3 =>
                  if negb (continuation c2) then -1 :: decode s1
                  else if (224 <=? b0) && (b0 <? 240) then
                    let cp := (b0 - 224) * 4096 + (code c1 - 128) * 64
                              + (code c2 - 128) in
                    if (2048 <=? cp) && negb ((55296 <=? cp) && (cp <? 57344))
                    then cp :: decode s3
                    else -1 :: decode s1
                  else
                    match s3 with
                    | String c3 s4 =>
                        if negb (continuation c3) then -1 :: decode s1
                        else if (240 <=? b0) && (b0 <? 245) then
                          let cp := (b0 - 240) * 262144
                                    + (code c1 - 128) * 4096
                                    + (code c2 - 128) * 64
                                    + (code c3 - 128) in
                          if (65536 <=? cp) && (cp <? 1114112)
                          then cp :: decode s4
                          else -1 :: decode s1
                        else -1 :: decode s1
                    | EmptyString => -1 :: decode s1
                    end
              | EmptyString => -1 :: decode s1
              end
        | EmptyString => [-1]
        end
  end.

(** The code points of the digit zero of every script beyond ASCII whose
    digits are decimal (Unicode 14, general category [Nd]); the digits
    one to nine follow each of them. *)
Definition zero_digits : list Z :=
  [1632; 1776; 1984; 2406; 2534; 2662; 2790; 2918; 3046; 3174; 3302; 3430;
   3558; 3664; 3792; 3872; 4160; 4240; 6112; 6160; 6470; 6608; 6784; 6800;
   6992; 7088; 7232; 7248; 42528; 43216; 43264; 43472; 43504; 43600; 44016;
   65296; 66720; 68912; 69734; 69872; 69942; 70096; 70384; 70736; 70864;
   71248; 71360; 71472; 71904; 72016; 72784; 73040; 73120; 92768; 92864;
   93008; 120782; 120792; 120802; 120812; 120822; 123200; 123632; 125264;
   130032].

Definition unicode_decimal (cp : Z) : option Z :=
  match find (fun z => (z <=? cp) && (cp <? z + 10)) zero_digits with
  | Some z => Some (cp - z)
  | None => None
  end.

(** The white space beyond ASCII. *)
Definition unicode_space (cp : Z) : bool :=
  (cp =? 133) || (cp =? 160) || (cp =? 5760) ||
  ((8192 <=? cp) && (cp <=? 8202)) ||
  (cp =? 8232) || (cp =? 8233) || (cp =? 8239) || (cp =? 8287) ||
  (cp =? 12288).

Definition ascii_of_code_point (cp : Z) : ascii :=
  if (0 <=? cp) && (cp <? 127) then ascii_of_N (Z.to_N cp)
  else if unicode_space cp then " "%char
  else
    match unicode_decimal cp with
    | Some d => ascii_of_N (Z.to_N (48 + d))
    | None => "?"%char
    end.

Definition to_ascii (s : string) : string :=
  string_of_list_ascii (map ascii_of_code_point (decode s)).

(** An optional sign: [true] for ["-"]. *)
Definition sign (s : string) : bool * string :=
  match s with
  | String "-" s' => (true, s')
  | String "+" s' => (false, s')
  | _ => (false, s)
  end.

(** The most digits that [int] reads and [str] writes, by default. *)
Definition max_str_digits : Z := 4300.

(** [int(s)] in base ten for a text in ASCII: white space around, an
    optional sign, and digits, at most [max_str_digits] of them. *)
Definition ascii_int (s : string) : option Z :=
  let '(neg, body) := sign (strip s) in
  match digit_run body false with
  | (String c ds, EmptyString) =>
      if max_str_digits <? strlen (String c ds) then None
      else
        let v := value_of_digits (String c ds) 0 in
        Some (if neg then - v else v)
  | _ => None
  end.

(** [int(s)] in base ten. *)
Definition parse_int (s : string) : option Z := ascii_int (to_ascii s).

(** The exponent part of a float literal: absent, or [e], an optional sign
    and digits. *)
Definition parse_exponent (s : string) : option Z :=
  match s with
  | EmptyString => Some 0
  | String c s' =>
      if Ascii.eqb (lower c) "e" then
        let '(neg, body) := sign s' in
        match digit_run body false with
        | (String d ds, EmptyString) =>
            let v := value_of_digits (String d ds) 0 in
            Some (if neg then - v else v)
        | _ => None
        end
      else None
  end.

(** [float(s)] for a text in ASCII: an optional sign, then [inf],
    [infinity] or [nan] in any case, or a decimal literal, which [strtod]
    rounds to the nearest double. *)
Definition ascii_float (s : string) : option F64.float :=
  let '(neg, body) := sign (strip s) in
  let word := lowercase body in
  if String.eqb word "inf" || String.eqb word "infinity" then
    Some (S754_infinity neg)
  else if String.eqb word "nan" then Some S754_nan
  else
    let '(ip, r1) := digit_run body false in
    let '(fp, r2) :=
      match r1 with
      | String "." r => digit_run r false
      | _ => (EmptyString, r1)
      end in
    match ip ++ fp with
    | EmptyString => None
    | ds =>
        match parse_exponent r2 with
        | Some x =>
            Some (F64.of_decimal neg (Z.to_N (value_of_digits ds 0))
                    (x - strlen fp))
        | None => None
        end
    end.

(** [float(s)]. *)
Definition parse_float (s : string) : option F64.float :=
  ascii_float (to_ascii s).

End Text.

(** [float(x)]. *)
Definition py_float (x : pyobj) : result F64.float :=
  match x with
  | PyFloat f => OK f
  | PyInt z =>
      let f := F64.of_Z z in
      if F64.is_finite f then OK f else Raise OverflowError
  | PyStr s =>
      match Text.parse_float s with
      | Some f => OK f
      | None => Raise ValueError
      end
  end.

(** [int(x)]; a float is truncated towards zero. *)
Definition py_int (x : pyobj) : result Z :=
  match x with
  | PyInt z => OK z
  | PyFloat f =>
      match f with
      | S754_nan => Raise ValueError
      | S754_infinity _ => Raise OverflowError
      | S754_zero _ => OK 0
      | S754_finite s m e =>
          OK (cond_Zopp s (Repr.num m e / Repr.den e))
      end
  | PyStr s =>
      match Text.parse_int s with
      | Some z => OK z
      | None => Raise ValueError
      end
  end.

(** [str(x)], which is what an f-string field [{x}] prints.  An integer
    of more than [max_str_digits] digits is refused. *)
Definition py_str (x : pyobj) : result string :=
  match x with
  | PyInt z =>
      if Text.max_str_digits <? strlen (string_of_N (Z.abs_N z))
      then Raise ValueError
      else OK (string_of_Z z)
  | PyFloat f => OK (Repr.repr f)
  | PyStr s => OK s
  end.

(** [round(x, 1)] on a float. *)
Definition py_round1 (x : F64.float) : F64.float := F64.round1 x.

(** [x / n] for a float [x] and the length [n] of a list, an integer below
    [2^63] whose conversion to a float cannot overflow. *)
Definition py_truediv (x : F64.float) (n : Z) : result F64.float :=
  if n =? 0 then Raise ZeroDivisionError
  else OK (F64.div x (F64.of_Z n)).

(** [sum(xs)] over floats: the running total starts from the integer [0]
    and the floats are added from left to right.  (On the empty list Python
    returns the integer [0] rather than the float [0.0]; the only use of the
    sum in this module divides it, and both zeros divide alike.) *)
Definition py_sum (xs : list F64.float) : F64.float :=
  fold_left F64.add xs F64.zero.

(** ** Calendar dates: [datetime.fromisoformat] and [strftime]

    The parser follows the C implementation of CPython 3.11, which reads
    the UTF-8 bytes of the text through a cursor and sees a NUL byte past
    the end.  It accepts a calendar date ([YYYY-MM-DD] or [YYYYMMDD]) or a
    week date ([YYYY-Www-D] and its shorter forms), then optionally one
    separator character, whatever it is, a time of day and a UTC offset. *)

Module Datetime.

Import Text.

Record datetime : Type := mk_datetime {
  year : Z;
  month : Z;
  day : Z;
  hour : Z;
  minute : Z;
  second : Z;
  microsecond : Z;
  (** seconds and microseconds east of UTC, when an offset was given *)
  tzoffset : option (Z * Z)
}.

Definition NUL : ascii := zero.

(** The byte under the cursor; NUL past the end of the text. *)
Definition at_ (s : string) (i : nat) : ascii :=
  match String.get i s with
  | Some c => c
  | None => NUL
  end.

Definition drop (n : nat) (s : string) : string :=
  substring n (String.length s - n) s.

(** [parse_digits s p n] reads exactly [n] decimal digits at [p]. *)
Fixpoint parse_digits (s : string) (p : nat) (n : nat) (acc : Z) : option Z :=
  match n with
  | O => Some acc
  | S n' =>
      if is_digit (at_ s p)
      then parse_digits s (S p) n' (10 * acc + digit_val (at_ s p))
      else None
  end.

(** *** The proleptic Gregorian calendar *)

Definition is_leap (y : Z) : bool :=
  (y mod 4 =? 0) && (negb (y mod 100 =? 0) || (y mod 400 =? 0)).

Definition days_in_month (y m : Z) : Z :=
  match m with
  | 1 | 3 | 5 | 7 | 8 | 10 | 12 => 31
  | 4 | 6 | 9 | 11 => 30
  | 2 => if is_leap y then 29 else 28
  | _ => 0
  end.

Definition days_before_month_common (m : Z) : Z :=
  match m with
  | 1 => 0 | 2 => 31 | 3 => 59 | 4 => 90 | 5 => 120 | 6 => 151
  | 7 => 181 | 8 => 212 | 9 => 243 | 10 => 273 | 11 => 304 | 12 => 334
  | _ => 0
  end.

Definition days_before_month (y m : Z) : Z :=
  days_before_month_common m + (if (2 <? m) && is_leap y then 1 else 0).

Definition days_before_year (y : Z) : Z :=
  let p := y - 1 in
  p * 365 + p / 4 - p / 100 + p / 400.

(** Day 1 is 0001-01-01. *)
Definition ymd_to_ord (y m d : Z) : Z :=
  days_before_year y + days_before_month y m + d.

(** Monday is 0 and Sunday is 6. *)
Definition weekday (y m d : Z) : Z := (ymd_to_ord y m d + 6) mod 7.

Definition ord_to_ymd (ordinal : Z) : Z * Z * Z :=
  let o := ordinal - 1 in
  let n400 := o / 146097 in
  let n := o mod 146097 in
  let n100 := n / 36524 in
  let n := n mod 36524 in
  let n4 := n / 1461 in
  let n := n mod 1461 in
  let n1 := n / 365 in
  let n := n mod 365 in
  let y := n400 * 400 + 1 + n100 * 100 + n4 * 4 + n1 in
  if (n1 =? 4) || (n100 =? 4) then (y - 1, 12, 31)
  else
    let leapyear := (n1 =? 3) && (negb (n4 =? 24) || (n100 =? 3)) in
    let m := Z.shiftr (n + 50) 5 in
    let preceding :=
      days_before_month_common m + (if (2 <? m) && leapyear then 1 else 0) in
    if n <? preceding
    then (y, m - 1, n - (preceding - days_in_month y (m - 1)) + 1)
    else (y, m, n - preceding + 1).

Definition iso_week1_monday (y : Z) : Z :=
  let first_day := ymd_to_ord y 1 1 in
  let first_weekday := (first_day + 6) mod 7 in
  let week1_monday := first_day - first_weekday in
  if 3 <? first_weekday then week1_monday + 7 else week1_monday.

(** A week date to a calendar date.  Week 53 exists in the years that
    start on a Thursday and in the leap years that start on a Wednesday. *)
Definition iso_to_ymd (iso_year iso_week iso_day : Z) : option (Z * Z * Z) :=
  let week_ok :=
    ((1 <=? iso_week) && (iso_week <=? 52)) ||
    ((iso_week =? 53) &&
     let w := weekday iso_year 1 1 in
     ((w =? 3) || ((w =? 2) && is_leap iso_year))) in
  if negb week_ok then None
  else if negb ((1 <=? iso_day) && (iso_day <=? 7)) then None
  else if iso_year <? 1 then None
  else Some (ord_to_ymd
               (iso_week1_monday iso_year + (iso_week - 1) * 7 + iso_day - 1)).

(** *** The date part *)

Definition is_dash (c : ascii) : bool := Ascii.eqb c "-".
Definition is_W (c : ascii) : bool := Ascii.eqb c "W".

Fixpoint digits_from (s : string) (i : nat) (len : nat) (fuel : nat) : nat :=
  match fuel with
  | O => i
  | S fuel' =>
      if (i <? len)%nat && is_digit (at_ s i)
      then digits_from s (S i) len fuel' else i
  end.

(** Where the date part ends, from the characters at positions 4 and 5. *)
Definition find_isoformat_datetime_separator (s : string) : option nat :=
  let len := String.length s in
  if (len =? 7)%nat then Some 7%nat
  else if is_dash (at_ s 4) then
    if is_W (at_ s 5) then
      if (len <? 8)%nat then None
      else if (8 <? len)%nat && is_dash (at_ s 8) then
        if (len =? 9)%nat then None
        else if (10 <? len)%nat && is_digit (at_ s 10) then Some 8%nat
        else Some 10%nat
      else Some 8%nat
    else Some 10%nat
  else if is_W (at_ s 4) then
    let idx := digits_from s 7 len len in
    if (idx <? 9)%nat then Some idx
    else if Nat.even idx then Some 7%nat else Some 8%nat
  else Some 8%nat.

Definition parse_isoformat_date (s : string) (len : nat) : option (Z * Z * Z) :=
  match parse_digits s 0 4 0 with
  | None => None
  | Some y =>
      let uses_separator := is_dash (at_ s 4) in
      let p := if uses_separator then 5%nat else 4%nat in
      if is_W (at_ s p) then
        match parse_digits s (p + 1) 2 0 with
        | None => None
        | Some w =>
            let p := (p + 3)%nat in
            if (p <? len)%nat then
              if uses_separator && negb (is_dash (at_ s p)) then None
              else
                let p := if uses_separator then S p else p in
                match parse_digits s p 1 0 with
                | None => None
                | Some d => iso_to_ymd y w d
                end
            else iso_to_ymd y w 1
        end
      else
        match parse_digits s p 2 0 with
        | None => None
        | Some m =>
            let p := (p + 2)%nat in
            if uses_separator && negb (is_dash (at_ s p)) then None
            else
              let p := if uses_separator then S p else p in
              match parse_digits s p 2 0 with
              | None => None
              | Some d => Some (y, m, d)
              end
        end
  end.

(** *** The time part *)

Inductive hms_step : Type :=
| Finished (stopped_early : bool)
| Next (p : nat)
| Fraction (p : nat)
| Malformed.

(** One round of the loop over hours, minutes and seconds: two digits,
    then a look at the character that follows them. *)
Definition hms_component (s : string) (p_end : nat) (p : nat)
    (first : bool) (has_separator : bool) : option (Z * bool * hms_step) :=
  match parse_digits s p 2 0 with
  | None => None
  | Some v =>
      let c := at_ s (p + 2) in
      let p' := (p + 3)%nat in
      let has_separator := if first then Ascii.eqb c ":" else has_separator in
      Some (v, has_separator,
            if (p_end <=? p')%nat then Finished (negb (Ascii.eqb c NUL))
            else if has_separator && Ascii.eqb c ":" then Next p'
            else if Ascii.eqb c "." || Ascii.eqb c "," then Fraction p'
            else if negb has_separator then Next (p + 2)%nat
            else Malformed)
  end.

Fixpoint skip_digits (s : string) (p : nat) (fuel : nat) : nat :=
  match fuel with
  | O => p
  | S fuel' => if is_digit (at_ s p) then skip_digits s (S p) fuel' else p
  end.

(** The fraction of a second: up to six digits count, further digits are
    skipped. *)
Definition parse_fraction (s : string) (p_end : nat) (p : nat) : option (Z * bool) :=
  let len_remains := (p_end - p)%nat in
  let to_parse := Nat.min len_remains 6 in
  match parse_digits s p to_parse 0 with
  | None => None
  | Some v =>
      let us := v * 10 ^ (6 - Z.of_nat to_parse) in
      let q := skip_digits s (p + to_parse) (String.length s) in
      Some (us, negb (Ascii.eqb (at_ s q) NUL))
  end.

(** [parse_hh_mm_ss_ff s p_end] reads [HH[:MM[:SS[.ffffff]]]] or the same
    without the colons in the first [p_end] bytes of [s]; the boolean
    tells that it stopped on a byte that is not NUL. *)
Definition parse_hh_mm_ss_ff (s : string) (p_end : nat)
    : option (Z * Z * Z * Z * bool) :=
  match hms_component s p_end 0 true true with
  | None => None
  | Some (h, sep, st0) =>
      match st0 with
      | Malformed => None
      | Finished r => Some (h, 0, 0, 0, r)
      | Fraction p =>
          match parse_fraction s p_end p with
          | Some (us, r) => Some (h, 0, 0, us, r)
          | None => None
          end
      | Next p =>
          match hms_component s p_end p false sep with
          | None => None
          | Some (mi, _, st1) =>
              match st1 with
              | Malformed => None
              | Finished r => Some (h, mi, 0, 0, r)
              | Fraction p =>
                  match parse_fraction s p_end p with
                  | Some (us, r) => Some (h, mi, 0, us, r)
                  | None => None
                  end
              | Next p =>
                  match hms_component s p_end p false sep with
                  | None => None
                  | Some (se, _, st2) =>
                      match st2 with
                      | Malformed => None
                      | Finished r => Some (h, mi, se, 0, r)
                      | Fraction p | Next p =>
                          match parse_fraction s p_end p with
                          | Some (us, r) => Some (h, mi, se, us, r)
                          | None => None
                          end
                      end
                  end
              end
          end
      end
  end.

Definition is_tz_mark (c : ascii) : bool :=
  Ascii.eqb c "Z" || Ascii.eqb c "+" || Ascii.eqb c "-".

Fixpoint find_tz (s : string) (i : nat) : nat :=
  match s with
  | EmptyString => i
  | String c s' => if is_tz_mark c then i else find_tz s' (S i)
  end.

(** The time of day and the offset, if there is one. *)
Definition parse_isoformat_time (s : string)
    : option (Z * Z * Z * Z * option (Z * Z)) :=
  let len := String.length s in
  let tz_pos := find_tz s 0 in
  match parse_hh_mm_ss_ff s tz_pos with
  | None => None
  | Some (h, mi, se, us, stopped_early) =>
      if (tz_pos =? len)%nat then
        if stopped_early then None else Some (h, mi, se, us, None)
      else if Ascii.eqb (at_ s tz_pos) "Z" then
        if Ascii.eqb (at_ s (S tz_pos)) NUL
        then Some (h, mi, se, us, Some (0, 0)) else None
      else
        let sgn := if Ascii.eqb (at_ s tz_pos) "-" then -1 else 1 in
        let rest := drop (S tz_pos) s in
        match parse_hh_mm_ss_ff rest (String.length rest) with
        | Some (th, tm, ts, tus, false) =>
            Some (h, mi, se, us,
                  Some (sgn * (th * 3600 + tm * 60 + ts), sgn * tus))
        | _ => None
        end
  end.

(** The number of bytes of the UTF-8 character that starts with [c]. *)
Definition utf8_width (c : ascii) : nat :=
  if code c <? 128 then 1%nat
  else if (224 <=? code c) && (code c <? 240) then 3%nat
  else if 240 <=? code c then 4%nat
  else 2%nat.

(** *** Range checks of the constructor *)

Definition valid_date (y m d : Z) : bool :=
  (1 <=? y) && (y <=? 9999) && (1 <=? m) && (m <=? 12) &&
  (1 <=? d) && (d <=? days_in_month y m).

Definition valid_time (h mi se us : Z) : bool :=
  (0 <=? h) && (h <=? 23) && (0 <=? mi) && (mi <=? 59) &&
  (0 <=? se) && (se <=? 59) && (0 <=? us) && (us <=? 999999).

(** An offset is strictly between minus and plus 24 hours. *)
Definition valid_offset (tz : option (Z * Z)) : bool :=
  match tz with
  | None => true
  | Some (secs, us) =>
      (secs =? 0) ||
      ((-86400000000 <? secs * 1000000 + us) &&
       (secs * 1000000 + us <? 86400000000))
  end.

Definition fromisoformat (s : string) : option datetime :=
  if (String.length s <? 7)%nat then None
  else
    match find_isoformat_datetime_separator s with
    | None => None
    | Some sep =>
        match parse_isoformat_date s sep with
        | None => None
        | Some (y, m, d) =>
            let time :=
              if (sep <? String.length s)%nat then
                parse_isoformat_time (drop (sep + utf8_width (at_ s sep)) s)
              else Some (0, 0, 0, 0, None) in
            match time with
            | None => None
            | Some (h, mi, se, us, tz) =>
                if valid_date y m d && valid_time h mi se us && valid_offset tz
                then Some (mk_datetime y m d h mi se us tz)
                else None
            end
        end
    end.

(** *** [strftime("%A %d %B %Y")] in the C locale *)

Definition weekday_name (w : Z) : string :=
  match w with
  | 0 => "Monday" | 1 => "Tuesday" | 2 => "Wednesday" | 3 => "Thursday"
  | 4 => "Friday" | 5 => "Saturday" | _ => "Sunday"
  end.

Definition month_name (m : Z) : string :=
  match m with
  | 1 => "January" | 2 => "February" | 3 => "March" | 4 => "April"
  | 5 => "May" | 6 => "June" | 7 => "July" | 8 => "August"
  | 9 => "September" | 10 => "October" | 11 => "November"
  | _ => "December"
  end.

Definition two_digits (n : Z) : string :=
  if n <? 10 then "0" ++ string_of_Z n else string_of_Z n.

(** [%A %d %B %Y]; the C library prints the year without padding. *)
Definition strftime_A_d_B_Y (dt : datetime) : string :=
  weekday_name (weekday (year dt) (month dt) (day dt)) ++ " " ++
  two_digits (day dt) ++ " " ++
  month_name (month dt) ++ " " ++
  string_of_Z (year dt).

End Datetime.

(** ** Lists, tuples and the builtins [min], [max] and [list.index] *)

Definition py_len {A : Type} (l : list A) : Z := Z.of_nat (List.length l).

(** [l[i]]: a negative index counts from the end. *)
Definition py_getitem {A : Type} (l : list A) (i : Z) : result A :=
  let j := if i <? 0 then i + py_len l else i in
  if (0 <=? j) && (j <? py_len l) then
    match nth_error l (Z.to_nat j) with
    | Some x => OK x
    | None => Raise IndexError
    end
  else Raise IndexError.

(** [a, b = t] for a tuple [t] that is empty or a pair. *)
Definition unpack_pair {A B : Type} (t : option (A * B)) : result (A * B) :=
  match t with
  | Some ab => OK ab
  | None => Raise ValueError
  end.

(** A float object: its identity and its value.  [list.index] and the
    comparisons behind it look at the identity before the value, which is
    how a NaN, that equals nothing, is still found in a list that holds
    it. *)
Record float_object : Type := mk_float_object {
  obj_id : nat;
  obj_value : F64.float
}.

(** Every position of the list holds an object of its own, numbered by
    the position.  ([float] returns a float as the object it is, so a
    caller can hold one object at several positions; the identity decides
    only for a NaN, which equals nothing, and the statements that depend
    on the position leave NaN out.) *)
Fixpoint objects_from (i : nat) (xs : list F64.float) : list float_object :=
  match xs with
  | [] => []
  | x :: xs' => mk_float_object i x :: objects_from (S i) xs'
  end.

Definition objects (xs : list F64.float) : list float_object := objects_from 0 xs.

(** [a is b or a == b]. *)
Definition same_or_equal (a b : float_object) : bool :=
  Nat.eqb (obj_id a) (obj_id b) || F64.eqb (obj_value a) (obj_value b).

(** [min] and [max] share one loop in CPython: the running result is
    replaced by an item only when [op item result] holds, where [op] is
    [<] for [min] and [>] for [max]. *)
Definition min_max (op : F64.float -> F64.float -> bool)
    (xs : list float_object) : result float_object :=
  match xs with
  | [] => Raise ValueError
  | x :: xs' =>
      OK (fold_left
            (fun best item =>
               if op (obj_value item) (obj_value best) then item else best)
            xs' x)
  end.

Definition py_min : list float_object -> result float_object := min_max F64.ltb.
Definition py_max : list float_object -> result float_object := min_max F64.gtb.

(** [l.index(v)]: the position of the first item that is [v] or equals
    [v]. *)
Fixpoint py_index (l : list float_object) (v : float_object) : result Z :=
  match l with
  | [] => Raise ValueError
  | x :: l' =>
      if same_or_equal x v then OK 0
      else let* i := py_index l' v in OK (i + 1)
  end.

(** ** The functions of [weather.py] *)

Definition newline : string := String (ascii_of_nat 10) EmptyString.

(** The degree sign (U+00B0, two bytes in UTF-8) followed by [C]. *)
Definition DEGREE_SYMBOL : string :=
  String (ascii_of_nat 194) (String (ascii_of_nat 176) "C").

Definition format_temperature (temp : pyobj) : result string :=
  let* text := py_str temp in
  OK (text ++ DEGREE_SYMBOL).

Definition convert_date (iso_string : pyobj) : result string :=
  match iso_string with
  | PyStr s =>
      match Datetime.fromisoformat s with
      | Some dt => OK (Datetime.strftime_A_d_B_Y dt)
      | None => Raise ValueError
      end
  | _ => Raise TypeError
  end.

Definition convert_f_to_c (temp_in_fahrenheit : pyobj) : result F64.float :=
  let* x := py_float temp_in_fahrenheit in
  let temp_f :=
    F64.div (F64.mul (F64.sub x (F64.of_Z 32)) (F64.of_Z 5)) (F64.of_Z 9) in
  OK (py_round1 temp_f).

Definition calculate_mean (weather_data : list pyobj) : result F64.float :=
  let* float_data := mapM py_float weather_data in
  py_truediv (py_sum float_data) (py_len float_data).

(** [[row[0], int(row[1]), int(row[2])]] *)
Definition processed_row (row : list string) : result (list pyobj) :=
  let* f0 := py_getitem row 0 in
  let* f1 := py_getitem row 1 in
  let* i1 := py_int (PyStr f1) in
  let* f2 := py_getitem row 2 in
  let* i2 := py_int (PyStr f2) in
  OK [PyStr f0; PyInt i1; PyInt i2].

(** The loop of [load_data_from_csv] over the rows that follow the header;
    [data] is the list built so far. *)
Fixpoint load_rows (rows : list (list string)) (data : list (list pyobj))
    : result (list (list pyobj)) :=
  match rows with
  | [] => OK data
  | row :: rows' =>
      match row with
      | [] => load_rows rows' data
      | _ :: _ =>
          let* r := processed_row row in
          load_rows rows' (data ++ [r])%list
      end
  end.

(** [reader] is the sequence of rows that [csv.reader] yields for the file,
    one list of fields per line and the empty list for a blank line;
    [next(reader)] raises [StopIteration] when there is no line at all. *)
Definition load_data_from_csv (reader : list (list string))
    : result (list (list pyobj)) :=
  match reader with
  | [] => Raise StopIteration
  | header :: rows => load_rows rows []
  end.

(** The result is the empty tuple, [None] here, or the pair of the value
    and its position. *)
Definition find_min (weather_data : list pyobj)
    : result (option (F64.float * Z)) :=
  match weather_data with
  | [] => OK None
  | _ :: _ =>
      let* float_data := mapM py_float weather_data in
      let items := objects float_data in
      let* min_value := py_min items in
      let* k := py_index (rev items) min_value in
      let last_index := py_len items - 1 - k in
      OK (Some (obj_value min_value, last_index))
  end.

Definition find_max (weather_data : list pyobj)
    : result (option (F64.float * Z)) :=
  match weather_data with
  | [] => OK None
  | _ :: _ =>
      let* float_data := mapM py_float weather_data in
      let items := objects float_data in
      let* max_value := py_max items in
      let* k := py_index (rev items) max_value in
      let last_index := py_len items - 1 - k in
      OK (Some (obj_value max_value, last_index))
  end.

(** [float(day[i])] *)
Definition float_field (i : Z) (day : list pyobj) : result F64.float :=
  let* x := py_getitem day i in py_float x.

(** [convert_date(weather_data[i][0])] *)
Definition date_of_day (weather_data : list (list pyobj)) (i : Z) : result string :=
  let* day := py_getitem weather_data i in
  let* d := py_getitem day 0 in
  convert_date d.

Definition celsius_list (temps : list F64.float) : result (list F64.float) :=
  mapM (fun temp => convert_f_to_c (PyFloat temp)) temps.

(** [generate_summary], abstracted over the function bound to the name
    [calculate_mean], so that a statement can tell whether it is called.
    The number of days is the length of a list, an integer below [2^63]
    that [str] prints in full. *)
Definition generate_summary_with
    (mean : list pyobj -> result F64.float)
    (weather_data : list (list pyobj)) : result string :=
  match weather_data with
  | [] => OK ""
  | _ :: _ =>
      let* min_temps := mapM (float_field 1) weather_data in
      let* max_temps := mapM (float_field 2) weather_data in
      let* lo := find_min (map PyFloat min_temps) in
      let* (overall_min, min_index) := unpack_pair lo in
      let* hi := find_max (map PyFloat max_temps) in
      let* (overall_max, max_index) := unpack_pair hi in
      let* overall_min_c := convert_f_to_c (PyFloat overall_min) in
      let* overall_max_c := convert_f_to_c (PyFloat overall_max) in
      let* min_date := date_of_day weather_data min_index in
      let* max_date := date_of_day weather_data max_index in
      let* lows := celsius_list min_temps in
      let* mean_low := mean (map PyFloat lows) in
      let avg_low := py_round1 mean_low in
      let* highs := celsius_list max_temps in
      let* mean_high := mean (map PyFloat highs) in
      let avg_high := py_round1 mean_high in
      let num_days := py_len weather_data in
      let summary := string_of_Z num_days ++ " Day Overview" ++ newline in
      let* lowest := format_temperature (PyFloat overall_min_c) in
      let summary := summary ++
        "  The lowest temperature will be " ++ lowest ++
        ", and will occur on " ++ min_date ++ "." ++ newline in
      let* highest := format_temperature (PyFloat overall_max_c) in
      let summary := summary ++
        "  The highest temperature will be " ++ highest ++
        ", and will occur on " ++ max_date ++ "." ++ newline in
      let* low := format_temperature (PyFloat avg_low) in
      let summary := summary ++
        "  The average low this week is " ++ low ++ "." ++ newline in
      let* high := format_temperature (PyFloat avg_high) in
      let summary := summary ++
        "  The average high this week is " ++ high ++ "." ++ newline in
      OK summary
  end.

Definition generate_summary : list (list pyobj) -> result string :=
  generate_summary_with calculate_mean.

(** The loop of [generate_daily_summary]; [summary] is the text so far. *)
Fixpoint daily_loop (days : list (list pyobj)) (summary : string) : result string :=
  match days with
  | [] => OK summary
  | day :: days' =>
      let* d := py_getitem day 0 in
      let* date_str := convert_date d in
      let* min_temp_f := float_field 1 day in
      let* max_temp_f := float_field 2 day in
      let* min_temp_c := convert_f_to_c (PyFloat min_temp_f) in
      let* max_temp_c := convert_f_to_c (PyFloat max_temp_f) in
      let summary := summary ++ "---- " ++ date_str ++ " ----" ++ newline in
      let* minimum := format_temperature (PyFloat min_temp_c) in
      let summary := summary ++
        "  Minimum Temperature: " ++ minimum ++ newline in
      let* maximum := format_temperature (PyFloat max_temp_c) in
      let summary := summary ++
        "  Maximum Temperature: " ++ maximum ++ newline ++ newline in
      daily_loop days' summary
  end.

Definition generate_daily_summary (weather_data : list (list pyobj))
    : result string :=
  match weather_data with
  | [] => OK ""
  | _ :: _ => daily_loop weather_data ""
  end.

(** What [find_min] and [find_max] have in common: the loop of [min_max]
    with its comparison, then the search from the end. *)
Definition find_extremum (op : F64.float -> F64.float -> bool)
    (weather_data : list pyobj) : result (option (F64.float * Z)) :=
  match weather_data with
  | [] => OK None
  | _ :: _ =>
      let* float_data := mapM py_float weather_data in
      let items := objects float_data in
      let* best := min_max op items in
      let* k := py_index (rev items) best in
      OK (Some (obj_value best, py_len items - 1 - k))
  end.

(** ** The vocabulary of the statements *)

Definition not_nan (x : F64.float) : Prop := F64.is_nan x = false.

(** [m] is the least value of [fs] and [i] is the last position that holds
    a value equal to it. *)
Definition is_last_minimum (fs : list F64.float) (m : F64.float) (i : Z) : Prop :=
  In m fs /\
  Forall (fun f => F64.leb m f = true) fs /\
  0 <= i < py_len fs /\
  (exists f, nth_error fs (Z.to_nat i) = Some f /\ F64.eqb f m = true) /\
  (forall j f, i < j -> nth_error fs (Z.to_nat j) = Some f -> F64.ltb m f = true).

(** [m] is the greatest value of [fs] and [i] is the last position that
    holds a value equal to it. *)
Definition is_last_maximum (fs : list F64.float) (m : F64.float) (i : Z) : Prop :=
  In m fs /\
  Forall (fun f => F64.leb f m = true) fs /\
  0 <= i < py_len fs /\
  (exists f, nth_error fs (Z.to_nat i) = Some f /\ F64.eqb f m = true) /\
  (forall j f, i < j -> nth_error fs (Z.to_nat j) = Some f -> F64.ltb f m = true).



(** [(x - 32) * 5 / 9] in float arithmetic, rounded to one decimal. *)
Definition celsius (x : F64.float) : F64.float :=
  py_round1
    (F64.div (F64.mul (F64.sub x (F64.of_Z 32)) (F64.of_Z 5)) (F64.of_Z 9)).

(** The sum of the floats, added from left to right, over their number. *)
Definition mean_of (fs : list F64.float) : F64.float :=
  F64.div (py_sum fs) (F64.of_Z (py_len fs)).

(** A row with at least one field. *)
Definition non_empty (row : list string) : bool :=
  match row with
  | [] => false
  | _ :: _ => true
  end.

(** The record that a row with three fields or more stands for, when its
    second and third fields read as the integers [i1] and [i2]. *)
Definition row_record (row : list string) (r : list pyobj) : Prop :=
  exists f0 f1 f2 rest i1 i2,
    row = (f0 :: f1 :: f2 :: rest)%list /\
    Text.parse_int f1 = Some i1 /\ Text.parse_int f2 = Some i2 /\
    r = [PyStr f0; PyInt i1; PyInt i2].

(** A row that is too short, or whose second or third field is not an
    integer. *)
Definition malformed_row (row : list string) : Prop :=
  (List.length row < 3)%nat \/
  (exists f1, nth_error row 1 = Some f1 /\ Text.parse_int f1 = None) \/
  (exists f2, nth_error row 2 = Some f2 /\ Text.parse_int f2 = None).

(** The reading of the loader's contract under which any field count other
    than three makes the load fail: whenever some data row is not empty and
    has a number of fields other than three, or a second or third field
    that is not an integer, the load raises an exception. *)
Definition every_malformed_row_fails : Prop :=
  forall (header : list string) (rows : list (list string)) (row : list string),
    In row rows -> row <> [] ->
    (List.length row <> 3%nat \/ malformed_row row) ->
    fails (load_data_from_csv (header :: rows)).

(** A weather record of the data model and the list that the loader builds
    for it. *)
Record WeatherRecord : Type := mk_record {
  date : string;
  minTempF : Z;
  maxTempF : Z
}.

Definition row_of (r : WeatherRecord) : list pyobj :=
  [PyStr (date r); PyInt (minTempF r); PyInt (maxTempF r)].

(** The date of a record is one that [convert_date] reads, and its
    temperatures are integers that [float] converts. *)
Definition well_formed (r : WeatherRecord) : Prop :=
  succeeds (convert_date (PyStr (date r))) /\
  succeeds (py_float (PyInt (minTempF r))) /\
  succeeds (py_float (PyInt (maxTempF r))).

Definition min_series (recs : list WeatherRecord) : list F64.float :=
  map (fun r => F64.of_Z (minTempF r)) recs.

Definition max_series (recs : list WeatherRecord) : list F64.float :=
  map (fun r => F64.of_Z (maxTempF r)) recs.

(** The text of a temperature: the float as [repr] prints it, then the
    unit. *)
Definition temperature_text (t : F64.float) : string :=
  Repr.repr t ++ DEGREE_SYMBOL.

Definition join (parts : list string) : string :=
  fold_right String.append "" parts.

(** The lines of the overview. *)
Definition overview_header (n : Z) : string :=
  string_of_Z n ++ " Day Overview" ++ newline.

Definition lowest_line (t : F64.float) (d : string) : string :=
  "  The lowest temperature will be " ++ temperature_text t ++
  ", and will occur on " ++ d ++ "." ++ newline.

Definition highest_line (t : F64.float) (d : string) : string :=
  "  The highest temperature will be " ++ temperature_text t ++
  ", and will occur on " ++ d ++ "." ++ newline.

Definition average_low_line (t : F64.float) : string :=
  "  The average low this week is " ++ temperature_text t ++ "." ++ newline.

Definition average_high_line (t : F64.float) : string :=
  "  The average high this week is " ++ temperature_text t ++ "." ++ newline.


(** The Arabic-Indic digits three (U+0663) and two (U+0662), in UTF-8. *)
Definition arabic_indic_3 : string :=
  String (ascii_of_nat 217) (String (ascii_of_nat 163) EmptyString).


(** The two records of the worked example. *)
Definition example_records : list WeatherRecord :=
  [mk_record "2021-07-06" 30 80; mk_record "2021-07-07" 20 90].

(** *** Dates in ISO-8601

    The standard writes a complete calendar date as [YYYY-MM-DD], or
    [YYYYMMDD] in its basic format, and joins a time of day to it with the
    letter [T].  [iso8601_shape] holds of the texts that start with eight
    digits arranged in one of the two ways and then end or go on with [T];
    every calendar date of the standard, with or without a time, has this
    shape. *)

Definition all_digits (cs : list ascii) : bool := forallb Text.is_digit cs.

Definition ends_or_T (rest : string) : bool :=
  match rest with
  | EmptyString => true
  | String c _ => Ascii.eqb c "T"
  end.

Definition iso8601_shape (s : string) : bool :=
  match s with
  | String c0 (String c1 (String c2 (String c3 (String c4 (String c5
      (String c6 (String c7 rest))))))) =>
      if Ascii.eqb c4 "-" then
        match rest with
        | String c8 (String c9 rest') =>
            all_digits [c0; c1; c2; c3; c5; c6; c8; c9] &&
            Ascii.eqb c7 "-" && ends_or_T rest'
        | _ => false
        end
      else all_digits [c0; c1; c2; c3; c4; c5; c6; c7] && ends_or_T rest
  | _ => false
  end.

(** The reading of the contract of [convert_date] under which it fails on
    every text that is not a valid ISO-8601 date. *)
Definition fails_outside_iso8601 : Prop :=
  forall s : string, iso8601_shape s = false -> fails (convert_date (PyStr s)).

(** The number that two and four digits spell. *)
Definition num2 (a b : ascii) : Z := 10 * Text.digit_val a + Text.digit_val b.

Definition num4 (a b c d : ascii) : Z :=
  10 * (10 * (10 * Text.digit_val a + Text.digit_val b) + Text.digit_val c)
  + Text.digit_val d.

(** The text [abcd-ef-gh]. *)
Definition extended_date (a b c d e f g h : ascii) (rest : string) : string :=
  String a (String b (String c (String d (String "-"
    (String e (String f (String "-" (String g (String h rest))))))))).

(** The text [ab:cd]. *)
Definition hours_minutes (a b c d : ascii) : string :=
  String a (String b (String ":" (String c (String d EmptyString)))).

(** What [convert_date] prints for the calendar date [y], [m], [d]. *)
Definition long_date (y m d : Z) : string :=
  Datetime.weekday_name (Datetime.weekday y m d) ++ " " ++
  Datetime.two_digits d ++ " " ++
  Datetime.month_name m ++ " " ++
  string_of_Z y.

(** An integer below [2^53] in magnitude; its conversion to a float is
    exact. *)
Definition small (z : Z) : Prop := Z.abs z < 2 ^ 53.



(** The mantissa of the double of a positive integer of at most 53 bits:
    the integer shifted to the left until it has 53 bits. *)
Definition normal_mantissa (p : positive) : positive :=
  match (53 - Zpos (Pos.size p))%Z with
  | Zpos d => Pos.iter xO p d
  | _ => p
  end.

(** The sum of a list of integers, and the sum of their magnitudes. *)
Definition Zsum (zs : list Z) : Z := fold_right Z.add 0 zs.

Definition total_magnitude (zs : list Z) : Z :=
  fold_right (fun z s => Z.abs z + s) 0 zs.

(** The state of the rounding shifter that holds [m] and has shifted out
    nothing but zeros. *)
Definition exact_record (m : positive) : shr_record :=
  {| shr_m := Zpos m; shr_r := false; shr_s := false |}.

(** ** Further vocabulary *)

(** The block that the body of the loop of [generate_daily_summary] adds
    for one day. *)
Definition day_block (day : list pyobj) : result string :=
  let* d := py_getitem day 0 in
  let* date_str := convert_date d in
  let* min_temp_f := float_field 1 day in
  let* max_temp_f := float_field 2 day in
  let* min_temp_c := convert_f_to_c (PyFloat min_temp_f) in
  let* max_temp_c := convert_f_to_c (PyFloat max_temp_f) in
  let* minimum := format_temperature (PyFloat min_temp_c) in
  let* maximum := format_temperature (PyFloat max_temp_c) in
  OK ("---- " ++ date_str ++ " ----" ++ newline ++
      "  Minimum Temperature: " ++ minimum ++ newline ++
      "  Maximum Temperature: " ++ maximum ++ newline ++ newline).

(** The temperatures of a record are integers that [float] converts;
    nothing is asked of its date. *)
Definition temperatures_convert (r : WeatherRecord) : Prop :=
  succeeds (py_float (PyInt (minTempF r))) /\
  succeeds (py_float (PyInt (maxTempF r))).

(** The text of the overview for the extremes [lo] and [hi], their dates
    and the two series. *)
Definition overview (recs : list WeatherRecord)
    (lo : F64.float) (dlo : string) (hi : F64.float) (dhi : string) : string :=
  overview_header (py_len recs) ++
  lowest_line (celsius lo) dlo ++
  highest_line (celsius hi) dhi ++
  average_low_line (py_round1 (mean_of (map celsius (min_series recs)))) ++
  average_high_line (py_round1 (mean_of (map celsius (max_series recs)))).

(** The row of fields that stands for a record in a file: the date as it
    is, and the temperatures as [str] prints them. *)
Definition csv_row (r : WeatherRecord) : list string :=
  [date r; string_of_Z (minTempF r); string_of_Z (maxTempF r)].

(** The text [abcdefgh], a date in the basic format. *)
Definition basic_date (a b c d e f g h : ascii) : string :=
  String a (String b (String c (String d
    (String e (String f (String g (String h EmptyString))))))).

(** Equality of two floats as data: same class, sign, mantissa and
    exponent. *)
Definition same_float (x y : F64.float) : bool :=
  match x, y with
  | S754_zero a, S754_zero b => Bool.eqb a b
  | S754_infinity a, S754_infinity b => Bool.eqb a b
  | S754_nan, S754_nan => true
  | S754_finite a m e, S754_finite b m' e' =>
      Bool.eqb a b && Pos.eqb m m' && Z.eqb e e'
  | _, _ => false
  end.

(** The integers from [lo] on, [n] of them. *)
Definition Zrange (lo : Z) (n : nat) : list Z :=
  map (fun k => lo + Z.of_nat k) (seq 0 n).

(** The integer nearest to ten times [(t - 32) * 5 / 9], for an integer
    [t]. *)
Definition celsius_tenths (t : Z) : Z := (100 * (t - 32) + 9) / 18.

(** The double nearest to [d / 10], and the decimal numeral of [d / 10]
    with one digit after the point. *)
Definition tenths_float (d : Z) : F64.float :=
  F64.of_decimal (d <? 0) (Z.abs_N d) (-1).

Definition tenths_text (d : Z) : string :=
  (if d <? 0 then "-" else "") ++
  string_of_Z (Z.abs d / 10) ++ "." ++ string_of_Z (Z.abs d mod 10).

(** The checks that the two theorems on integer temperatures run over a
    range. *)
Definition celsius_is_exact (t : Z) : bool :=
  match convert_f_to_c (PyInt t) with
  | OK x => same_float x (tenths_float (celsius_tenths t))
  | Raise _ => false
  end.

Definition celsius_prints_exact (t : Z) : bool :=
  match convert_f_to_c (PyInt t) with
  | OK x =>
      match format_temperature (PyFloat x) with
      | OK text =>
          String.eqb text (tenths_text (celsius_tenths t) ++ DEGREE_SYMBOL)
      | Raise _ => false
      end
  | Raise _ => false
  end.

(** * Properties *)

(** ** The order of floats that are not NaN *)

Module FloatOrder.

Import F64.

Lemma compare_opp (a b : Z) : (- a ?= - b) = (b ?= a).
Proof.
  destruct (Z.compare_spec b a) as [H | H | H];
    [ apply Z.compare_eq_iff | apply Z.compare_lt_iff | apply Z.compare_gt_iff ];
    lia.
Qed.

Lemma compare_key (x y : float) :
  is_nan x = false -> is_nan y = false ->
  SFcompare x y = Some (lex3 (key x) (key y)).
Proof.
  destruct x as [sx | sx | | sx mx ex], y as [sy | sy | | sy my ey];
    cbn [is_nan]; intros Hx Hy; try discriminate;
    try (destruct sx); try (destruct sy); try reflexivity.
  cbn [SFcompare key lex3]. f_equal.
  change (-1 ?= -1) with Eq. cbv iota.
  rewrite !compare_opp, (Z.compare_antisym ex ey).
  destruct (ex ?= ey); cbn; try reflexivity.
  change (Z.pos my ?= Z.pos mx) with (Pos.compare_cont Eq my mx).
  now rewrite <- ZC4.
Qed.

(** The comparisons read on the keys. *)
Lemma ltb_key (x y : float) :
  is_nan x = false -> is_nan y = false ->
  ltb x y = match lex3 (key x) (key y) with Lt => true | _ => false end.
Proof. intros Hx Hy. unfold ltb, SFltb. now rewrite compare_key. Qed.

Lemma eqb_key (x y : float) :
  is_nan x = false -> is_nan y = false ->
  eqb x y = match lex3 (key x) (key y) with Eq => true | _ => false end.
Proof. intros Hx Hy. unfold eqb, SFeqb. now rewrite compare_key. Qed.

Lemma leb_key (x y : float) :
  is_nan x = false -> is_nan y = false ->
  leb x y = match lex3 (key x) (key y) with Gt => false | _ => true end.
Proof.
  intros Hx Hy. unfold leb, SFleb. rewrite compare_key by assumption.
  now destruct (lex3 (key x) (key y)).
Qed.

Ltac lex_cases :=
  unfold lex3;
  repeat match goal with
  | |- context [key ?x] =>
      let a := fresh "a" in let b := fresh "b" in let c := fresh "c" in
      destruct (key x) as [[a b] c]
  end;
  repeat match goal with
  | |- context [?a ?= ?b] => destruct (Z.compare_spec a b)
  end;
  try reflexivity; try discriminate; try lia.

Lemma eqb_refl (x : float) : is_nan x = false -> eqb x x = true.
Proof. intros Hx. rewrite eqb_key by assumption. lex_cases. Qed.

Lemma eqb_sym (x y : float) : eqb x y = eqb y x.
Proof.
  destruct (is_nan x) eqn:Hx; [now destruct x, y |].
  destruct (is_nan y) eqn:Hy; [now destruct x, y |].
  rewrite !eqb_key by assumption. lex_cases.
Qed.

(** [<] is transitive. *)
Lemma ltb_trans (x y z : float) :
  is_nan x = false -> is_nan y = false -> is_nan z = false ->
  ltb x y = true -> ltb y z = true -> ltb x z = true.
Proof.
  intros Hx Hy Hz. rewrite !ltb_key by assumption. lex_cases.
Qed.

(** Among floats that are not NaN, "not less than" is transitive. *)
Lemma not_ltb_trans (x y z : float) :
  is_nan x = false -> is_nan y = false -> is_nan z = false ->
  ltb x y = false -> ltb y z = false -> ltb x z = false.
Proof.
  intros Hx Hy Hz. rewrite !ltb_key by assumption. lex_cases.
Qed.

Lemma not_ltb_leb (x y : float) :
  is_nan x = false -> is_nan y = false ->
  ltb x y = false -> leb y x = true.
Proof.
  intros Hx Hy. rewrite ltb_key, leb_key by assumption. lex_cases.
Qed.

Lemma leb_not_eqb_ltb (x y : float) :
  is_nan x = false -> is_nan y = false ->
  leb x y = true -> eqb y x = false -> ltb x y = true.
Proof.
  intros Hx Hy. rewrite ltb_key, leb_key, eqb_key by assumption. lex_cases.
Qed.

End FloatOrder.

(** ** The error monad and list comprehensions *)

Lemma bind_OK {A B : Type} (c : result A) (k : A -> result B) (a : A) :
  c = OK a -> bind c k = k a.
Proof. intros ->. reflexivity. Qed.

Lemma bind_inv {A B : Type} (c : result A) (k : A -> result B) (b : B) :
  bind c k = OK b -> exists a, c = OK a /\ k a = OK b.
Proof. destruct c as [a | e]; cbn; [eauto | discriminate]. Qed.

Lemma mapM_length {A B : Type} (f : A -> result B) (xs : list A) (ys : list B) :
  mapM f xs = OK ys -> List.length ys = List.length xs.
Proof.
  revert ys. induction xs as [| x xs IH]; cbn; intros ys H.
  - injection H as <-. reflexivity.
  - destruct (f x) as [y | e]; cbn in H; [| discriminate].
    destruct (mapM f xs) as [ys' | e]; cbn in H; [| discriminate].
    injection H as <-. cbn. f_equal. now apply IH.
Qed.

Lemma mapM_total {A B : Type} (f : A -> result B) (g : A -> B) (xs : list A) :
  Forall (fun x => f x = OK (g x)) xs -> mapM f xs = OK (map g xs).
Proof.
  induction 1 as [| x xs Hx _ IH]; cbn; [reflexivity |].
  now rewrite Hx, IH.
Qed.

Lemma mapM_py_float_floats (fs : list F64.float) :
  mapM py_float (map PyFloat fs) = OK fs.
Proof.
  induction fs as [| f fs IH]; cbn; [reflexivity |]. now rewrite IH.
Qed.

(** ** Float objects and their positions *)

Lemma objects_from_length (i : nat) (fs : list F64.float) :
  List.length (objects_from i fs) = List.length fs.
Proof. revert i. induction fs; cbn; intros; [reflexivity | now rewrite IHfs]. Qed.

Lemma objects_from_nth (fs : list F64.float) :
  forall i j,
    nth_error (objects_from i fs) j =
    option_map (mk_float_object (i + j)) (nth_error fs j).
Proof.
  induction fs as [| f fs IH]; intros i [| j]; cbn; try reflexivity.
  - now rewrite Nat.add_0_r.
  - rewrite IH. now rewrite Nat.add_succ_r.
Qed.

Lemma objects_nth (fs : list F64.float) (j : nat) :
  nth_error (objects fs) j = option_map (mk_float_object j) (nth_error fs j).
Proof. apply (objects_from_nth fs 0 j). Qed.

(** An object of the list sits at the position that its identity tells. *)
Lemma objects_In (fs : list F64.float) (o : float_object) :
  In o (objects fs) -> nth_error fs (obj_id o) = Some (obj_value o).
Proof.
  intros H. apply In_nth_error in H as [j Hj].
  rewrite objects_nth in Hj.
  destruct (nth_error fs j) as [f |] eqn:E; cbn in Hj; [| discriminate].
  injection Hj as <-. exact E.
Qed.

Lemma objects_value_In (fs : list F64.float) (o : float_object) :
  In o (objects fs) -> In (obj_value o) fs.
Proof. intros H. eapply nth_error_In, objects_In, H. Qed.

(** ** [list.index] *)

Lemma py_index_spec (l : list float_object) (v : float_object) (k : Z) :
  py_index l v = OK k ->
  exists k' x,
    k = Z.of_nat k' /\ nth_error l k' = Some x /\ same_or_equal x v = true /\
    forall j y, (j < k')%nat -> nth_error l j = Some y -> same_or_equal y v = false.
Proof.
  revert k. induction l as [| a l IH]; cbn; intros k H; [discriminate |].
  destruct (same_or_equal a v) eqn:E.
  - injection H as <-. exists 0%nat, a. repeat split; trivial.
    intros j y Hj. inversion Hj.
  - apply bind_inv in H as (i & Hi & Hk). injection Hk as <-.
    destruct (IH i Hi) as (k' & x & -> & Hx & Hsame & Hbefore).
    exists (S k'), x. repeat split; trivial; [lia |].
    intros [| j] y Hj Hy; cbn in Hy.
    + now injection Hy as <-.
    + apply (Hbefore j y); [lia | exact Hy].
Qed.

Lemma py_index_total (l : list float_object) (v x : float_object) :
  In x l -> same_or_equal x v = true -> exists k, py_index l v = OK k.
Proof.
  induction l as [| a l IH]; cbn; intros Hin Hx; [contradiction |].
  destruct (same_or_equal a v) eqn:E; [eauto |].
  destruct Hin as [-> | Hin]; [congruence |].
  destruct (IH Hin Hx) as [k ->]. cbn. eauto.
Qed.

(** ** The extremum and the position of its last occurrence *)

Section Extremum.

Variable op : F64.float -> F64.float -> bool.

Hypothesis op_irrefl : forall x, op x x = false.

Hypothesis op_trans : forall x y z,
  not_nan x -> not_nan y -> not_nan z ->
  op x y = true -> op y z = true -> op x z = true.

Hypothesis op_neg_trans : forall x y z,
  not_nan x -> not_nan y -> not_nan z ->
  op x y = false -> op y z = false -> op x z = false.

Let pick (best item : float_object) : float_object :=
  if op (obj_value item) (obj_value best) then item else best.

Lemma fold_pick_spec (l : list float_object) :
  forall b0,
    not_nan (obj_value b0) ->
    Forall (fun y => not_nan (obj_value y)) l ->
    let b := fold_left pick l b0 in
    In b (b0 :: l) /\
    not_nan (obj_value b) /\
    op (obj_value b0) (obj_value b) = false /\
    Forall (fun y => op (obj_value y) (obj_value b) = false) l.
Proof.
  induction l as [| a l IH]; intros b0 Hb0 Hl; cbn.
  - repeat split; auto.
  - inversion Hl as [| ? ? Ha Hl']; subst.
    assert (Hp : not_nan (obj_value (pick b0 a))).
    { unfold pick. now destruct (op (obj_value a) (obj_value b0)). }
    destruct (IH (pick b0 a) Hp Hl') as (Hin & Hnan & Hb1 & Hall).
    set (b := fold_left pick l (pick b0 a)) in *.
    assert (Hboth : op (obj_value b0) (obj_value b) = false /\
                    op (obj_value a) (obj_value b) = false).
    { unfold pick in Hb1, Hin. 
      destruct (op (obj_value a) (obj_value b0)) eqn:E.
      - split; [| exact Hb1].
        destruct (op (obj_value b0) (obj_value b)) eqn:E'; [| reflexivity].
        rewrite <- Hb1. symmetry.
        apply (op_trans _ (obj_value b0)); assumption.
      - split; [exact Hb1 |].
        apply (op_neg_trans _ (obj_value b0)); assumption. }
    destruct Hboth as [H0 Ha'].
    repeat split; auto.
    destruct Hin as [Hin | Hin]; [| now right; right].
    unfold pick in Hin. destruct (op (obj_value a) (obj_value b0)); auto.
Qed.

Lemma min_max_spec (items : list float_object) :
  items <> [] ->
  Forall (fun y => not_nan (obj_value y)) items ->
  exists best,
    min_max op items = OK best /\ In best items /\
    Forall (fun y => op (obj_value y) (obj_value best) = false) items.
Proof.
  destruct items as [| x l]; [congruence |]. intros _ Hall.
  inversion Hall as [| ? ? Hx Hl]; subst.
  destruct (fold_pick_spec l x Hx Hl) as (Hin & _ & H0 & Hrest).
  eexists. split; [reflexivity |]. split; [exact Hin |].
  constructor; assumption.
Qed.


Lemma find_extremum_spec (xs : list pyobj) (fs : list F64.float) :
  xs <> [] ->
  mapM py_float xs = OK fs ->
  Forall not_nan fs ->
  exists m i,
    find_extremum op xs = OK (Some (m, i)) /\
    In m fs /\
    Forall (fun f => op f m = false) fs /\
    0 <= i < py_len fs /\
    (exists f, nth_error fs (Z.to_nat i) = Some f /\ F64.eqb f m = true) /\
    (forall j f, i < j -> nth_error fs (Z.to_nat j) = Some f ->
                 F64.eqb f m = false).
Proof.
  intros Hne Hfs Hnan.
  assert (Hlen : List.length fs = List.length xs) by now apply mapM_length in Hfs.
  assert (Hitems : objects fs <> []).
  { destruct xs; [congruence |]. destruct fs; [discriminate |]. discriminate. }
  assert (Hobj : Forall (fun y => not_nan (obj_value y)) (objects fs)).
  { apply Forall_forall. intros o Ho. apply objects_value_In in Ho.
    rewrite Forall_forall in Hnan. auto. }
  destruct (min_max_spec (objects fs) Hitems Hobj) as (best & Hbest & Hin & Hall).
  assert (Hself : same_or_equal best best = true).
  { unfold same_or_equal. now rewrite Nat.eqb_refl. }
  destruct (py_index_total (rev (objects fs)) best best) as [k Hk];
    [now apply in_rev in Hin | exact Hself |].
  destruct (py_index_spec _ _ _ Hk) as (k' & x & -> & Hx & Hsame & Hbefore).
  pose proof (objects_from_length 0 fs) as Hol. fold (objects fs) in Hol.
  rewrite nth_error_rev in Hx.
  destruct (Nat.ltb_spec k' (List.length (objects fs))) as [Hlt | Hge];
    [| discriminate].
  rewrite Hol in Hlt, Hx.
  set (p := (List.length fs - S k')%nat) in *.
  rewrite objects_nth in Hx.
  destruct (nth_error fs p) as [fp |] eqn:Ep; cbn in Hx; [| discriminate].
  injection Hx as <-.
  assert (Hbest_nan : not_nan (obj_value best)).
  { rewrite Forall_forall in Hobj. auto. }
  exists (obj_value best), (Z.of_nat p).
  split.
  { unfold find_extremum. destruct xs; [congruence |].
    rewrite Hfs. cbn [bind]. rewrite Hbest. cbn [bind]. rewrite Hk. cbn [bind].
    do 3 f_equal. unfold py_len. rewrite Hol. subst p. lia. }
  split; [now apply objects_value_In |].
  split.
  { apply Forall_forall. intros f Hf.
    apply In_nth_error in Hf as [j Hj].
    rewrite Forall_forall in Hall.
    apply (Hall (mk_float_object j f)).
    eapply nth_error_In. rewrite objects_nth, Hj. reflexivity. }
  split; [unfold py_len; subst p; lia |].
  split.
  { exists fp. rewrite Nat2Z.id. split; [exact Ep |].
    unfold same_or_equal in Hsame. cbn [obj_id obj_value] in Hsame.
    destruct (Nat.eqb_spec p (obj_id best)) as [Hid | Hid]; [| exact Hsame].
    apply objects_In in Hin. rewrite <- Hid, Ep in Hin. injection Hin as ->.
    now apply FloatOrder.eqb_refl. }
  intros j f Hj Hf.
  assert (Hjlt : (Z.to_nat j < List.length fs)%nat).
  { apply nth_error_Some. congruence. }
  assert (Hrev : nth_error (rev (objects fs)) (List.length fs - S (Z.to_nat j)) =
                 Some (mk_float_object (Z.to_nat j) f)).
  { rewrite nth_error_rev, Hol.
    destruct (Nat.ltb_spec (List.length fs - S (Z.to_nat j)) (List.length fs));
      [| lia].
    replace (List.length fs - S (List.length fs - S (Z.to_nat j)))%nat
      with (Z.to_nat j) by lia.
    rewrite objects_nth, Hf. reflexivity. }
  apply Hbefore in Hrev; [| subst p; lia].
  unfold same_or_equal in Hrev. cbn [obj_id obj_value] in Hrev.
  apply orb_false_iff in Hrev. tauto.
Qed.

End Extremum.

Lemma find_min_unfold : find_min = find_extremum F64.ltb.
Proof. reflexivity. Qed.

Lemma find_max_unfold : find_max = find_extremum F64.gtb.
Proof. reflexivity. Qed.

(** ** [find_min] and [find_max] *)

Lemma ltb_irrefl (x : F64.float) : F64.ltb x x = false.
Proof.
  destruct (F64.is_nan x) eqn:Hx; [now destruct x |].
  rewrite FloatOrder.ltb_key by assumption. FloatOrder.lex_cases.
Qed.

Lemma find_min_spec (xs : list pyobj) (fs : list F64.float) :
  xs <> [] -> mapM py_float xs = OK fs -> Forall not_nan fs ->
  exists m i, find_min xs = OK (Some (m, i)) /\ is_last_minimum fs m i.
Proof.
  intros Hne Hfs Hnan.
  destruct (find_extremum_spec F64.ltb ltb_irrefl FloatOrder.ltb_trans
              FloatOrder.not_ltb_trans xs fs Hne Hfs Hnan)
    as (m & i & Hfind & Hin & Hall & Hi & Hat & Hafter).
  assert (Hm : not_nan m) by (rewrite Forall_forall in Hnan; auto).
  assert (Hle : Forall (fun f => F64.leb m f = true) fs).
  { rewrite Forall_forall in *. intros f Hf.
    apply FloatOrder.not_ltb_leb; [apply Hnan, Hf | exact Hm | apply Hall, Hf]. }
  exists m, i. split; [exact Hfind |].
  repeat split; try assumption; try apply Hi.
  intros j f Hj Hf.
  assert (Hfin : In f fs) by (eapply nth_error_In; eauto).
  rewrite Forall_forall in Hnan, Hle.
  apply FloatOrder.leb_not_eqb_ltb;
    [exact Hm | apply Hnan, Hfin | apply Hle, Hfin | eapply Hafter; eauto].
Qed.

Lemma find_max_spec (xs : list pyobj) (fs : list F64.float) :
  xs <> [] -> mapM py_float xs = OK fs -> Forall not_nan fs ->
  exists m i, find_max xs = OK (Some (m, i)) /\ is_last_maximum fs m i.
Proof.
  intros Hne Hfs Hnan.
  assert (Htrans : forall x y z, not_nan x -> not_nan y -> not_nan z ->
            F64.gtb x y = true -> F64.gtb y z = true -> F64.gtb x z = true).
  { unfold F64.gtb. intros x y z Hx Hy Hz H1 H2.
    now apply (FloatOrder.ltb_trans z y x). }
  assert (Hneg : forall x y z, not_nan x -> not_nan y -> not_nan z ->
            F64.gtb x y = false -> F64.gtb y z = false -> F64.gtb x z = false).
  { unfold F64.gtb. intros x y z Hx Hy Hz H1 H2.
    now apply (FloatOrder.not_ltb_trans z y x). }
  destruct (find_extremum_spec F64.gtb ltb_irrefl Htrans Hneg xs fs Hne Hfs Hnan)
    as (m & i & Hfind & Hin & Hall & Hi & Hat & Hafter).
  assert (Hm : not_nan m) by (rewrite Forall_forall in Hnan; auto).
  assert (Hle : Forall (fun f => F64.leb f m = true) fs).
  { rewrite Forall_forall in *. intros f Hf.
    apply FloatOrder.not_ltb_leb; [exact Hm | apply Hnan, Hf | apply (Hall f Hf)]. }
  exists m, i. split; [exact Hfind |].
  repeat split; try assumption; try apply Hi.
  intros j f Hj Hf.
  assert (Hfin : In f fs) by (eapply nth_error_In; eauto).
  rewrite Forall_forall in Hnan, Hle.
  apply FloatOrder.leb_not_eqb_ltb;
    [apply Hnan, Hfin | exact Hm | apply Hle, Hfin |].
  rewrite FloatOrder.eqb_sym. eapply Hafter; eauto.
Qed.

(** ** Integers below [2^53] convert exactly *)

Lemma digits2_pos_size (p : positive) : digits2_pos p = Pos.size p.
Proof. induction p; cbn; congruence. Qed.

Lemma iter_xO_value (p : positive) (d : positive) :
  Zpos (Pos.iter xO p d) = Zpos p * 2 ^ Zpos d.
Proof.
  induction d as [| d IH] using Pos.peano_ind.
  - cbn. lia.
  - rewrite Pos.iter_succ, Pos2Z.inj_succ, Z.pow_succ_r by lia.
    rewrite Pos2Z.inj_xO, IH. ring.
Qed.

Lemma iter_xO_size (p : positive) (d : positive) :
  Zpos (Pos.size (Pos.iter xO p d)) = Zpos (Pos.size p) + Zpos d.
Proof.
  induction d as [| d IH] using Pos.peano_ind.
  - cbn. lia.
  - rewrite Pos.iter_succ. cbn [Pos.size]. rewrite Pos2Z.inj_succ, IH. lia.
Qed.

Lemma binary_round_aux_canonical (s : bool) (m : positive) (e : Z) :
  Zpos (Pos.size m) = 53 -> -1074 <= e <= 971 ->
  binary_round_aux F64.prec F64.emax s (Zpos m) e loc_Exact = S754_finite s m e.
Proof.
  intros Hm He.
  assert (Hshift : fexp F64.prec F64.emax (Zdigits2 (Zpos m) + e) - e = 0).
  { cbn [Zdigits2]. rewrite digits2_pos_size, Hm.
    unfold fexp, emin, F64.prec, F64.emax. lia. }
  unfold binary_round_aux, shr_fexp.
  rewrite Hshift. cbn [shr shr_record_of_loc shr_m loc_of_shr_record
                        round_nearest_even].
  rewrite Hshift. cbn [shr shr_record_of_loc shr_m].
  destruct (Z.leb_spec e (F64.emax - F64.prec)) as [_ | H];
    [reflexivity | unfold F64.emax, F64.prec in H; lia].
Qed.

Lemma normal_mantissa_size (p : positive) :
  Zpos (Pos.size p) <= 53 -> Zpos (Pos.size (normal_mantissa p)) = 53.
Proof.
  intros H. unfold normal_mantissa.
  destruct (53 - Zpos (Pos.size p)) as [| d | d] eqn:Ed; [lia | | lia].
  rewrite iter_xO_size. lia.
Qed.

Lemma normal_mantissa_value (p : positive) :
  Zpos (Pos.size p) <= 53 ->
  Zpos (normal_mantissa p) = Zpos p * 2 ^ (53 - Zpos (Pos.size p)).
Proof.
  intros H. unfold normal_mantissa.
  destruct (53 - Zpos (Pos.size p)) as [| d | d] eqn:Ed; [| | lia].
  - cbn. lia.
  - apply iter_xO_value.
Qed.

Lemma binary_round_small (s : bool) (p : positive) :
  Zpos (Pos.size p) <= 53 ->
  binary_round F64.prec F64.emax s p 0 =
    S754_finite s (normal_mantissa p) (Zpos (Pos.size p) - 53).
Proof.
  intros Hsize.
  pose proof (normal_mantissa_size p Hsize) as Hnm.
  unfold binary_round.
  rewrite digits2_pos_size.
  assert (Hfexp : fexp F64.prec F64.emax (Zpos (Pos.size p) + 0)
                  = Zpos (Pos.size p) - 53).
  { unfold fexp, emin, F64.prec, F64.emax. lia. }
  rewrite Hfexp. unfold shl_align, normal_mantissa in *.
  replace (Zpos (Pos.size p) - 53 - 0) with (- (53 - Zpos (Pos.size p))) by lia.
  destruct (53 - Zpos (Pos.size p)) as [| d | d] eqn:Ed; cbn [Z.opp].
  - replace (Zpos (Pos.size p) - 53) with 0 by lia.
    apply binary_round_aux_canonical; [exact Hnm | lia].
  - apply binary_round_aux_canonical; [exact Hnm | lia].
  - lia.
Qed.

Lemma small_size (p : positive) : Zpos p < 2 ^ 53 -> Zpos (Pos.size p) <= 53.
Proof.
  intros H.
  destruct (Z.le_gt_cases (Zpos (Pos.size p)) 53) as [Hle | Hgt]; [exact Hle |].
  pose proof (Pos.size_le p) as Hs.
  assert (H2 : 2 ^ Zpos (Pos.size p) <= 2 * Zpos p).
  { rewrite <- Pos2Z.inj_pow. change (2 * Zpos p) with (Zpos p~0).
    apply Pos2Z.pos_le_pos. exact Hs. }
  assert (2 ^ 54 <= 2 ^ Zpos (Pos.size p)) by (apply Z.pow_le_mono_r; lia).
  change (2 ^ 54) with (2 * 2 ^ 53) in *. lia.
Qed.

(** The double of a small integer, constructor by constructor. *)
Lemma of_Z_small (z : Z) :
  small z ->
  F64.of_Z z =
    match z with
    | Z0 => S754_zero false
    | Zpos p => S754_finite false (normal_mantissa p) (Zpos (Pos.size p) - 53)
    | Zneg p => S754_finite true (normal_mantissa p) (Zpos (Pos.size p) - 53)
    end.
Proof.
  unfold small, F64.of_Z, binary_normalize. intros H.
  destruct z as [| p | p]; [reflexivity | |];
    apply binary_round_small, small_size; cbn in H; lia.
Qed.




Lemma of_Z_small_finite (z : Z) :
  small z -> F64.is_finite (F64.of_Z z) = true /\ not_nan (F64.of_Z z).
Proof.
  intros H. rewrite (of_Z_small z H). unfold not_nan.
  destruct z; split; reflexivity.
Qed.




Lemma floats_of_small_integers (zs : list Z) :
  Forall small zs ->
  mapM py_float (map PyInt zs) = OK (map F64.of_Z zs) /\
  Forall not_nan (map F64.of_Z zs).
Proof.
  induction 1 as [| z zs Hz _ [IH1 IH2]]; cbn [map mapM].
  - split; [reflexivity | constructor].
  - destruct (of_Z_small_finite z Hz) as [Hfin Hnan].
    split; [| now constructor].
    cbn [py_float]. rewrite Hfin. cbn [bind]. now rewrite IH1.
Qed.







(** ** [convert_f_to_c] *)





(** ** [calculate_mean] *)

Lemma calculate_mean_nonempty (xs : list pyobj) (fs : list F64.float) :
  xs <> [] -> mapM py_float xs = OK fs -> calculate_mean xs = OK (mean_of fs).
Proof.
  intros Hne Hfs. unfold calculate_mean, py_truediv, mean_of.
  rewrite Hfs. cbn [bind].
  apply mapM_length in Hfs.
  destruct (Z.eqb_spec (py_len fs) 0) as [H0 | H0]; [| reflexivity].
  unfold py_len in H0. destruct xs; [congruence |]. cbn in Hfs. lia.
Qed.

(** ** Sums of small integers are exact *)

Lemma iter_pos_iter {A : Type} (f : A -> A) (n : positive) :
  forall x, iter_pos f n x = Pos.iter f x n.
Proof.
  induction n as [n IH | n IH |]; intros x; cbn.
  - rewrite !IH. now rewrite <- !Pos.iter_swap.
  - now rewrite !IH.
  - reflexivity.
Qed.

(** Shifting out zeros loses nothing. *)
Lemma shr_exact (q : positive) (n : positive) :
  iter_pos shr_1 n (exact_record (Pos.iter xO q n)) = exact_record q.
Proof.
  rewrite iter_pos_iter.
  induction n as [| n IH] using Pos.peano_ind.
  - reflexivity.
  - rewrite Pos.iter_succ_r, Pos.iter_succ. exact IH.
Qed.

Lemma size_shift (c P : positive) (k : Z) :
  0 <= k -> Zpos P = Zpos c * 2 ^ k ->
  Zpos (Pos.size P) = Zpos (Pos.size c) + k.
Proof.
  intros Hk HP. destruct k as [| d | d]; [| | lia].
  - rewrite Z.pow_0_r, Z.mul_1_r in HP. injection HP as ->. lia.
  - rewrite <- iter_xO_value in HP. injection HP as ->. apply iter_xO_size.
Qed.

(** Rounding [c * 2^k] at exponent [-k] gives the double of [c]. *)
Lemma binary_round_shifted (s : bool) (c P : positive) (k : Z) :
  0 <= k -> Zpos P = Zpos c * 2 ^ k -> Zpos (Pos.size c) <= 53 ->
  binary_round F64.prec F64.emax s P (- k) =
    S754_finite s (normal_mantissa c) (Zpos (Pos.size c) - 53).
Proof.
  intros Hk HP Hc.
  pose proof (size_shift c P k Hk HP) as HsP.
  pose proof (normal_mantissa_size c Hc) as Hnm.
  pose proof (normal_mantissa_value c Hc) as Hnv.
  assert (Hc1 : 1 <= Zpos (Pos.size c)) by lia.
  set (t := Zpos (Pos.size c) - 53) in *.
  unfold binary_round. rewrite digits2_pos_size, HsP.
  assert (Hfexp : fexp F64.prec F64.emax (Zpos (Pos.size c) + k + - k) = t).
  { unfold fexp, emin, F64.prec, F64.emax. subst t. lia. }
  rewrite Hfexp. unfold shl_align.
  replace (t - - k) with (t + k) by lia.
  destruct (t + k) as [| d | d] eqn:Ed.
  - (* already canonical *)
    assert (HPn : P = normal_mantissa c).
    { apply Pos2Z.inj. rewrite HP, Hnv. f_equal. f_equal. subst t. lia. }
    rewrite HPn. replace (- k) with t by lia.
    apply binary_round_aux_canonical; [exact Hnm | subst t; lia].
  - (* trailing zeros to drop *)
    assert (HPn : P = Pos.iter xO (normal_mantissa c) d).
    { apply Pos2Z.inj. rewrite iter_xO_value, HP, Hnv, <- Z.mul_assoc.
      f_equal. rewrite <- Z.pow_add_r by (subst t; lia).
      f_equal. subst t. lia. }
    unfold binary_round_aux, shr_fexp.
    cbn [Zdigits2]. rewrite digits2_pos_size, HsP.
    rewrite Hfexp. replace (t - - k) with (Zpos d) by lia.
    cbn [shr shr_record_of_loc].
    rewrite HPn. change ({| shr_m := Z.pos (Pos.iter xO (normal_mantissa c) d);
                           shr_r := false; shr_s := false |})
      with (exact_record (Pos.iter xO (normal_mantissa c) d)).
    rewrite shr_exact.
    cbn [exact_record shr_m loc_of_shr_record round_nearest_even Zdigits2].
    rewrite digits2_pos_size, Hnm.
    replace (- k + Zpos d) with t by lia.
    assert (Hshift : fexp F64.prec F64.emax (53 + t) - t = 0).
    { unfold fexp, emin, F64.prec, F64.emax. subst t. lia. }
    rewrite Hshift. cbn [shr shr_record_of_loc shr_m].
    destruct (Z.leb_spec t (F64.emax - F64.prec)) as [_ | H];
      [reflexivity | unfold F64.emax, F64.prec in H; subst t; lia].
  - (* digits to add *)
    assert (HPn : Pos.iter xO P d = normal_mantissa c).
    { apply Pos2Z.inj. rewrite iter_xO_value, HP, Hnv, <- Z.mul_assoc.
      f_equal. rewrite <- Z.pow_add_r by lia.
      f_equal. subst t. lia. }
    rewrite HPn.
    apply binary_round_aux_canonical; [exact Hnm | subst t; lia].
Qed.

Lemma binary_normalize_shifted (c k : Z) :
  0 <= k -> small c ->
  binary_normalize F64.prec F64.emax (c * 2 ^ k) (- k) false = F64.of_Z c.
Proof.
  intros Hk Hc. rewrite (of_Z_small c Hc).
  assert (Hpow : 0 < 2 ^ k) by (apply Z.pow_pos_nonneg; lia).
  unfold small in Hc.
  destruct c as [| p | p].
  - reflexivity.
  - destruct (Zpos p * 2 ^ k) as [| P | P] eqn:EP; [lia | | lia].
    cbn [binary_normalize].
    apply binary_round_shifted; [exact Hk | now symmetry | apply small_size; lia].
  - destruct (Zneg p * 2 ^ k) as [| P | P] eqn:EP; [lia | lia |].
    cbn [binary_normalize].
    apply binary_round_shifted; [exact Hk | | apply small_size; lia].
    lia.
Qed.

Lemma shl_align_value (m : positive) (e ez : Z) :
  ez <= e -> Zpos (fst (shl_align m e ez)) = Zpos m * 2 ^ (e - ez).
Proof.
  intros H. unfold shl_align.
  destruct (ez - e) as [| d | d] eqn:Ed; cbn [fst].
  - replace (e - ez) with 0 by lia. cbn. lia.
  - lia.
  - rewrite iter_xO_value. f_equal. f_equal. lia.
Qed.

(** The mantissa of the double of a small integer, aligned on an exponent
    [ez] below its own, is the integer scaled by [2^(-ez)]. *)
Lemma normal_scaled (p : positive) (ez : Z) :
  Zpos p < 2 ^ 53 -> ez <= Zpos (Pos.size p) - 53 ->
  Zpos (fst (shl_align (normal_mantissa p) (Zpos (Pos.size p) - 53) ez))
  = Zpos p * 2 ^ (- ez).
Proof.
  intros Hp Hle.
  assert (Hs : Zpos (Pos.size p) <= 53) by (apply small_size; exact Hp).
  rewrite shl_align_value by exact Hle.
  rewrite (normal_mantissa_value p Hs).
  rewrite <- Z.mul_assoc, <- Z.pow_add_r by lia.
  f_equal. f_equal. lia.
Qed.

Lemma add_finite_small (sa sb : bool) (pa pb : positive) :
  Zpos pa < 2 ^ 53 -> Zpos pb < 2 ^ 53 ->
  small (cond_Zopp sa (Zpos pa) + cond_Zopp sb (Zpos pb)) ->
  F64.add
    (S754_finite sa (normal_mantissa pa) (Zpos (Pos.size pa) - 53))
    (S754_finite sb (normal_mantissa pb) (Zpos (Pos.size pb) - 53))
  = F64.of_Z (cond_Zopp sa (Zpos pa) + cond_Zopp sb (Zpos pb)).
Proof.
  intros Ha Hb Hab.
  assert (Hsa : Zpos (Pos.size pa) <= 53) by (apply small_size; exact Ha).
  assert (Hsb : Zpos (Pos.size pb) <= 53) by (apply small_size; exact Hb).
  set (ea := Zpos (Pos.size pa) - 53) in *.
  set (eb := Zpos (Pos.size pb) - 53) in *.
  unfold F64.add, SFadd. cbv zeta.
  assert (Hmin : 0 <= - Z.min ea eb) by (subst ea eb; lia).
  subst ea eb.
  rewrite (normal_scaled pa (Z.min _ _) Ha (Z.le_min_l _ _)).
  rewrite (normal_scaled pb (Z.min _ _) Hb (Z.le_min_r _ _)).
  set (k := - Z.min (Zpos (Pos.size pa) - 53) (Zpos (Pos.size pb) - 53)) in *.
  replace (Z.min (Zpos (Pos.size pa) - 53) (Zpos (Pos.size pb) - 53))
    with (- k) by (subst k; lia).
  replace (cond_Zopp sa (Zpos pa * 2 ^ k) + cond_Zopp sb (Zpos pb * 2 ^ k))
    with ((cond_Zopp sa (Zpos pa) + cond_Zopp sb (Zpos pb)) * 2 ^ k).
  2: { destruct sa, sb; cbn [cond_Zopp]; ring. }
  apply binary_normalize_shifted; [exact Hmin | exact Hab].
Qed.

(** The float sum of two small integers whose sum is small is the float of
    their sum. *)
Lemma add_small (a b : Z) :
  small a -> small b -> small (a + b) ->
  F64.add (F64.of_Z a) (F64.of_Z b) = F64.of_Z (a + b).
Proof.
  intros Ha Hb Hab.
  rewrite (of_Z_small a Ha), (of_Z_small b Hb).
  unfold small in Ha, Hb.
  destruct a as [| pa | pa], b as [| pb | pb]; cbn [Z.add] in Hab |- *.
  - reflexivity.
  - rewrite (of_Z_small _ Hab). reflexivity.
  - rewrite (of_Z_small _ Hab). reflexivity.
  - rewrite (of_Z_small _ Hab). reflexivity.
  - apply (add_finite_small false false pa pb); [lia | lia | exact Hab].
  - apply (add_finite_small false true pa pb); [lia | lia | exact Hab].
  - rewrite (of_Z_small _ Hab). reflexivity.
  - apply (add_finite_small true false pa pb); [lia | lia | exact Hab].
  - apply (add_finite_small true true pa pb); [lia | lia | exact Hab].
Qed.

Lemma small_bound (z : Z) : small z <-> Z.abs z < 2 ^ 53.
Proof. reflexivity. Qed.

Lemma total_magnitude_cons (z : Z) (zs : list Z) :
  total_magnitude (z :: zs) = Z.abs z + total_magnitude zs.
Proof. reflexivity. Qed.

Lemma total_magnitude_nonneg (zs : list Z) : 0 <= total_magnitude zs.
Proof.
  induction zs as [| z zs IH]; [cbn; lia |].
  rewrite total_magnitude_cons. lia.
Qed.

Lemma Zsum_cons (z : Z) (zs : list Z) : Zsum (z :: zs) = z + Zsum zs.
Proof. reflexivity. Qed.

Lemma fold_add_small (zs : list Z) :
  forall acc,
    Z.abs acc + total_magnitude zs < 2 ^ 53 ->
    fold_left F64.add (map F64.of_Z zs) (F64.of_Z acc) = F64.of_Z (acc + Zsum zs).
Proof.
  induction zs as [| z zs IH]; intros acc H.
  - cbn [map fold_left]. change (Zsum []) with 0. now rewrite Z.add_0_r.
  - rewrite total_magnitude_cons in H.
    pose proof (total_magnitude_nonneg zs) as H0.
    cbn [map fold_left].
    rewrite add_small by (apply small_bound; lia).
    rewrite IH by lia.
    rewrite Zsum_cons. f_equal. ring.
Qed.

(** The float sum of integers whose magnitudes add up to less than [2^53]
    is the float of their sum. *)
Lemma py_sum_small (zs : list Z) :
  total_magnitude zs < 2 ^ 53 ->
  py_sum (map F64.of_Z zs) = F64.of_Z (Zsum zs).
Proof.
  intros H. unfold py_sum.
  change F64.zero with (F64.of_Z 0).
  rewrite fold_add_small by (change (Z.abs 0) with 0; lia). reflexivity.
Qed.

Lemma total_magnitude_small (zs : list Z) :
  total_magnitude zs < 2 ^ 53 -> Forall small zs.
Proof.
  induction zs as [| z zs IH]; intros H; constructor;
    rewrite total_magnitude_cons in H;
    pose proof (total_magnitude_nonneg zs) as H0.
  - apply small_bound. lia.
  - apply IH. lia.
Qed.

(** Over integers whose magnitudes add up to less than [2^53], the mean is
    the quotient, rounded once, of the exact sum by the number of values. *)
Lemma calculate_mean_integers (zs : list Z) :
  zs <> [] -> total_magnitude zs < 2 ^ 53 ->
  calculate_mean (map PyInt zs) =
    OK (F64.div (F64.of_Z (Zsum zs)) (F64.of_Z (py_len zs))).
Proof.
  intros Hne H.
  destruct (floats_of_small_integers zs (total_magnitude_small zs H)) as [Hfs _].
  assert (Hne' : map PyInt zs <> []) by (destruct zs; [congruence | discriminate]).
  rewrite (calculate_mean_nonempty _ _ Hne' Hfs).
  unfold mean_of. rewrite py_sum_small by exact H.
  unfold py_len. now rewrite length_map.
Qed.



(** ** [load_data_from_csv] *)

Lemma mapM_app {A B : Type} (f : A -> result B) (xs ys : list A) :
  mapM f (xs ++ ys)%list =
  let* a := mapM f xs in let* b := mapM f ys in OK (a ++ b)%list.
Proof.
  induction xs as [| x xs IH]; cbn.
  - destruct (mapM f ys); reflexivity.
  - destruct (f x) as [y | e]; cbn; [| reflexivity].
    rewrite IH. destruct (mapM f xs) as [a | e]; cbn; [| reflexivity].
    destruct (mapM f ys); reflexivity.
Qed.

Lemma mapM_Raise {A B : Type} (f : A -> result B) (xs : list A) (e : exn) :
  mapM f xs = Raise e -> exists x, In x xs /\ f x = Raise e.
Proof.
  induction xs as [| x xs IH]; cbn; intros H; [discriminate |].
  destruct (f x) as [y | e'] eqn:E; cbn in H.
  - destruct (mapM f xs) as [ys | e'']; cbn in H; [discriminate |].
    injection H as ->. destruct IH as (x' & Hin & Hx'); [reflexivity |].
    exists x'. split; [now right | exact Hx'].
  - injection H as ->. exists x. split; [now left | exact E].
Qed.

Lemma mapM_In_Raise {A B : Type} (f : A -> result B) (xs : list A) (x : A) :
  In x xs -> fails (f x) -> fails (mapM f xs).
Proof.
  induction xs as [| a xs IH]; cbn; intros Hin Hx; [contradiction |].
  destruct (f a) as [y | e] eqn:E; cbn; [| now exists e].
  destruct Hin as [-> | Hin].
  - destruct Hx as [e He]. congruence.
  - destruct (IH Hin Hx) as [e ->]. now exists e.
Qed.

Lemma mapM_Forall2 {A B : Type} (f : A -> result B) (xs : list A) (ys : list B) :
  mapM f xs = OK ys <-> Forall2 (fun x y => f x = OK y) xs ys.
Proof.
  revert ys. induction xs as [| x xs IH]; intros ys; cbn.
  - split.
    + intros H. injection H as <-. constructor.
    + intros H. inversion H. reflexivity.
  - split.
    + intros H. apply bind_inv in H as (y & Hy & H).
      apply bind_inv in H as (ys' & Hys & H). injection H as <-.
      constructor; [exact Hy | now apply IH].
    + intros H. inversion H as [| ? y ? ys' Hy Hys]; subst.
      apply IH in Hys. now rewrite Hy, Hys.
Qed.

(** The loop appends the records of the rows that are not empty. *)
Lemma load_rows_spec (rows : list (list string)) :
  forall data,
    load_rows rows data =
    let* rs := mapM processed_row (filter non_empty rows) in
    OK (data ++ rs)%list.
Proof.
  induction rows as [| row rows IH]; intros data; cbn.
  - now rewrite app_nil_r.
  - destruct row as [| f fs]; cbn [non_empty]; [apply IH |].
    cbn [mapM]. destruct (processed_row (f :: fs)) as [r | e]; cbn [bind];
      [| reflexivity].
    rewrite IH.
    destruct (mapM processed_row (filter non_empty rows)); cbn [bind];
      [| reflexivity].
    now rewrite <- app_assoc.
Qed.

Lemma load_data_from_csv_spec (header : list string) (rows : list (list string)) :
  load_data_from_csv (header :: rows) =
  mapM processed_row (filter non_empty rows).
Proof.
  cbn. rewrite load_rows_spec.
  destruct (mapM processed_row (filter non_empty rows)); reflexivity.
Qed.

Lemma py_getitem_nth {A : Type} (l : list A) (n : nat) :
  py_getitem l (Z.of_nat n) =
  match nth_error l n with
  | Some x => OK x
  | None => Raise IndexError
  end.
Proof.
  unfold py_getitem, py_len.
  destruct (Z.ltb_spec (Z.of_nat n) 0) as [H | _]; [lia |].
  destruct (Z.leb_spec 0 (Z.of_nat n)) as [_ | H]; [| lia].
  rewrite Nat2Z.id. cbn [andb].
  destruct (Z.ltb_spec (Z.of_nat n) (Z.of_nat (List.length l))) as [H | H].
  - reflexivity.
  - destruct (nth_error l n) eqn:E; [| reflexivity].
    assert (n < List.length l)%nat by (apply nth_error_Some; congruence). lia.
Qed.

Lemma py_getitem_0 {A : Type} (l : list A) :
  py_getitem l 0 =
  match nth_error l 0 with Some x => OK x | None => Raise IndexError end.
Proof. exact (py_getitem_nth l 0). Qed.

Lemma py_getitem_1 {A : Type} (l : list A) :
  py_getitem l 1 =
  match nth_error l 1 with Some x => OK x | None => Raise IndexError end.
Proof. exact (py_getitem_nth l 1). Qed.

Lemma py_getitem_2 {A : Type} (l : list A) :
  py_getitem l 2 =
  match nth_error l 2 with Some x => OK x | None => Raise IndexError end.
Proof. exact (py_getitem_nth l 2). Qed.

Lemma processed_row_OK (row : list string) (r : list pyobj) :
  processed_row row = OK r <-> row_record row r.
Proof.
  unfold processed_row, row_record.
  rewrite py_getitem_0, py_getitem_1, py_getitem_2.
  destruct row as [| f0 [| f1 [| f2 rest]]]; cbn.
  - split; [discriminate | intros (? & ? & ? & ? & ? & ? & H & _); discriminate].
  - split; [discriminate | intros (? & ? & ? & ? & ? & ? & H & _); discriminate].
  - split.
    + destruct (Text.parse_int f1); cbn; discriminate.
    + intros (? & ? & ? & ? & ? & ? & H & _); discriminate.
  - split.
    + destruct (Text.parse_int f1) as [i1 |] eqn:E1; cbn; [| discriminate].
      destruct (Text.parse_int f2) as [i2 |] eqn:E2; cbn; [| discriminate].
      intros H. injection H as <-.
      exists f0, f1, f2, rest, i1, i2. auto.
    + intros (g0 & g1 & g2 & rest' & i1 & i2 & H & H1 & H2 & ->).
      injection H as -> -> -> ->. now rewrite H1, H2.
Qed.

Lemma processed_row_Raise (row : list string) (e : exn) :
  processed_row row = Raise e ->
  malformed_row row /\ (e = IndexError \/ e = ValueError).
Proof.
  unfold processed_row, malformed_row.
  rewrite py_getitem_0, py_getitem_1, py_getitem_2.
  destruct row as [| f0 [| f1 [| f2 rest]]]; cbn.
  - intros H. injection H as <-. split; [left; lia | now left].
  - intros H. injection H as <-. split; [left; lia | now left].
  - destruct (Text.parse_int f1); cbn; intros H; injection H as <-;
      (split; [left; lia | auto]).
  - destruct (Text.parse_int f1) as [i1 |] eqn:E1; cbn.
    + destruct (Text.parse_int f2) as [i2 |] eqn:E2; cbn; [discriminate |].
      intros H. injection H as <-. split; [| now right].
      right. right. now exists f2.
    + intros H. injection H as <-. split; [| now right].
      right. left. now exists f1.
Qed.

Lemma malformed_row_fails (row : list string) :
  malformed_row row -> fails (processed_row row).
Proof.
  intros H. destruct (processed_row row) as [r | e] eqn:E; [| now exists e].
  exfalso. apply processed_row_OK in E.
  destruct E as (f0 & f1 & f2 & rest & i1 & i2 & -> & H1 & H2 & _).
  destruct H as [H | [(g & Hg & Hn) | (g & Hg & Hn)]]; cbn in *.
  - lia.
  - injection Hg as <-. congruence.
  - injection Hg as <-. congruence.
Qed.

(** C10. A source that has its header row and no data row loads as the
    empty list, and a source with no row at all makes [load_data_from_csv]
    fail, with the [StopIteration] of the attempt to read the header. *)
Theorem load_data_from_csv_header_only :
  (forall header : list string, load_data_from_csv [header] = OK []) /\
  load_data_from_csv [] = Raise StopIteration /\
  fails (load_data_from_csv []).
Proof.
  split; [reflexivity |]. split; [reflexivity |].
  now exists StopIteration.
Qed.

Lemma filter_non_empty_In (rows : list (list string)) (row : list string) :
  In row rows -> row <> [] -> In row (filter non_empty rows).
Proof.
  intros Hin Hne. apply filter_In. split; [exact Hin |].
  destruct row; [congruence | reflexivity].
Qed.

(** The load succeeds exactly when every row that is not empty has a
    record, and then returns these records in the order of the rows. *)
Lemma load_data_from_csv_OK (header : list string) (rows : list (list string))
    (data : list (list pyobj)) :
  load_data_from_csv (header :: rows) = OK data <->
  Forall2 row_record (filter non_empty rows) data.
Proof.
  rewrite load_data_from_csv_spec, mapM_Forall2. split; intros H.
  - eapply Forall2_impl; [| exact H].
    intros row r. apply processed_row_OK.
  - eapply Forall2_impl; [| exact H].
    intros row r. apply processed_row_OK.
Qed.

(** C4, as the code has it.  [load_data_from_csv] skips the header row and
    the rows without any field.  It succeeds exactly when every other row
    has at least three fields, the second and third of which read as
    integers, and then returns, in order, the first field and the two
    integers of each such row: fields beyond the third are ignored.  It
    raises [IndexError] or [ValueError] as soon as some row that is not
    empty is shorter than three fields or has a second or third field that
    is not an integer, and never makes up a number for such a field.  A
    field is an integer as [int] reads it: white space around, an optional
    sign and decimal digits of any script, at most 4300 of them. *)
Theorem load_data_from_csv_rows :
  (forall (header : list string) (rows : list (list string)),
     (forall data,
        load_data_from_csv (header :: rows) = OK data <->
        Forall2 row_record (filter non_empty rows) data) /\
     ((exists row, In row rows /\ row <> [] /\ malformed_row row) ->
      exists e, load_data_from_csv (header :: rows) = Raise e /\
                (e = IndexError \/ e = ValueError)) /\
     (fails (load_data_from_csv (header :: rows)) ->
      exists row, In row rows /\ row <> [] /\ malformed_row row)) /\
  map Text.parse_int [""; " "; "abc"; "12.5"; "1e3"; "3x"]
    = [None; None; None; None; None; None]%list /\
  load_data_from_csv [["date"; "min"; "max"]; ["d"; arabic_indic_3; "4"]]%list
    = OK [[PyStr "d"; PyInt 3; PyInt 4]]%list /\
  load_data_from_csv
    [["date"; "min"; "max"]; ["d"; replicate 4301 "9"%char; "4"]]%list
    = Raise ValueError.
Proof.
  split; [| split; [reflexivity | split; vm_compute; reflexivity]].
  intros header rows.
  split; [intros data; apply load_data_from_csv_OK |].
  rewrite load_data_from_csv_spec. split.
  - intros (row & Hin & Hne & Hbad).
    destruct (mapM_In_Raise processed_row (filter non_empty rows) row) as [e He].
    + now apply filter_non_empty_In.
    + now apply malformed_row_fails.
    + exists e. split; [exact He |].
      apply mapM_Raise in He as (row' & _ & Hrow').
      now apply processed_row_Raise in Hrow'.
  - intros [e He]. apply mapM_Raise in He as (row & Hin & Hrow).
    apply filter_In in Hin as [Hin Hne].
    exists row. split; [exact Hin |]. split.
    + destruct row; [discriminate | discriminate].
    + now apply processed_row_Raise in Hrow.
Qed.

Lemma load_data_from_csv_rows_witness :
  exists e,
    load_data_from_csv [["date"; "min"; "max"]; ["2021-07-06"; "30"]]%list = Raise e /\
    (e = IndexError \/ e = ValueError).
Proof.
  apply (proj1 (proj2 (proj1 load_data_from_csv_rows
                         ["date"; "min"; "max"]%list
                         [["2021-07-06"; "30"]]%list))).
  exists ["2021-07-06"; "30"]%list.
  split; [now left |]. split; [discriminate |].
  left. cbn. lia.
Defined.

(** A row of four fields is loaded from its first three. *)
Lemma load_data_from_csv_long_row_accepted : ~ every_malformed_row_fails.
Proof.
  intros H.
  destruct (H ["date"; "min"; "max"]%list
              [["2021-07-06"; "30"; "80"; "extra"]]%list
              ["2021-07-06"; "30"; "80"; "extra"]%list) as [e He].
  - now left.
  - discriminate.
  - left. discriminate.
  - discriminate He.
Qed.

(** C9. A source made of a header row and of data rows that are empty or
    well formed loads as one record per row that is not empty, in the order
    of the rows; the summaries are functions of the loaded data, so that
    equal inputs give equal strings. *)
Theorem load_data_from_csv_round_trip :
  (forall (header : list string) (rows : list (list string)),
     Forall (fun row => row = [] \/ exists r, row_record row r) rows ->
     exists data,
       load_data_from_csv (header :: rows) = OK data /\
       List.length data = List.length (filter non_empty rows) /\
       Forall2 row_record (filter non_empty rows) data) /\
  (forall d1 d2 : list (list pyobj),
     d1 = d2 ->
     generate_summary d1 = generate_summary d2 /\
     generate_daily_summary d1 = generate_daily_summary d2).
Proof.
  split.
  - intros header rows Hrows.
    assert (H : exists data, Forall2 row_record (filter non_empty rows) data).
    { induction Hrows as [| row rows Hrow _ IH]; cbn.
      - exists []. constructor.
      - destruct IH as [data IH].
        destruct Hrow as [-> | [r Hr]]; cbn; [now exists data |].
        destruct row; cbn.
        + destruct Hr as (? & ? & ? & ? & ? & ? & Hr & _). discriminate.
        + exists (r :: data). now constructor. }
    destruct H as [data H]. exists data.
    split; [now apply load_data_from_csv_OK |].
    split; [| exact H].
    symmetry. eapply Forall2_length, H.
  - intros d1 d2 ->. split; reflexivity.
Qed.

Lemma load_data_from_csv_round_trip_witness :
  exists data,
    load_data_from_csv
      [["date"; "min"; "max"]; ["2021-07-06"; "30"; "80"]; [];
       ["2021-07-07"; "20"; "90"]]%list = OK data /\
    List.length data = 2%nat /\
    Forall2 row_record
      [["2021-07-06"; "30"; "80"]; ["2021-07-07"; "20"; "90"]]%list data.
Proof.
  apply (proj1 load_data_from_csv_round_trip
           ["date"; "min"; "max"]%list
           [["2021-07-06"; "30"; "80"]; []; ["2021-07-07"; "20"; "90"]]%list).
  apply Forall_cons; [| apply Forall_cons; [| apply Forall_cons; [| apply Forall_nil]]].
  - right. exists [PyStr "2021-07-06"; PyInt 30; PyInt 80]%list.
    now exists "2021-07-06", "30", "80", []%list, 30, 80.
  - now left.
  - right. exists [PyStr "2021-07-07"; PyInt 20; PyInt 90]%list.
    now exists "2021-07-07", "20", "90", []%list, 20, 90.
Defined.

(** ** Empty input *)

(** C5. On the empty list [find_min] and [find_max] return the empty
    tuple, neither an exception nor a number, and [generate_summary] and
    [generate_daily_summary] return the empty string: whatever function is
    bound to [calculate_mean] is not called, and [calculate_mean] itself
    would have raised an exception on the empty list. *)
Theorem empty_input :
  find_min [] = OK None /\
  find_max [] = OK None /\
  (forall mean, generate_summary_with mean [] = OK "") /\
  generate_summary [] = OK "" /\
  generate_daily_summary [] = OK "" /\
  fails (calculate_mean []).
Proof.
  repeat split; try reflexivity.
  now exists ZeroDivisionError.
Qed.

(** ** The summaries *)

Lemma append_assoc (a b c : string) : (a ++ b) ++ c = a ++ b ++ c.
Proof. induction a as [| x a IH]; cbn; [reflexivity | now rewrite IH]. Qed.

Lemma append_nil_r (a : string) : a ++ "" = a.
Proof. induction a as [| x a IH]; cbn; [reflexivity | now rewrite IH]. Qed.

Lemma py_float_int_succeeds (z : Z) :
  succeeds (py_float (PyInt z)) ->
  py_float (PyInt z) = OK (F64.of_Z z) /\ not_nan (F64.of_Z z).
Proof.
  intros [f Hf]. cbn in *.
  destruct (F64.is_finite (F64.of_Z z)) eqn:E; [| discriminate].
  split; [reflexivity |].
  unfold not_nan. now destruct (F64.of_Z z).
Qed.

Lemma convert_f_to_c_float (x : F64.float) :
  convert_f_to_c (PyFloat x) = OK (celsius x).
Proof. reflexivity. Qed.

Lemma format_temperature_float (x : F64.float) :
  format_temperature (PyFloat x) = OK (temperature_text x).
Proof. reflexivity. Qed.





Lemma example_records_well_formed : Forall well_formed example_records.
Proof.
  repeat constructor; cbn; eexists; reflexivity.
Qed.






Lemma celsius_list_spec (temps : list F64.float) :
  celsius_list temps = OK (map celsius temps).
Proof.
  unfold celsius_list. apply mapM_total.
  apply Forall_forall. intros x _. reflexivity.
Qed.

Lemma calculate_mean_floats (fs : list F64.float) :
  fs <> [] -> calculate_mean (map PyFloat fs) = OK (mean_of fs).
Proof.
  intros Hne. apply calculate_mean_nonempty.
  - destruct fs; [congruence | discriminate].
  - apply mapM_py_float_floats.
Qed.

Lemma py_getitem_in_range {A : Type} (l : list A) (i : Z) :
  0 <= i < py_len l ->
  exists x, nth_error l (Z.to_nat i) = Some x /\ py_getitem l i = OK x.
Proof.
  intros Hi. unfold py_len in Hi.
  destruct (nth_error l (Z.to_nat i)) as [x |] eqn:E.
  - exists x. split; [reflexivity |].
    rewrite <- (Z2Nat.id i) by lia. now rewrite py_getitem_nth, E.
  - apply nth_error_None in E. lia.
Qed.




(** The worked example of the two records, as text. *)
Example generate_summary_example :
  generate_summary (map row_of example_records) =
    OK ("2 Day Overview" ++ newline ++
        "  The lowest temperature will be -6.7" ++ DEGREE_SYMBOL ++
        ", and will occur on Wednesday 07 July 2021." ++ newline ++
        "  The highest temperature will be 32.2" ++ DEGREE_SYMBOL ++
        ", and will occur on Wednesday 07 July 2021." ++ newline ++
        "  The average low this week is -3.9" ++ DEGREE_SYMBOL ++ "." ++ newline ++
        "  The average high this week is 29.5" ++ DEGREE_SYMBOL ++ "." ++ newline).
Proof. vm_compute. reflexivity. Qed.

Example generate_daily_summary_example :
  generate_daily_summary (map row_of example_records) =
    OK ("---- Tuesday 06 July 2021 ----" ++ newline ++
        "  Minimum Temperature: -1.1" ++ DEGREE_SYMBOL ++ newline ++
        "  Maximum Temperature: 26.7" ++ DEGREE_SYMBOL ++ newline ++
        newline ++
        "---- Wednesday 07 July 2021 ----" ++ newline ++
        "  Minimum Temperature: -6.7" ++ DEGREE_SYMBOL ++ newline ++
        "  Maximum Temperature: 32.2" ++ DEGREE_SYMBOL ++ newline ++
        newline).
Proof. vm_compute. reflexivity. Qed.

(** When a float is half-way between the two shortest decimals that read
    back as it, [repr] prints the one whose last digit is even: the doubles
    [2^50 + 0.25] and [2^50 + 0.75], and the Celsius value of
    2026619832316803 degrees Fahrenheit. *)
Example repr_tie_to_even :
  Repr.repr (F64.of_decimal false 112589990684262425 (-2))
    = "1125899906842624.2" /\
  Repr.repr (F64.of_decimal false 112589990684262475 (-2))
    = "1125899906842624.8" /\
  generate_daily_summary
    [[PyStr "2021-07-06"; PyInt 2026619832316803; PyInt 2026619832316803]]
    = OK ("---- Tuesday 06 July 2021 ----" ++ newline ++
          "  Minimum Temperature: 1125899906842650.8" ++ DEGREE_SYMBOL ++
          newline ++
          "  Maximum Temperature: 1125899906842650.8" ++ DEGREE_SYMBOL ++
          newline ++ newline).
Proof. repeat split; vm_compute; reflexivity. Qed.

(** ** [convert_date] *)

Lemma digit_not_dash (c : ascii) :
  Text.is_digit c = true -> Datetime.is_dash c = false.
Proof.
  destruct c as [[] [] [] [] [] [] [] []]; try reflexivity; discriminate.
Qed.

Lemma digit_not_W (c : ascii) :
  Text.is_digit c = true -> Datetime.is_W c = false.
Proof.
  destruct c as [[] [] [] [] [] [] [] []]; try reflexivity; discriminate.
Qed.

Lemma digit_not_tz_mark (c : ascii) :
  Text.is_digit c = true -> Datetime.is_tz_mark c = false.
Proof.
  destruct c as [[] [] [] [] [] [] [] []]; try reflexivity; discriminate.
Qed.

Lemma digit_val_range (c : ascii) :
  Text.is_digit c = true -> 0 <= Text.digit_val c <= 9.
Proof.
  unfold Text.is_digit, Text.digit_val. lia.
Qed.

Lemma parse_date_extended (a b c d e f g h : ascii) (rest : string) :
  all_digits [a; b; c; d; e; f; g; h] = true ->
  Datetime.parse_isoformat_date (extended_date a b c d e f g h rest) 10 =
    Some (num4 a b c d, num2 e f, num2 g h).
Proof.
  cbn [all_digits forallb]. rewrite !andb_true_iff.
  intros (Ha & Hb & Hc & Hd & He & Hf & Hg & Hh & _).
  unfold Datetime.parse_isoformat_date, extended_date.
  repeat (cbn [Datetime.parse_digits Datetime.at_ String.get Nat.add andb negb];
          rewrite ?Ha, ?Hb, ?Hc, ?Hd, ?He, ?Hf, ?Hg, ?Hh,
            ?(digit_not_W e He);
          change (Datetime.is_dash "-") with true; cbv iota).
  unfold num4, num2. repeat f_equal; ring.
Qed.

Lemma separator_extended (a b c d e f g h : ascii) (rest : string) :
  Text.is_digit e = true ->
  String.length rest <> 0%nat \/ rest = EmptyString ->
  Datetime.find_isoformat_datetime_separator (extended_date a b c d e f g h rest)
    = Some 10%nat.
Proof.
  intros He _. unfold Datetime.find_isoformat_datetime_separator, extended_date.
  cbn [String.length Nat.eqb Datetime.at_ String.get].
  change (Datetime.is_dash "-") with true. cbv iota.
  now rewrite (digit_not_W e He).
Qed.

(** A text [YYYY-MM-DD] is read as the date that its digits spell, when
    that is a date of the calendar, and is refused otherwise. *)
Lemma fromisoformat_extended_date (a b c d e f g h : ascii) :
  all_digits [a; b; c; d; e; f; g; h] = true ->
  Datetime.fromisoformat (extended_date a b c d e f g h EmptyString) =
    if Datetime.valid_date (num4 a b c d) (num2 e f) (num2 g h)
    then Some (Datetime.mk_datetime (num4 a b c d) (num2 e f) (num2 g h)
                 0 0 0 0 None)
    else None.
Proof.
  intros Hdigits.
  pose proof Hdigits as Hd'. cbn [all_digits forallb] in Hd'.
  rewrite !andb_true_iff in Hd'.
  destruct Hd' as (_ & _ & _ & _ & He & _).
  unfold Datetime.fromisoformat.
  rewrite separator_extended by (auto).
  rewrite parse_date_extended by exact Hdigits.
  cbn [String.length extended_date Nat.ltb Nat.leb].
  change (Datetime.valid_time 0 0 0 0) with true.
  change (Datetime.valid_offset None) with true.
  rewrite !andb_true_r. reflexivity.
Qed.

Lemma parse_time_hours_minutes (a b c d : ascii) :
  all_digits [a; b; c; d] = true ->
  Datetime.parse_isoformat_time (hours_minutes a b c d) =
    Some (num2 a b, num2 c d, 0, 0, None).
Proof.
  cbn [all_digits forallb]. rewrite !andb_true_iff.
  intros (Ha & Hb & Hc & Hd & _).
  unfold Datetime.parse_isoformat_time, hours_minutes.
  cbn [Datetime.find_tz].
  rewrite (digit_not_tz_mark a Ha), (digit_not_tz_mark b Hb),
    (digit_not_tz_mark c Hc), (digit_not_tz_mark d Hd).
  change (Datetime.is_tz_mark ":") with false. cbv iota.
  unfold Datetime.parse_hh_mm_ss_ff, Datetime.hms_component.
  repeat (cbn [Datetime.parse_digits Datetime.at_ String.get Nat.add andb negb
                 orb String.length Nat.leb Nat.eqb Ascii.eqb Bool.eqb
                 Datetime.NUL zero];
          rewrite ?Ha, ?Hb, ?Hc, ?Hd; cbv iota).
  unfold num2. repeat f_equal; ring.
Qed.

(** With a time [hh:mm] after one ASCII character, whatever it is. *)
Lemma fromisoformat_extended_date_time
    (a b c d e f g h sep h1 h2 m1 m2 : ascii) :
  all_digits [a; b; c; d; e; f; g; h] = true ->
  (Text.code sep <? 128) = true ->
  all_digits [h1; h2; m1; m2] = true ->
  Datetime.fromisoformat
    (extended_date a b c d e f g h (String sep (hours_minutes h1 h2 m1 m2))) =
    if Datetime.valid_date (num4 a b c d) (num2 e f) (num2 g h) &&
       Datetime.valid_time (num2 h1 h2) (num2 m1 m2) 0 0
    then Some (Datetime.mk_datetime (num4 a b c d) (num2 e f) (num2 g h)
                 (num2 h1 h2) (num2 m1 m2) 0 0 None)
    else None.
Proof.
  intros Hdigits Hsep Htime.
  pose proof Hdigits as Hd'. cbn [all_digits forallb] in Hd'.
  rewrite !andb_true_iff in Hd'.
  destruct Hd' as (_ & _ & _ & _ & He & _).
  unfold Datetime.fromisoformat.
  rewrite separator_extended by (auto; left; discriminate).
  rewrite parse_date_extended by exact Hdigits.
  replace (Datetime.drop
             (10 + Datetime.utf8_width
                     (Datetime.at_
                        (extended_date a b c d e f g h
                           (String sep (hours_minutes h1 h2 m1 m2))) 10))
             (extended_date a b c d e f g h
                (String sep (hours_minutes h1 h2 m1 m2))))
    with (hours_minutes h1 h2 m1 m2).
  2: { unfold extended_date. cbn [Datetime.at_ String.get].
       unfold Datetime.utf8_width. rewrite Hsep. reflexivity. }
  rewrite parse_time_hours_minutes by exact Htime.
  cbn [String.length extended_date hours_minutes Nat.ltb Nat.leb].
  change (Datetime.valid_offset None) with true.
  rewrite !andb_true_r. reflexivity.
Qed.

Lemma convert_date_of_fromisoformat (s : string) :
  convert_date (PyStr s) =
  match Datetime.fromisoformat s with
  | Some dt =>
      OK (long_date (Datetime.year dt) (Datetime.month dt) (Datetime.day dt))
  | None => Raise ValueError
  end.
Proof. reflexivity. Qed.

Lemma fromisoformat_needs_year (s : string) :
  Datetime.parse_digits s 0 4 0 = None -> Datetime.fromisoformat s = None.
Proof.
  intros H. unfold Datetime.fromisoformat.
  destruct (String.length s <? 7)%nat; [reflexivity |].
  destruct (Datetime.find_isoformat_datetime_separator s); [| reflexivity].
  unfold Datetime.parse_isoformat_date. now rewrite H.
Qed.

(** C8, as the code has it.  [convert_date] hands the text to
    [datetime.fromisoformat] and prints the calendar fields of the date it
    gets, with no conversion between time zones: the name of the day of the
    week, the day on two digits, the name of the month and the year.  On a
    text [YYYY-MM-DD] it raises [ValueError] exactly when the digits do not
    spell a date of the calendar; it accepts a time [hh:mm] after one
    separator character, which may be any ASCII character and not only the
    letter [T]; it raises [ValueError] on every text that is shorter than
    seven characters or does not start with four digits. *)
Theorem convert_date_spec :
  convert_date (PyStr "2021-07-06") = OK "Tuesday 06 July 2021" /\
  convert_date (PyStr "2021-07-06T23:30-05:00") = OK "Tuesday 06 July 2021" /\
  (forall a b c d e f g h : ascii,
     all_digits [a; b; c; d; e; f; g; h] = true ->
     convert_date (PyStr (extended_date a b c d e f g h EmptyString)) =
       if Datetime.valid_date (num4 a b c d) (num2 e f) (num2 g h)
       then OK (long_date (num4 a b c d) (num2 e f) (num2 g h))
       else Raise ValueError) /\
  (forall a b c d e f g h sep h1 h2 m1 m2 : ascii,
     all_digits [a; b; c; d; e; f; g; h] = true ->
     (Text.code sep <? 128) = true ->
     all_digits [h1; h2; m1; m2] = true ->
     convert_date
       (PyStr (extended_date a b c d e f g h
                 (String sep (hours_minutes h1 h2 m1 m2)))) =
       if Datetime.valid_date (num4 a b c d) (num2 e f) (num2 g h) &&
          Datetime.valid_time (num2 h1 h2) (num2 m1 m2) 0 0
       then OK (long_date (num4 a b c d) (num2 e f) (num2 g h))
       else Raise ValueError) /\
  (forall s : string,
     (String.length s < 7)%nat \/ Datetime.parse_digits s 0 4 0 = None ->
     convert_date (PyStr s) = Raise ValueError).
Proof.
  split; [reflexivity |]. split; [reflexivity |].
  split; [| split].
  - intros a b c d e f g h Hdigits.
    rewrite convert_date_of_fromisoformat, fromisoformat_extended_date
      by exact Hdigits.
    now destruct (Datetime.valid_date _ _ _).
  - intros a b c d e f g h sep h1 h2 m1 m2 Hdigits Hsep Htime.
    rewrite convert_date_of_fromisoformat, fromisoformat_extended_date_time
      by assumption.
    now destruct (_ && _).
  - intros s [Hlen | Hyear]; rewrite convert_date_of_fromisoformat.
    + unfold Datetime.fromisoformat.
      destruct (Nat.ltb_spec (String.length s) 7); [reflexivity | lia].
    + now rewrite fromisoformat_needs_year.
Qed.

Lemma convert_date_spec_witness :
  convert_date (PyStr "2021-07-06x10:00") = OK "Tuesday 06 July 2021".
Proof.
  exact (proj1 (proj2 (proj2 (proj2 convert_date_spec)))
           "2"%char "0"%char "2"%char "1"%char "0"%char "7"%char "0"%char
           "6"%char "x"%char "1"%char "0"%char "0"%char "0"%char
           eq_refl eq_refl eq_refl).
Defined.

(** The text [2021-07-06x10:00] has an [x] where ISO-8601 wants the letter
    [T], and [convert_date] accepts it. *)
Lemma convert_date_accepts_any_separator : ~ fails_outside_iso8601.
Proof.
  intros H. destruct (H "2021-07-06x10:00") as [e He].
  - reflexivity.
  - discriminate He.
Qed.

(** * Further properties *)

(** ** Further properties of [find_min] and [find_max] *)

(** The loop of [min] and [max] returns one of the items, whatever the
    comparison answers. *)
Lemma fold_pick_In (op : F64.float -> F64.float -> bool) (l : list float_object) :
  forall b0,
    In (fold_left
          (fun best item =>
             if op (obj_value item) (obj_value best) then item else best)
          l b0) (b0 :: l).
Proof.
  induction l as [| a l IH]; intros b0; cbn [fold_left]; [now left |].
  destruct (IH (if op (obj_value a) (obj_value b0) then a else b0)) as [H | H].
  - destruct (op (obj_value a) (obj_value b0)); rewrite <- H; [right; now left | now left].
  - right. now right.
Qed.

(** With NaN among the values or not, the search from the end finds the
    object that the loop has returned. *)
Lemma find_extremum_total (op : F64.float -> F64.float -> bool)
    (xs : list pyobj) (fs : list F64.float) :
  xs <> [] ->
  mapM py_float xs = OK fs ->
  exists m i f,
    find_extremum op xs = OK (Some (m, i)) /\
    In m fs /\
    0 <= i < py_len fs /\
    nth_error fs (Z.to_nat i) = Some f /\
    (f = m \/ F64.eqb f m = true).
Proof.
  intros Hne Hfs.
  assert (Hlen : List.length fs = List.length xs) by now apply mapM_length in Hfs.
  destruct (objects fs) as [| o0 os] eqn:Eo.
  { destruct xs; [congruence |]. destruct fs; discriminate. }
  pose proof (fold_pick_In op os o0) as Hin.
  set (best := fold_left
         (fun best item =>
            if op (obj_value item) (obj_value best) then item else best) os o0) in *.
  assert (Hbest : min_max op (objects fs) = OK best) by now rewrite Eo.
  rewrite <- Eo in Hin.
  assert (Hself : same_or_equal best best = true).
  { unfold same_or_equal. now rewrite Nat.eqb_refl. }
  destruct (py_index_total (rev (objects fs)) best best) as [k Hk];
    [now apply in_rev in Hin | exact Hself |].
  destruct (py_index_spec _ _ _ Hk) as (k' & x & -> & Hx & Hsame & _).
  pose proof (objects_from_length 0 fs) as Hol. fold (objects fs) in Hol.
  rewrite nth_error_rev in Hx.
  destruct (Nat.ltb_spec k' (List.length (objects fs))) as [Hlt | Hge];
    [| discriminate].
  rewrite Hol in Hlt, Hx.
  set (p := (List.length fs - S k')%nat) in *.
  rewrite objects_nth in Hx.
  destruct (nth_error fs p) as [fp |] eqn:Ep; cbn in Hx; [| discriminate].
  injection Hx as <-.
  exists (obj_value best), (Z.of_nat p), fp.
  split.
  { unfold find_extremum. destruct xs; [congruence |].
    rewrite Hfs. cbn [bind]. rewrite Hbest. cbn [bind]. rewrite Hk. cbn [bind].
    do 3 f_equal. unfold py_len. rewrite Hol. subst p. lia. }
  split; [now apply objects_value_In |].
  split; [unfold py_len; subst p; lia |].
  rewrite Nat2Z.id. split; [exact Ep |].
  unfold same_or_equal in Hsame. cbn [obj_id obj_value] in Hsame.
  destruct (Nat.eqb_spec p (obj_id best)) as [Hid | Hid]; [| now right].
  left. apply objects_In in Hin. rewrite <- Hid, Ep in Hin. now injection Hin.
Qed.

(** X1. On a list that is not empty and whose elements [float] converts,
    NaN included, [find_min] and [find_max] return a pair and never raise:
    the value is one of the converted elements and the position is a valid
    index that holds this value, or a value equal to it. *)
Theorem find_min_max_total (xs : list pyobj) (fs : list F64.float) :
  xs <> [] ->
  mapM py_float xs = OK fs ->
  (exists m i f,
     find_min xs = OK (Some (m, i)) /\ In m fs /\ 0 <= i < py_len fs /\
     nth_error fs (Z.to_nat i) = Some f /\ (f = m \/ F64.eqb f m = true)) /\
  (exists m i f,
     find_max xs = OK (Some (m, i)) /\ In m fs /\ 0 <= i < py_len fs /\
     nth_error fs (Z.to_nat i) = Some f /\ (f = m \/ F64.eqb f m = true)).
Proof.
  intros Hne Hfs. split.
  - rewrite find_min_unfold. now apply find_extremum_total.
  - rewrite find_max_unfold. now apply find_extremum_total.
Qed.

Lemma find_min_max_total_witness :
  let xs := [PyFloat S754_nan; PyStr "1.5"; PyInt 2] in
  let fs := [S754_nan; F64.of_decimal false 15 (-1); F64.of_Z 2] in
  (exists m i f,
     find_min xs = OK (Some (m, i)) /\ In m fs /\ 0 <= i < py_len fs /\
     nth_error fs (Z.to_nat i) = Some f /\ (f = m \/ F64.eqb f m = true)) /\
  (exists m i f,
     find_max xs = OK (Some (m, i)) /\ In m fs /\ 0 <= i < py_len fs /\
     nth_error fs (Z.to_nat i) = Some f /\ (f = m \/ F64.eqb f m = true)).
Proof.
  apply find_min_max_total; [discriminate | reflexivity].
Defined.

Lemma leb_squeeze (a b c : F64.float) :
  not_nan a -> not_nan b -> not_nan c ->
  F64.leb a b = true -> F64.leb b c = true -> F64.eqb a c = true ->
  F64.eqb b a = true.
Proof.
  unfold not_nan. intros Ha Hb Hc.
  rewrite !FloatOrder.leb_key, !FloatOrder.eqb_key by assumption.
  FloatOrder.lex_cases.
Qed.

Lemma eqb_trans (a b c : F64.float) :
  not_nan a -> not_nan b -> not_nan c ->
  F64.eqb a b = true -> F64.eqb b c = true -> F64.eqb a c = true.
Proof.
  unfold not_nan. intros Ha Hb Hc.
  rewrite !FloatOrder.eqb_key by assumption.
  FloatOrder.lex_cases.
Qed.

Lemma ltb_not_eqb (a b : F64.float) :
  not_nan a -> not_nan b -> F64.ltb a b = true -> F64.eqb b a = false.
Proof.
  unfold not_nan. intros Ha Hb.
  rewrite FloatOrder.ltb_key, FloatOrder.eqb_key by assumption.
  FloatOrder.lex_cases.
Qed.

(** When every value equals the extremum, its last occurrence is the last
    position. *)
Lemma last_position_when_all_equal (fs : list F64.float) (m : F64.float) (i : Z) :
  Forall not_nan fs -> not_nan m ->
  0 <= i < py_len fs ->
  Forall (fun f => F64.eqb f m = true) fs ->
  (forall j f, i < j -> nth_error fs (Z.to_nat j) = Some f ->
               F64.eqb f m = false) ->
  i = py_len fs - 1.
Proof.
  intros Hnan Hm Hi Hall Hafter. unfold py_len in *.
  destruct (Z.eq_dec i (Z.of_nat (List.length fs) - 1)) as [E | E]; [exact E |].
  destruct (nth_error fs (Z.to_nat (Z.of_nat (List.length fs) - 1))) as [f |] eqn:Ef.
  - assert (H1 : F64.eqb f m = false) by (eapply Hafter; [| exact Ef]; lia).
    rewrite Forall_forall in Hall.
    rewrite (Hall f (nth_error_In _ _ Ef)) in H1. discriminate.
  - apply nth_error_None in Ef. lia.
Qed.

(** X2. On numbers that are not NaN the value of [find_min] is at most the
    value of [find_max].  The two functions return the same position only
    when the two values are equal, and the two values are equal only when
    all the elements are equal, in which case both positions are the last
    one. *)
Theorem find_min_le_find_max (xs : list pyobj) (fs : list F64.float) :
  xs <> [] ->
  mapM py_float xs = OK fs ->
  Forall not_nan fs ->
  exists lo i hi j,
    find_min xs = OK (Some (lo, i)) /\
    find_max xs = OK (Some (hi, j)) /\
    F64.leb lo hi = true /\
    (i = j -> F64.eqb lo hi = true) /\
    (F64.eqb lo hi = true ->
     Forall (fun f => F64.eqb f lo = true) fs /\
     i = py_len fs - 1 /\ j = py_len fs - 1).
Proof.
  intros Hne Hfs Hnan.
  destruct (find_min_spec xs fs Hne Hfs Hnan)
    as (lo & i & Hlo & Hlo_in & Hlo_le & Hi & (fi & Hfi & Hfi_eq) & Hlo_after).
  destruct (find_max_spec xs fs Hne Hfs Hnan)
    as (hi & j & Hhi & Hhi_in & Hhi_le & Hj & (fj & Hfj & Hfj_eq) & Hhi_after).
  pose proof Hnan as Hnan'. rewrite Forall_forall in Hnan'.
  assert (Hlo_nan : not_nan lo) by auto.
  assert (Hhi_nan : not_nan hi) by auto.
  exists lo, i, hi, j.
  split; [exact Hlo |]. split; [exact Hhi |].
  split; [| split].
  - rewrite Forall_forall in Hlo_le. now apply Hlo_le.
  - intros <-. rewrite Hfi in Hfj. injection Hfj as <-.
    assert (Hfi_nan : not_nan fi) by (eapply Hnan', nth_error_In, Hfi).
    apply (eqb_trans lo fi hi); trivial.
    now rewrite FloatOrder.eqb_sym.
  - intros Heq.
    assert (Hall : Forall (fun f => F64.eqb f lo = true) fs).
    { rewrite Forall_forall in *. intros f Hf.
      apply (leb_squeeze lo f hi); auto. }
    split; [exact Hall |]. split.
    + apply (last_position_when_all_equal fs lo i); trivial.
      intros k f Hk Hf.
      apply ltb_not_eqb; trivial; [eapply Hnan', nth_error_In, Hf |].
      eapply Hlo_after; eauto.
    + apply (last_position_when_all_equal fs hi j); trivial.
      * rewrite Forall_forall in *. intros f Hf.
        apply (eqb_trans f lo hi); auto.
      * intros k f Hk Hf.
        rewrite FloatOrder.eqb_sym.
        apply ltb_not_eqb; trivial; [eapply Hnan', nth_error_In, Hf |].
        eapply Hhi_after; eauto.
Qed.

Lemma find_min_le_find_max_witness :
  exists lo i hi j,
    find_min (map PyInt [7; 7; 7]%list) = OK (Some (lo, i)) /\
    find_max (map PyInt [7; 7; 7]%list) = OK (Some (hi, j)) /\
    F64.leb lo hi = true /\
    (i = j -> F64.eqb lo hi = true) /\
    (F64.eqb lo hi = true ->
     Forall (fun f => F64.eqb f lo = true) (map F64.of_Z [7; 7; 7]%list) /\
     i = py_len (map F64.of_Z [7; 7; 7]%list) - 1 /\
     j = py_len (map F64.of_Z [7; 7; 7]%list) - 1).
Proof.
  apply (find_min_le_find_max (map PyInt [7; 7; 7]%list)).
  - discriminate.
  - reflexivity.
  - repeat constructor.
Defined.

(** ** Elements that [float] rejects *)

Lemma mapM_first_Raise {A B : Type} (f : A -> result B)
    (pre : list A) (bad : A) (post : list A) (e : exn) :
  Forall (fun x => succeeds (f x)) pre ->
  f bad = Raise e ->
  mapM f (pre ++ bad :: post)%list = Raise e.
Proof.
  intros Hpre Hbad. induction Hpre as [| x pre [y Hy] _ IH]; cbn.
  - now rewrite Hbad.
  - rewrite Hy. cbn [bind]. now rewrite IH.
Qed.

Lemma py_float_Raise (x : pyobj) (e : exn) :
  py_float x = Raise e -> e = ValueError \/ e = OverflowError.
Proof.
  destruct x as [z | f | s]; cbn.
  - destruct (F64.is_finite (F64.of_Z z)); [discriminate |].
    intros H. injection H as <-. now right.
  - discriminate.
  - destruct (Text.parse_float s); [discriminate |].
    intros H. injection H as <-. now left.
Qed.

Lemma mapM_succeeds_or_Raise {A B : Type} (f : A -> result B) (xs : list A) :
  (exists ys, mapM f xs = OK ys) \/
  (exists x e, In x xs /\ f x = Raise e /\ mapM f xs = Raise e).
Proof.
  destruct (mapM f xs) as [ys | e] eqn:E; [left; now exists ys |].
  right. destruct (mapM_Raise f xs e E) as (x & Hin & Hx). now exists x, e.
Qed.

(** X3. [find_min], [find_max] and [calculate_mean] convert the whole list
    before anything else: when an element is not convertible, all three
    raise the exception that [float] raises on the first such element,
    [ValueError] for a text that is not a number or [OverflowError] for an
    integer beyond the range of the floats.  [find_min] and [find_max]
    raise nothing else: when one of them fails, some element is not
    convertible. *)
Theorem conversion_errors (xs : list pyobj) :
  (forall (pre : list pyobj) (bad : pyobj) (post : list pyobj) (e : exn),
     xs = (pre ++ bad :: post)%list ->
     Forall (fun x => succeeds (py_float x)) pre ->
     py_float bad = Raise e ->
     find_min xs = Raise e /\
     find_max xs = Raise e /\
     calculate_mean xs = Raise e /\
     (e = ValueError \/ e = OverflowError)) /\
  (fails (find_min xs) \/ fails (find_max xs) ->
   exists x, In x xs /\ fails (py_float x)).
Proof.
  split.
  - intros pre bad post e -> Hpre Hbad.
    pose proof (mapM_first_Raise py_float pre bad post e Hpre Hbad) as Hraise.
    unfold find_min, find_max, calculate_mean.
    destruct (pre ++ bad :: post)%list as [| y ys] eqn:E.
    { now destruct pre. }
    rewrite Hraise. cbn [bind].
    repeat split; trivial. eapply py_float_Raise, Hbad.
  - intros Hfail.
    destruct xs as [| y ys].
    { destruct Hfail as [[e' H] | [e' H]]; discriminate. }
    destruct (mapM_succeeds_or_Raise py_float (y :: ys))
      as [[fs Hfs] | (x & e' & Hin & Hx & _)].
    + destruct (find_extremum_total F64.ltb (y :: ys) fs ltac:(discriminate) Hfs)
        as (m & i & f & Hmin & _).
      destruct (find_extremum_total F64.gtb (y :: ys) fs ltac:(discriminate) Hfs)
        as (m' & i' & f' & Hmax & _).
      rewrite <- find_min_unfold in Hmin. rewrite <- find_max_unfold in Hmax.
      destruct Hfail as [[e' H] | [e' H]]; congruence.
    + exists x. split; [exact Hin | now exists e'].
Qed.

Lemma conversion_errors_witness :
  let xs := [PyInt 3; PyStr "abc"; PyInt (10 ^ 400)] in
  (find_min xs = Raise ValueError) /\
  (find_max xs = Raise ValueError) /\
  (calculate_mean xs = Raise ValueError) /\
  (ValueError = ValueError \/ ValueError = OverflowError).
Proof.
  apply (proj1 (conversion_errors [PyInt 3; PyStr "abc"; PyInt (10 ^ 400)])
           [PyInt 3] (PyStr "abc") [PyInt (10 ^ 400)] ValueError).
  - reflexivity.
  - repeat constructor. now exists (F64.of_Z 3).
  - reflexivity.
Defined.

(** ** The mean and the order of the values *)

Lemma Zsum_Permutation (zs zs' : list Z) :
  Permutation zs zs' -> Zsum zs = Zsum zs'.
Proof.
  induction 1 as [| z l l' _ IH | a b l | l l' l'' _ IH1 _ IH2];
    rewrite ?Zsum_cons; lia.
Qed.

Lemma total_magnitude_Permutation (zs zs' : list Z) :
  Permutation zs zs' -> total_magnitude zs = total_magnitude zs'.
Proof.
  induction 1 as [| z l l' _ IH | a b l | l l' l'' _ IH1 _ IH2];
    rewrite ?total_magnitude_cons; lia.
Qed.

(** X4. The mean of integers whose magnitudes add up to less than [2^53]
    does not depend on their order: the float sum is exact on them, so
    [calculate_mean] returns the same float for every rearrangement of the
    list. *)
Theorem calculate_mean_order_independent (zs zs' : list Z) :
  Permutation zs zs' ->
  total_magnitude zs < 2 ^ 53 ->
  calculate_mean (map PyInt zs) = calculate_mean (map PyInt zs').
Proof.
  intros Hperm Hsmall.
  destruct zs as [| z zs0].
  { apply Permutation_nil in Hperm. now subst. }
  assert (Hne' : zs' <> []).
  { intros ->. apply Permutation_sym, Permutation_nil in Hperm. discriminate. }
  rewrite (calculate_mean_integers (z :: zs0)) by (trivial; discriminate).
  rewrite (calculate_mean_integers zs' Hne')
    by (now rewrite <- (total_magnitude_Permutation _ _ Hperm)).
  unfold py_len.
  now rewrite (Zsum_Permutation _ _ Hperm), (Permutation_length Hperm).
Qed.

Lemma calculate_mean_order_independent_witness :
  calculate_mean (map PyInt [49; 57; 56; 55; 53]%list) =
  calculate_mean (map PyInt [57; 49; 53; 56; 55]%list).
Proof.
  apply calculate_mean_order_independent.
  - apply perm_trans with (57 :: 49 :: 56 :: 55 :: 53 :: nil)%list.
    + apply perm_swap.
    + do 2 apply perm_skip.
      apply perm_trans with (56 :: 53 :: 55 :: nil)%list.
      * apply perm_skip, perm_swap.
      * apply perm_trans with (53 :: 56 :: 55 :: nil)%list; [apply perm_swap |].
        apply Permutation_refl.
  - cbv. reflexivity.
Defined.

(** ** The daily summary, day by day *)

Lemma join_app (a b : list string) : join (a ++ b)%list = join a ++ join b.
Proof.
  induction a as [| x a IH]; cbn; [reflexivity |].
  fold (join (a ++ b)%list). fold (join a). now rewrite IH, append_assoc.
Qed.

(** The loop adds the block of each day to the text, and stops at the
    first day whose block cannot be built. *)
Lemma daily_loop_blocks (days : list (list pyobj)) :
  forall summary,
    daily_loop days summary =
    let* blocks := mapM day_block days in OK (summary ++ join blocks).
Proof.
  induction days as [| day days IH]; intros summary.
  - cbn. now rewrite append_nil_r.
  - cbn [daily_loop mapM]. unfold day_block at 1.
    destruct (py_getitem day 0) as [d | e]; [| reflexivity]. cbn [bind].
    destruct (convert_date d) as [date_str | e]; [| reflexivity]. cbn [bind].
    destruct (float_field 1 day) as [lo | e]; [| reflexivity]. cbn [bind].
    destruct (float_field 2 day) as [hi | e]; [| reflexivity]. cbn [bind].
    rewrite !convert_f_to_c_float. cbn [bind].
    rewrite !format_temperature_float. cbn [bind].
    rewrite IH.
    destruct (mapM day_block days) as [blocks | e]; [| reflexivity].
    cbn [bind join fold_right]. fold (join blocks).
    f_equal. rewrite !append_assoc. reflexivity.
Qed.

Lemma generate_daily_summary_blocks (data : list (list pyobj)) :
  generate_daily_summary data =
  let* blocks := mapM day_block data in OK (join blocks).
Proof.
  destruct data as [| day days]; [reflexivity |].
  unfold generate_daily_summary. now rewrite daily_loop_blocks.
Qed.

(** X5. The daily summary of two lists of days put end to end is the
    summary of the first followed by the summary of the second; it fails
    when one of them fails, with the exception of the first that does. *)
Theorem generate_daily_summary_app (a b : list (list pyobj)) :
  generate_daily_summary (a ++ b)%list =
  let* s := generate_daily_summary a in
  let* t := generate_daily_summary b in
  OK (s ++ t).
Proof.
  rewrite !generate_daily_summary_blocks, mapM_app.
  destruct (mapM day_block a) as [ba | e]; [| reflexivity]. cbn [bind].
  destruct (mapM day_block b) as [bb | e]; [| reflexivity]. cbn [bind].
  now rewrite join_app.
Qed.

Lemma convert_date_Raise (s : string) (e : exn) :
  convert_date (PyStr s) = Raise e -> e = ValueError.
Proof.
  cbn. destruct (Datetime.fromisoformat s); [discriminate |].
  intros H. now injection H.
Qed.

Lemma py_float_int_Raise (z : Z) (e : exn) :
  py_float (PyInt z) = Raise e -> e = OverflowError.
Proof.
  cbn. destruct (F64.is_finite (F64.of_Z z)); [discriminate |].
  intros H. now injection H.
Qed.

(** The block of a record is built exactly when the record is well formed;
    otherwise the date or one of the temperatures raises. *)
Lemma day_block_record (r : WeatherRecord) :
  (succeeds (day_block (row_of r)) <-> well_formed r) /\
  (forall e, day_block (row_of r) = Raise e ->
             e = ValueError \/ e = OverflowError).
Proof.
  unfold day_block, float_field, well_formed.
  rewrite py_getitem_0, py_getitem_1, py_getitem_2.
  cbn [row_of nth_error bind].
  destruct (convert_date (PyStr (date r))) as [d | e1] eqn:Ed; cbn [bind].
  - destruct (py_float (PyInt (minTempF r))) as [lo | e2] eqn:Elo; cbn [bind].
    + destruct (py_float (PyInt (maxTempF r))) as [hi | e3] eqn:Ehi; cbn [bind].
      * rewrite !convert_f_to_c_float. cbn [bind].
        rewrite !format_temperature_float. cbn [bind].
        split; [| discriminate].
        split; [intros _ | intros _; eexists; reflexivity].
        split; [now exists d |]. split; [now exists lo | now exists hi].
      * split.
        -- split; [intros [x Hx]; discriminate |].
           intros (_ & _ & [x Hx]); discriminate.
        -- intros e H. injection H as <-.
           right. eapply py_float_int_Raise, Ehi.
    + split.
      * split; [intros [x Hx]; discriminate |].
        intros (_ & [x Hx] & _); discriminate.
      * intros e H. injection H as <-.
        right. eapply py_float_int_Raise, Elo.
  - split.
    + split; [intros [x Hx]; discriminate |].
      intros ([x Hx] & _); discriminate.
    + intros e H. injection H as <-.
      left. eapply convert_date_Raise, Ed.
Qed.

Lemma daily_blocks_well_formed (recs : list WeatherRecord) (blocks : list string) :
  mapM day_block (map row_of recs) = OK blocks -> Forall well_formed recs.
Proof.
  intros Hb. apply Forall_forall. intros r Hr.
  apply (proj1 (day_block_record r)).
  destruct (day_block (row_of r)) as [b | e] eqn:E; [now exists b |].
  exfalso.
  assert (Hf : fails (mapM day_block (map row_of recs))).
  { apply (mapM_In_Raise day_block _ (row_of r)).
    - now apply in_map.
    - now exists e. }
  destruct Hf as [e' He']. congruence.
Qed.

(** What [generate_daily_summary] raises on records of the data model. *)
Lemma generate_daily_summary_Raise (recs : list WeatherRecord) (e : exn) :
  generate_daily_summary (map row_of recs) = Raise e ->
  e = ValueError \/ e = OverflowError.
Proof.
  rewrite generate_daily_summary_blocks.
  destruct (mapM_succeeds_or_Raise day_block (map row_of recs))
    as [[blocks Hb] | (row & e' & Hin & Hrow & Hraise)].
  - rewrite Hb. discriminate.
  - rewrite Hraise. cbn [bind]. intros H. injection H as <-.
    apply in_map_iff in Hin as (r & <- & _).
    now apply (proj2 (day_block_record r)).
Qed.

(** X6. On records of the data model [generate_daily_summary] succeeds
    exactly when every record is well formed, that is, when every date is
    one that [convert_date] reads and every temperature is within the
    range of the floats.  When it fails, the exception is [ValueError] or
    [OverflowError], never an [IndexError] or a [TypeError]. *)
Theorem generate_daily_summary_succeeds_iff (recs : list WeatherRecord) :
  (succeeds (generate_daily_summary (map row_of recs)) <->
   Forall well_formed recs) /\
  (forall e, generate_daily_summary (map row_of recs) = Raise e ->
             e = ValueError \/ e = OverflowError).
Proof.
  split; [| intros e; apply generate_daily_summary_Raise].
  rewrite generate_daily_summary_blocks. split.
  - intros [text Htext].
    destruct (mapM day_block (map row_of recs)) as [blocks |] eqn:Hb;
      [| discriminate].
    now apply (daily_blocks_well_formed recs blocks).
  - intros Hwf.
    destruct (mapM_succeeds_or_Raise day_block (map row_of recs))
      as [[blocks Hb] | (row & e & Hin & Hrow & _)].
    + rewrite Hb. cbn [bind]. eexists. reflexivity.
    + apply in_map_iff in Hin as (r & <- & Hr).
      rewrite Forall_forall in Hwf.
      apply Hwf, (proj1 (day_block_record r)) in Hr.
      destruct Hr as [b Hb]. congruence.
Qed.

Lemma generate_daily_summary_succeeds_iff_witness :
  succeeds (generate_daily_summary (map row_of example_records)).
Proof.
  apply (proj2 (proj1 (generate_daily_summary_succeeds_iff example_records))).
  exact example_records_well_formed.
Defined.

(** ** The overview and the dates it reads *)

Lemma float_fields_convert (r : WeatherRecord) :
  temperatures_convert r ->
  float_field 1 (row_of r) = OK (F64.of_Z (minTempF r)) /\
  float_field 2 (row_of r) = OK (F64.of_Z (maxTempF r)).
Proof.
  intros [Hmin Hmax]. unfold float_field. rewrite py_getitem_1, py_getitem_2.
  cbn [row_of nth_error bind].
  split; now apply py_float_int_succeeds.
Qed.

Lemma series_fields_convert (recs : list WeatherRecord) :
  Forall temperatures_convert recs ->
  mapM (float_field 1) (map row_of recs) = OK (min_series recs) /\
  mapM (float_field 2) (map row_of recs) = OK (max_series recs).
Proof.
  induction 1 as [| r recs Hr _ [IH1 IH2]]; cbn; [now split |].
  fold (row_of r).
  destruct (float_fields_convert r Hr) as [-> ->]. cbn [bind].
  rewrite IH1, IH2. now split.
Qed.

(** The date of the day at a valid position is the date of the record
    there, read by [convert_date]. *)
Lemma date_of_day_record (recs : list WeatherRecord) (i : Z) (r : WeatherRecord) :
  0 <= i < py_len recs ->
  nth_error recs (Z.to_nat i) = Some r ->
  date_of_day (map row_of recs) i = convert_date (PyStr (date r)).
Proof.
  intros Hi Hr.
  destruct (py_getitem_in_range (map row_of recs) i) as (row & Hrow & Hget).
  { unfold py_len in *. now rewrite length_map. }
  rewrite nth_error_map, Hr in Hrow. cbn in Hrow. injection Hrow as <-.
  unfold date_of_day. rewrite Hget. cbn [bind].
  rewrite py_getitem_0. reflexivity.
Qed.

Lemma generate_summary_extremes (recs : list WeatherRecord) :
  recs <> [] ->
  Forall temperatures_convert recs ->
  exists lo i hi j rlo rhi,
    find_min (map PyFloat (min_series recs)) = OK (Some (lo, i)) /\
    find_max (map PyFloat (max_series recs)) = OK (Some (hi, j)) /\
    nth_error recs (Z.to_nat i) = Some rlo /\
    nth_error recs (Z.to_nat j) = Some rhi /\
    generate_summary (map row_of recs) =
      let* dlo := convert_date (PyStr (date rlo)) in
      let* dhi := convert_date (PyStr (date rhi)) in
      OK (overview recs lo dlo hi dhi).
Proof.
  intros Hne Hconv.
  assert (Hlen_min : py_len (min_series recs) = py_len recs).
  { unfold py_len, min_series. now rewrite length_map. }
  assert (Hlen_max : py_len (max_series recs) = py_len recs).
  { unfold py_len, max_series. now rewrite length_map. }
  assert (Hmin_ne : map PyFloat (min_series recs) <> []).
  { destruct recs; [congruence | discriminate]. }
  assert (Hmax_ne : map PyFloat (max_series recs) <> []).
  { destruct recs; [congruence | discriminate]. }
  destruct (find_extremum_total F64.ltb _ _ Hmin_ne (mapM_py_float_floats _))
    as (lo & i & flo & Hlo & _ & Hi & Hflo & _).
  destruct (find_extremum_total F64.gtb _ _ Hmax_ne (mapM_py_float_floats _))
    as (hi & j & fhi & Hhi & _ & Hj & Hfhi & _).
  rewrite <- find_min_unfold in Hlo. rewrite <- find_max_unfold in Hhi.
  rewrite Hlen_min in Hi. rewrite Hlen_max in Hj.
  destruct (nth_error recs (Z.to_nat i)) as [rlo |] eqn:Erlo.
  2: { apply nth_error_None in Erlo. unfold py_len in Hi. lia. }
  destruct (nth_error recs (Z.to_nat j)) as [rhi |] eqn:Erhi.
  2: { apply nth_error_None in Erhi. unfold py_len in Hj. lia. }
  exists lo, i, hi, j, rlo, rhi.
  repeat (split; [trivial |]).
  destruct (series_fields_convert recs Hconv) as [Hmins Hmaxs].
  unfold generate_summary, generate_summary_with.
  destruct (map row_of recs) as [| row rows] eqn:Erows.
  { destruct recs; [congruence | discriminate]. }
  cbv iota. rewrite <- Erows in *.
  rewrite Hmins, Hmaxs. cbn [bind].
  rewrite Hlo, Hhi. cbn [bind unpack_pair].
  rewrite !convert_f_to_c_float. cbn [bind].
  rewrite (date_of_day_record recs i rlo Hi Erlo).
  rewrite (date_of_day_record recs j rhi Hj Erhi).
  destruct (convert_date (PyStr (date rlo))) as [dlo | e]; [| reflexivity].
  cbn [bind].
  destruct (convert_date (PyStr (date rhi))) as [dhi | e]; [| reflexivity].
  cbn [bind].
  rewrite !celsius_list_spec. cbn [bind].
  rewrite !calculate_mean_floats.
  2, 3: destruct recs; [congruence | discriminate].
  cbn [bind]. rewrite !format_temperature_float. cbn [bind].
  unfold overview, overview_header, lowest_line, highest_line,
    average_low_line, average_high_line.
  replace (py_len (map row_of recs)) with (py_len recs)
    by (unfold py_len; now rewrite length_map).
  rewrite !append_assoc. reflexivity.
Qed.

(** X7. Of the dates of the records [generate_summary] reads two only:
    the date of the record at the position that [find_min] returns and the
    date of the record at the position that [find_max] returns, in this
    order.  When the temperatures are integers that [float] converts, the
    overview is built whenever these two dates are read by [convert_date],
    whatever the dates of the other records are, and it fails with the
    exception of the first of the two dates that is not. *)
Theorem generate_summary_reads_two_dates (recs : list WeatherRecord) :
  recs <> [] ->
  Forall temperatures_convert recs ->
  exists lo i hi j rlo rhi,
    find_min (map PyFloat (min_series recs)) = OK (Some (lo, i)) /\
    find_max (map PyFloat (max_series recs)) = OK (Some (hi, j)) /\
    nth_error recs (Z.to_nat i) = Some rlo /\
    nth_error recs (Z.to_nat j) = Some rhi /\
    generate_summary (map row_of recs) =
      (let* dlo := convert_date (PyStr (date rlo)) in
       let* dhi := convert_date (PyStr (date rhi)) in
       OK (overview_header (py_len recs) ++
           lowest_line (celsius lo) dlo ++
           highest_line (celsius hi) dhi ++
           average_low_line
             (py_round1 (mean_of (map celsius (min_series recs)))) ++
           average_high_line
             (py_round1 (mean_of (map celsius (max_series recs)))))) /\
    (succeeds (generate_summary (map row_of recs)) <->
     succeeds (convert_date (PyStr (date rlo))) /\
     succeeds (convert_date (PyStr (date rhi)))).
Proof.
  intros Hne Hconv.
  destruct (generate_summary_extremes recs Hne Hconv)
    as (lo & i & hi & j & rlo & rhi & Hlo & Hhi & Hrlo & Hrhi & Hsum).
  exists lo, i, hi, j, rlo, rhi.
  split; [exact Hlo |]. split; [exact Hhi |].
  split; [exact Hrlo |]. split; [exact Hrhi |].
  split; [exact Hsum |].
  rewrite Hsum.
  destruct (convert_date (PyStr (date rlo))) as [dlo | e1]; cbn [bind].
  - destruct (convert_date (PyStr (date rhi))) as [dhi | e2]; cbn [bind].
    + split; [intros _ | intros _; eexists; reflexivity].
      split; eexists; reflexivity.
    + split; [intros [x Hx]; discriminate |].
      intros [_ [x Hx]]; discriminate.
  - split; [intros [x Hx]; discriminate |].
    intros [[x Hx] _]; discriminate.
Qed.

Lemma generate_summary_reads_two_dates_witness :
  let recs := [mk_record "2021-07-06" 30 80; mk_record "no date" 35 85;
               mk_record "2021-07-08" 20 90] in
  exists lo i hi j rlo rhi,
    find_min (map PyFloat (min_series recs)) = OK (Some (lo, i)) /\
    find_max (map PyFloat (max_series recs)) = OK (Some (hi, j)) /\
    nth_error recs (Z.to_nat i) = Some rlo /\
    nth_error recs (Z.to_nat j) = Some rhi /\
    generate_summary (map row_of recs) =
      (let* dlo := convert_date (PyStr (date rlo)) in
       let* dhi := convert_date (PyStr (date rhi)) in
       OK (overview_header (py_len recs) ++
           lowest_line (celsius lo) dlo ++
           highest_line (celsius hi) dhi ++
           average_low_line
             (py_round1 (mean_of (map celsius (min_series recs)))) ++
           average_high_line
             (py_round1 (mean_of (map celsius (max_series recs)))))) /\
    (succeeds (generate_summary (map row_of recs)) <->
     succeeds (convert_date (PyStr (date rlo))) /\
     succeeds (convert_date (PyStr (date rhi)))).
Proof.
  apply generate_summary_reads_two_dates.
  - discriminate.
  - repeat (apply Forall_cons; [split; eexists; reflexivity |]).
    apply Forall_nil.
Defined.

(** The overview of the three records above, the second of which has no
    date that [convert_date] reads, while the daily summary of the same
    records fails. *)
Lemma generate_summary_skips_other_dates :
  let recs := [mk_record "2021-07-06" 30 80; mk_record "no date" 35 85;
               mk_record "2021-07-08" 20 90] in
  succeeds (generate_summary (map row_of recs)) /\
  generate_daily_summary (map row_of recs) = Raise ValueError.
Proof. split; [eexists |]; vm_compute; reflexivity. Qed.

Lemma Forall2_In_left {A B : Type} (R : A -> B -> Prop)
    (l : list A) (l' : list B) (x : A) :
  Forall2 R l l' -> In x l -> exists y, In y l' /\ R x y.
Proof.
  induction 1 as [| a b l l' Hab _ IH]; intros Hin; [contradiction |].
  destruct Hin as [-> | Hin].
  - exists b. split; [now left | exact Hab].
  - destruct (IH Hin) as (y & Hy & Hxy). exists y. split; [now right | exact Hxy].
Qed.

(** What [generate_summary] raises on records of the data model. *)
Lemma generate_summary_Raise (recs : list WeatherRecord) (e : exn) :
  generate_summary (map row_of recs) = Raise e ->
  e = ValueError \/ e = OverflowError.
Proof.
  intros H.
  destruct recs as [| r0 recs0]; [discriminate |].
  set (recs := r0 :: recs0) in *.
  destruct (mapM_succeeds_or_Raise (float_field 1) (map row_of recs))
    as [[mins Hmins] | (row & e1 & Hin & Hrow & Hraise)].
  2: { unfold generate_summary, generate_summary_with in H.
       cbn [recs map] in H, Hraise. rewrite Hraise in H. cbn [bind] in H.
       injection H as <-.
       apply in_map_iff in Hin as (r & <- & _).
       unfold float_field in Hrow. rewrite py_getitem_1 in Hrow.
       cbn [row_of nth_error bind] in Hrow.
       right. eapply py_float_int_Raise, Hrow. }
  destruct (mapM_succeeds_or_Raise (float_field 2) (map row_of recs))
    as [[maxs Hmaxs] | (row & e1 & Hin & Hrow & Hraise)].
  2: { unfold generate_summary, generate_summary_with in H.
       cbn [recs map] in H, Hraise, Hmins. rewrite Hmins, Hraise in H.
       cbn [bind] in H. injection H as <-.
       apply in_map_iff in Hin as (r & <- & _).
       unfold float_field in Hrow. rewrite py_getitem_2 in Hrow.
       cbn [row_of nth_error bind] in Hrow.
       right. eapply py_float_int_Raise, Hrow. }
  assert (Hconv : Forall temperatures_convert recs).
  { apply Forall_forall. intros r Hr.
    apply (in_map row_of) in Hr.
    apply mapM_Forall2 in Hmins, Hmaxs.
    split.
    - destruct (Forall2_In_left _ _ _ _ Hmins Hr) as (f & _ & Hf).
      unfold float_field in Hf. rewrite py_getitem_1 in Hf.
      cbn [row_of nth_error bind] in Hf. now exists f.
    - destruct (Forall2_In_left _ _ _ _ Hmaxs Hr) as (f & _ & Hf).
      unfold float_field in Hf. rewrite py_getitem_2 in Hf.
      cbn [row_of nth_error bind] in Hf. now exists f. }
  destruct (generate_summary_extremes recs ltac:(discriminate) Hconv)
    as (lo & i & hi & j & rlo & rhi & _ & _ & _ & _ & Hsum).
  rewrite Hsum in H.
  destruct (convert_date (PyStr (date rlo))) as [dlo | e1] eqn:Elo.
  - cbn [bind] in H.
    destruct (convert_date (PyStr (date rhi))) as [dhi | e2] eqn:Ehi;
      [discriminate |].
    cbn [bind] in H. injection H as <-. left. eapply convert_date_Raise, Ehi.
  - cbn [bind] in H. injection H as <-. left. eapply convert_date_Raise, Elo.
Qed.

(** ** Decimal numerals read back by [int] *)

Lemma value_of_digits_acc (d : Decimal.uint) :
  forall acc : positive,
    Text.value_of_digits (NilEmpty.string_of_uint d) (Zpos acc) =
    Zpos (Pos.of_uint_acc d acc).
Proof.
  induction d; intros acc; cbn [NilEmpty.string_of_uint Text.value_of_digits Pos.of_uint_acc];
    [reflexivity | ..];
    match goal with
    | |- context [Text.digit_val ?c] =>
        let v := eval vm_compute in (Text.digit_val c) in
        change (Text.digit_val c) with v
    end;
    match goal with
    | |- Text.value_of_digits _ ?a = Zpos (Pos.of_uint_acc _ ?b) =>
        replace a with (Zpos b) by lia
    end; apply IHd.
Qed.

Lemma value_of_digits_uint (d : Decimal.uint) :
  Text.value_of_digits (NilEmpty.string_of_uint d) 0 = Z.of_N (Pos.of_uint d).
Proof.
  induction d; cbn [NilEmpty.string_of_uint Text.value_of_digits Pos.of_uint];
    [reflexivity | exact IHd | ..];
    match goal with
    | |- Text.value_of_digits _ ?a = Z.of_N (Npos (Pos.of_uint_acc _ ?b)) =>
        change a with (Zpos b)
    end; apply value_of_digits_acc.
Qed.

Lemma digit_run_uint (d : Decimal.uint) :
  forall b, Text.digit_run (NilEmpty.string_of_uint d) b =
            (NilEmpty.string_of_uint d, EmptyString).
Proof.
  induction d; intros b; cbn [NilEmpty.string_of_uint Text.digit_run];
    [reflexivity | ..];
    match goal with
    | |- context [Text.is_digit ?c] => change (Text.is_digit c) with true
    end; cbv iota; now rewrite IHd.
Qed.

Lemma rstrip_uint (d : Decimal.uint) :
  Text.rstrip (NilEmpty.string_of_uint d) = NilEmpty.string_of_uint d.
Proof.
  induction d; cbn [NilEmpty.string_of_uint Text.rstrip]; [reflexivity | ..];
    rewrite IHd; now destruct (NilEmpty.string_of_uint d).
Qed.

Lemma strip_uint (d : Decimal.uint) :
  Text.strip (NilEmpty.string_of_uint d) = NilEmpty.string_of_uint d.
Proof.
  unfold Text.strip.
  destruct d; try reflexivity;
    cbn [NilEmpty.string_of_uint Text.lstrip];
    match goal with
    | |- context [Text.is_space ?c] => change (Text.is_space c) with false
    end; cbv iota;
    match goal with
    | |- Text.rstrip (String ?c (NilEmpty.string_of_uint ?l)) = _ =>
        cbn [Text.rstrip]; rewrite (rstrip_uint l);
        now destruct (NilEmpty.string_of_uint l)
    end.
Qed.

Lemma string_of_uint_not_empty (d : Decimal.uint) :
  d <> Decimal.Nil -> NilEmpty.string_of_uint d <> EmptyString.
Proof. destruct d; [congruence | discriminate ..]. Qed.

Lemma NilZero_NilEmpty (d : Decimal.uint) :
  d <> Decimal.Nil -> NilZero.string_of_uint d = NilEmpty.string_of_uint d.
Proof. destruct d; [congruence | reflexivity ..]. Qed.

Lemma sign_uint (d : Decimal.uint) :
  Text.sign (NilEmpty.string_of_uint d) = (false, NilEmpty.string_of_uint d).
Proof. destruct d; reflexivity. Qed.

(** A text in ASCII is left as it is before it is read. *)
Lemma to_ascii_cons (c : ascii) (s : string) :
  (Text.code c <? 127) = true ->
  Text.to_ascii (String c s) = String c (Text.to_ascii s).
Proof.
  intros Hc. unfold Text.to_ascii. cbn [Text.decode].
  assert (H128 : (Text.code c <? 128) = true).
  { apply Z.ltb_lt in Hc. apply Z.ltb_lt. lia. }
  rewrite H128. cbn [map string_of_list_ascii]. f_equal.
  unfold Text.ascii_of_code_point. rewrite Hc.
  assert (H0 : (0 <=? Text.code c) = true).
  { apply Z.leb_le. unfold Text.code. apply N2Z.is_nonneg. }
  rewrite H0. cbn [andb]. unfold Text.code.
  rewrite N2Z.id. apply ascii_N_embedding.
Qed.

Lemma to_ascii_uint (d : Decimal.uint) :
  Text.to_ascii (NilEmpty.string_of_uint d) = NilEmpty.string_of_uint d.
Proof.
  induction d; cbn [NilEmpty.string_of_uint]; [reflexivity | ..];
    rewrite to_ascii_cons by reflexivity; now rewrite IHd.
Qed.

Lemma strlen_uint (d : Decimal.uint) :
  strlen (NilEmpty.string_of_uint d) = Z.of_nat (Decimal.nb_digits d).
Proof.
  unfold strlen. f_equal.
  induction d; cbn [NilEmpty.string_of_uint String.length Decimal.nb_digits];
    congruence.
Qed.

(** A numeral of [n] digits that follows an accumulated value [acc]
    spells at least [acc * 10^n]. *)
Lemma value_of_digits_lower (d : Decimal.uint) :
  forall acc,
    0 <= acc ->
    acc * 10 ^ Z.of_nat (Decimal.nb_digits d) <=
    Text.value_of_digits (NilEmpty.string_of_uint d) acc.
Proof.
  induction d; intros acc Hacc;
    cbn [NilEmpty.string_of_uint Text.value_of_digits Decimal.nb_digits];
    [cbn; lia | ..];
    rewrite Nat2Z.inj_succ, Z.pow_succ_r by lia;
    match goal with
    | |- context [Text.digit_val ?c] =>
        let v := eval vm_compute in (Text.digit_val c) in
        change (Text.digit_val c) with v
    end;
    match goal with
    | |- _ <= Text.value_of_digits _ ?a =>
        specialize (IHd a ltac:(lia));
        assert (0 <= 10 ^ Z.of_nat (Decimal.nb_digits d))
          by (apply Z.pow_nonneg; lia);
        nia
    end.
Qed.

(** The numeral of a positive number starts with a digit other than
    zero. *)
Lemma to_uint_nzhead (p : positive) :
  Decimal.nzhead (Pos.to_uint p) = Pos.to_uint p.
Proof.
  pose proof (DecimalPos.Unsigned.to_of (Pos.to_uint p)) as H.
  rewrite DecimalPos.Unsigned.of_to in H. cbn [N.to_uint] in H.
  pose proof (DecimalPos.Unsigned.to_uint_nonzero p) as Hnz.
  unfold Decimal.unorm in H.
  destruct (Decimal.nzhead (Pos.to_uint p)); congruence.
Qed.

Lemma numeral_lower (p : positive) :
  10 ^ (Z.of_nat (Decimal.nb_digits (Pos.to_uint p)) - 1) <= Zpos p.
Proof.
  pose proof (to_uint_nzhead p) as Hhead.
  pose proof (value_of_digits_uint (Pos.to_uint p)) as Hval.
  rewrite DecimalPos.Unsigned.of_to in Hval. cbn [Z.of_N] in Hval.
  rewrite <- Hval. clear Hval.
  destruct (Pos.to_uint p) as [| d | d | d | d | d | d | d | d | d | d] eqn:E;
    [ cbn; lia
    | exfalso; cbn [Decimal.nzhead] in Hhead;
      pose proof (DecimalFacts.nb_digits_nzhead d) as Hle;
      rewrite Hhead in Hle; cbn [Decimal.nb_digits] in Hle; lia
    | .. ].
  all: cbn [NilEmpty.string_of_uint Text.value_of_digits Decimal.nb_digits];
    rewrite Nat2Z.inj_succ;
    replace (Z.succ (Z.of_nat (Decimal.nb_digits d)) - 1)
      with (Z.of_nat (Decimal.nb_digits d)) by lia;
    match goal with
    | |- context [Text.digit_val ?c] =>
        let v := eval vm_compute in (10 * 0 + Text.digit_val c) in
        change (10 * 0 + Text.digit_val c) with v
    end;
    match goal with
    | |- _ <= Text.value_of_digits _ ?a =>
        pose proof (value_of_digits_lower d a ltac:(lia)) as Hlow;
        assert (0 <= 10 ^ Z.of_nat (Decimal.nb_digits d))
          by (apply Z.pow_nonneg; lia);
        lia
    end.
Qed.

(** A numeral of [n] digits that follows an accumulated value [acc]
    spells less than [(acc + 1) * 10^n]. *)
Lemma value_of_digits_upper (d : Decimal.uint) :
  forall acc,
    0 <= acc ->
    Text.value_of_digits (NilEmpty.string_of_uint d) acc <
    (acc + 1) * 10 ^ Z.of_nat (Decimal.nb_digits d).
Proof.
  induction d; intros acc Hacc;
    cbn [NilEmpty.string_of_uint Text.value_of_digits Decimal.nb_digits];
    [cbn; lia | ..];
    rewrite Nat2Z.inj_succ, Z.pow_succ_r by lia;
    match goal with
    | |- context [Text.digit_val ?c] =>
        let v := eval vm_compute in (Text.digit_val c) in
        change (Text.digit_val c) with v
    end;
    match goal with
    | |- Text.value_of_digits _ ?a < _ =>
        specialize (IHd a ltac:(lia));
        assert (0 <= 10 ^ Z.of_nat (Decimal.nb_digits d))
          by (apply Z.pow_nonneg; lia);
        nia
    end.
Qed.

(** The number of digits that [str] writes for a natural number: at most
    [k] for a number below [10^k], and more than [k] from [10^k] on. *)
Lemma numeral_length (n : N) (k : Z) :
  1 <= k ->
  (Z.of_N n < 10 ^ k -> strlen (string_of_N n) <= k) /\
  (10 ^ k <= Z.of_N n -> k < strlen (string_of_N n)).
Proof.
  intros Hk. unfold string_of_N.
  destruct n as [| p].
  - split; [intros _; change (strlen (NilZero.string_of_uint (N.to_uint 0))) with 1; lia |].
    intros H. assert (0 < 10 ^ k) by (apply Z.pow_pos_nonneg; lia).
    cbn [Z.of_N] in H. lia.
  - cbn [N.to_uint Z.of_N].
    rewrite (NilZero_NilEmpty _ (DecimalPos.Unsigned.to_uint_nonnil p)), strlen_uint.
    pose proof (numeral_lower p) as Hlow.
    pose proof (value_of_digits_upper (Pos.to_uint p) 0 ltac:(lia)) as Hup.
    rewrite value_of_digits_uint, DecimalPos.Unsigned.of_to in Hup.
    cbn [Z.of_N] in Hup. rewrite Z.mul_1_l in Hup.
    set (nb := Z.of_nat (Decimal.nb_digits (Pos.to_uint p))) in *.
    split; intros H.
    + destruct (Z_le_gt_dec nb k) as [Hle | Hgt]; [exact Hle | exfalso].
      assert (10 ^ k <= 10 ^ (nb - 1)) by (apply Z.pow_le_mono_r; lia).
      lia.
    + destruct (Z_lt_le_dec k nb) as [Hlt | Hge]; [exact Hlt | exfalso].
      assert (10 ^ nb <= 10 ^ k) by (apply Z.pow_le_mono_r; subst nb; lia).
      lia.
Qed.

Lemma small_below_limit (z : Z) : small z -> Z.abs z < 10 ^ Text.max_str_digits.
Proof.
  unfold small. intros Hz.
  assert (H1 : 2 ^ 53 < 10 ^ 16) by (vm_compute; reflexivity).
  assert (H2 : 10 ^ 16 <= 10 ^ Text.max_str_digits).
  { apply Z.pow_le_mono_r; unfold Text.max_str_digits; lia. }
  lia.
Qed.

(** [int] reads a numeral without sign as the number it writes. *)
Lemma ascii_int_uint (d : Decimal.uint) :
  d <> Decimal.Nil ->
  strlen (NilEmpty.string_of_uint d) <= Text.max_str_digits ->
  Text.ascii_int (NilEmpty.string_of_uint d) = Some (Z.of_N (N.of_uint d)).
Proof.
  intros Hd Hlen.
  unfold Text.ascii_int. rewrite strip_uint, sign_uint, digit_run_uint.
  pose proof (value_of_digits_uint d) as Hv.
  pose proof (string_of_uint_not_empty d Hd) as Hs.
  destruct (NilEmpty.string_of_uint d) as [| c ds]; [congruence |].
  destruct (Z.ltb_spec Text.max_str_digits (strlen (String c ds))); [lia |].
  now rewrite Hv.
Qed.

Lemma ascii_int_negative (d : Decimal.uint) :
  d <> Decimal.Nil ->
  strlen (NilEmpty.string_of_uint d) <= Text.max_str_digits ->
  Text.ascii_int (String "-" (NilEmpty.string_of_uint d)) =
  Some (- Z.of_N (N.of_uint d)).
Proof.
  intros Hd Hlen.
  unfold Text.ascii_int, Text.strip.
  cbn [Text.lstrip]. change (Text.is_space "-") with false. cbv iota.
  cbn [Text.rstrip]. rewrite rstrip_uint.
  pose proof (value_of_digits_uint d) as Hv.
  pose proof (string_of_uint_not_empty d Hd) as Hs.
  pose proof (digit_run_uint d false) as Hrun.
  destruct (NilEmpty.string_of_uint d) as [| c ds]; [congruence |].
  cbn [Text.sign]. rewrite Hrun.
  destruct (Z.ltb_spec Text.max_str_digits (strlen (String c ds))); [lia |].
  now rewrite Hv.
Qed.

(** [int(str(z))] is [z] for every integer that [str] prints, that is,
    of at most [max_str_digits] digits. *)
Lemma parse_int_string_of_Z (z : Z) :
  Z.abs z < 10 ^ Text.max_str_digits ->
  Text.parse_int (string_of_Z z) = Some z.
Proof.
  intros Hz.
  destruct z as [| p | p]; unfold string_of_Z, Text.parse_int.
  - reflexivity.
  - pose proof (proj1 (numeral_length (Npos p) Text.max_str_digits
                         ltac:(unfold Text.max_str_digits; lia))
                      ltac:(cbn [Z.of_N]; lia)) as Hlen.
    unfold string_of_N in *. cbn [Z.to_N N.to_uint] in *.
    rewrite (NilZero_NilEmpty _ (DecimalPos.Unsigned.to_uint_nonnil p)) in *.
    rewrite to_ascii_uint.
    rewrite ascii_int_uint;
      [| apply DecimalPos.Unsigned.to_uint_nonnil | exact Hlen].
    change (Pos.to_uint p) with (N.to_uint (Npos p)).
    now rewrite DecimalN.Unsigned.of_to.
  - pose proof (proj1 (numeral_length (Npos p) Text.max_str_digits
                         ltac:(unfold Text.max_str_digits; lia))
                      ltac:(cbn [Z.of_N]; lia)) as Hlen.
    unfold string_of_N in *. cbn [String.append N.to_uint] in *.
    rewrite (NilZero_NilEmpty _ (DecimalPos.Unsigned.to_uint_nonnil p)) in *.
    rewrite to_ascii_cons by reflexivity. rewrite to_ascii_uint.
    rewrite ascii_int_negative;
      [| apply DecimalPos.Unsigned.to_uint_nonnil | exact Hlen].
    change (Pos.to_uint p) with (N.to_uint (Npos p)).
    now rewrite DecimalN.Unsigned.of_to.
Qed.

(** [str] prints an integer of at most [max_str_digits] digits in full
    and refuses a longer one. *)
Lemma py_str_int (z : Z) :
  py_str (PyInt z) =
  if Z.abs z <? 10 ^ Text.max_str_digits then OK (string_of_Z z)
  else Raise ValueError.
Proof.
  cbn [py_str].
  destruct (numeral_length (Z.abs_N z) Text.max_str_digits
              ltac:(unfold Text.max_str_digits; lia)) as [Hle Hgt].
  rewrite N2Z.inj_abs_N in Hle, Hgt.
  destruct (Z.ltb_spec (Z.abs z) (10 ^ Text.max_str_digits)) as [H | H].
  - specialize (Hle H).
    destruct (Z.ltb_spec Text.max_str_digits (strlen (string_of_N (Z.abs_N z))));
      [lia | reflexivity].
  - specialize (Hgt H).
    destruct (Z.ltb_spec Text.max_str_digits (strlen (string_of_N (Z.abs_N z))));
      [reflexivity | lia].
Qed.

(** ** Further properties of the loader *)

Lemma filter_non_empty_processed (rows : list (list string)) :
  Forall (fun row => row = [] \/ exists r, row_record row r) rows ->
  Forall (fun row => succeeds (processed_row row)) (filter non_empty rows).
Proof.
  intros H. apply Forall_forall. intros row Hin.
  apply filter_In in Hin as [Hin Hne].
  rewrite Forall_forall in H.
  destruct (H row Hin) as [-> | [r Hr]]; [discriminate |].
  exists r. now apply processed_row_OK.
Qed.

Lemma load_data_from_csv_stops (header : list string)
    (pre : list (list string)) (bad : list string) (post : list (list string))
    (e : exn) :
  Forall (fun row => row = [] \/ exists r, row_record row r) pre ->
  bad <> [] ->
  processed_row bad = Raise e ->
  load_data_from_csv (header :: pre ++ bad :: post) = Raise e.
Proof.
  intros Hpre Hnil Hbad.
  assert (Hne : non_empty bad = true).
  { destruct bad; [congruence | reflexivity]. }
  rewrite load_data_from_csv_spec, filter_app. cbn [filter]. rewrite Hne.
  apply mapM_first_Raise; [| exact Hbad].
  now apply filter_non_empty_processed.
Qed.

(** X8. The load stops at the first data row that is not empty and is
    malformed, and the rows after it are not examined.  The exception
    follows the order in which the fields are read: [IndexError] for a row
    of one field, [ValueError] when the second field is not an integer,
    whether there is a third field or not, [IndexError] for a row of two
    fields the second of which is an integer, and [ValueError] when the
    second field is an integer and the third is not. *)
Theorem load_data_from_csv_first_error (header : list string)
    (pre : list (list string)) (bad : list string) (post : list (list string)) :
  Forall (fun row => row = [] \/ exists r, row_record row r) pre ->
  bad <> [] ->
  malformed_row bad ->
  exists e,
    load_data_from_csv (header :: pre ++ bad :: post) = Raise e /\
    (List.length bad = 1%nat -> e = IndexError) /\
    (forall f1, nth_error bad 1 = Some f1 -> Text.parse_int f1 = None ->
                e = ValueError) /\
    (forall f1 i1, nth_error bad 1 = Some f1 -> Text.parse_int f1 = Some i1 ->
                   (List.length bad = 2%nat -> e = IndexError) /\
                   (List.length bad <> 2%nat -> e = ValueError)).
Proof.
  intros Hpre Hne Hbad.
  destruct (malformed_row_fails bad Hbad) as [e He].
  exists e. split; [now apply load_data_from_csv_stops |].
  unfold processed_row in He.
  rewrite py_getitem_0, py_getitem_1, py_getitem_2 in He.
  destruct bad as [| f0 [| f1 [| f2 rest]]]; [congruence | ..];
    cbn [nth_error bind List.length] in *.
  - injection He as <-.
    split; [reflexivity |]. split; intros; discriminate.
  - split; [discriminate |].
    cbn [py_int] in He.
    split.
    + intros g1 Hg Hnone. injection Hg as <-. rewrite Hnone in He.
      cbn [bind] in He. now injection He.
    + intros g1 i1 Hg Hsome. injection Hg as <-. rewrite Hsome in He.
      cbn [bind] in He. injection He as <-.
      split; [reflexivity | congruence].
  - split; [discriminate |].
    cbn [py_int] in He.
    split.
    + intros g1 Hg Hnone. injection Hg as <-. rewrite Hnone in He.
      cbn [bind] in He. now injection He.
    + intros g1 i1 Hg Hsome. injection Hg as <-. rewrite Hsome in He.
      cbn [bind] in He.
      split; [discriminate | intros _].
      destruct (Text.parse_int f2); cbn [bind] in He; [discriminate |].
      now injection He.
Qed.

Lemma load_data_from_csv_first_error_witness :
  exists e,
    load_data_from_csv
      ([["date"; "min"; "max"]] ++
       [["2021-07-06"; "30"; "80"]; []] ++ ["2021-07-07"; "warm"] ::
       [["2021-07-08"]])%list = Raise e /\
    (List.length ["2021-07-07"; "warm"] = 1%nat -> e = IndexError) /\
    (forall f1, nth_error ["2021-07-07"; "warm"] 1 = Some f1 ->
                Text.parse_int f1 = None -> e = ValueError) /\
    (forall f1 i1, nth_error ["2021-07-07"; "warm"] 1 = Some f1 ->
                   Text.parse_int f1 = Some i1 ->
                   (List.length ["2021-07-07"; "warm"] = 2%nat -> e = IndexError) /\
                   (List.length ["2021-07-07"; "warm"] <> 2%nat -> e = ValueError)).
Proof.
  apply (load_data_from_csv_first_error ["date"; "min"; "max"]
           [["2021-07-06"; "30"; "80"]; []] ["2021-07-07"; "warm"]
           [["2021-07-08"]]).
  - apply Forall_cons.
    + right. exists [PyStr "2021-07-06"; PyInt 30; PyInt 80].
      exists "2021-07-06", "30", "80", [], 30, 80.
      repeat split; reflexivity.
    + apply Forall_cons; [now left | apply Forall_nil].
  - discriminate.
  - left. cbn. lia.
Defined.

(** X9. Loading the rows of two sources one after the other gives the
    records of the first followed by the records of the second; the load
    fails when one of the two fails, with the exception of the first that
    does. *)
Theorem load_data_from_csv_app (header : list string)
    (rows1 rows2 : list (list string)) :
  load_data_from_csv (header :: rows1 ++ rows2) =
  let* data1 := load_data_from_csv (header :: rows1) in
  let* data2 := load_data_from_csv (header :: rows2) in
  OK (data1 ++ data2)%list.
Proof.
  rewrite !load_data_from_csv_spec, filter_app. apply mapM_app.
Qed.

(** The record that a loaded list stands for. *)
Lemma row_record_row_of (row : list string) (r : list pyobj) :
  row_record row r ->
  exists rec,
    r = row_of rec /\
    nth_error row 0 = Some (date rec) /\
    (exists f1, nth_error row 1 = Some f1 /\
                Text.parse_int f1 = Some (minTempF rec)) /\
    (exists f2, nth_error row 2 = Some f2 /\
                Text.parse_int f2 = Some (maxTempF rec)).
Proof.
  intros (f0 & f1 & f2 & rest & i1 & i2 & -> & H1 & H2 & ->).
  exists (mk_record f0 i1 i2). cbn.
  split; [reflexivity |]. split; [reflexivity |].
  split; [now exists f1 | now exists f2].
Qed.

Lemma loaded_records (rows : list (list string)) (data : list (list pyobj)) :
  Forall2 row_record rows data ->
  exists recs,
    data = map row_of recs /\
    Forall2 (fun row rec =>
               nth_error row 0 = Some (date rec) /\
               (exists f1, nth_error row 1 = Some f1 /\
                           Text.parse_int f1 = Some (minTempF rec)) /\
               (exists f2, nth_error row 2 = Some f2 /\
                           Text.parse_int f2 = Some (maxTempF rec)))
            rows recs.
Proof.
  induction 1 as [| row r rows data Hr _ (recs & -> & IH)].
  - exists []. split; [reflexivity | constructor].
  - destruct (row_record_row_of row r Hr) as (rec & -> & Hrec).
    exists (rec :: recs). split; [reflexivity | now constructor].
Qed.

(** X10. What the loader returns is a list of records of the data model:
    each is the list of the date, kept as the text of the first field, and
    of the two integers that the second and third fields spell.  On such
    data the two summaries raise no [IndexError], [TypeError] or
    [ZeroDivisionError]: when one of them fails, the exception is the
    [ValueError] of a date that [convert_date] does not read or the
    [OverflowError] of an integer beyond the range of the floats. *)
Theorem load_then_summaries (header : list string) (rows : list (list string))
    (data : list (list pyobj)) :
  load_data_from_csv (header :: rows) = OK data ->
  exists recs,
    data = map row_of recs /\
    Forall2 (fun row rec =>
               nth_error row 0 = Some (date rec) /\
               (exists f1, nth_error row 1 = Some f1 /\
                           Text.parse_int f1 = Some (minTempF rec)) /\
               (exists f2, nth_error row 2 = Some f2 /\
                           Text.parse_int f2 = Some (maxTempF rec)))
            (filter non_empty rows) recs /\
    (forall e, generate_summary data = Raise e ->
               e = ValueError \/ e = OverflowError) /\
    (forall e, generate_daily_summary data = Raise e ->
               e = ValueError \/ e = OverflowError).
Proof.
  intros Hload. apply load_data_from_csv_OK in Hload.
  destruct (loaded_records _ _ Hload) as (recs & -> & Hrecs).
  exists recs. split; [reflexivity |]. split; [exact Hrecs |].
  split.
  - intros e. apply generate_summary_Raise.
  - intros e. apply generate_daily_summary_Raise.
Qed.

Lemma load_then_summaries_witness :
  exists recs,
    [[PyStr "2021-07-06"; PyInt 30; PyInt 80]; [PyStr "soon"; PyInt 20; PyInt 90]]
      = map row_of recs /\
    Forall2 (fun row rec =>
               nth_error row 0 = Some (date rec) /\
               (exists f1, nth_error row 1 = Some f1 /\
                           Text.parse_int f1 = Some (minTempF rec)) /\
               (exists f2, nth_error row 2 = Some f2 /\
                           Text.parse_int f2 = Some (maxTempF rec)))
            (filter non_empty
               [["2021-07-06"; "30"; "80"]; []; ["soon"; " 20"; "+90"; "x"]])
            recs /\
    (forall e,
       generate_summary
         [[PyStr "2021-07-06"; PyInt 30; PyInt 80];
          [PyStr "soon"; PyInt 20; PyInt 90]] = Raise e ->
       e = ValueError \/ e = OverflowError) /\
    (forall e,
       generate_daily_summary
         [[PyStr "2021-07-06"; PyInt 30; PyInt 80];
          [PyStr "soon"; PyInt 20; PyInt 90]] = Raise e ->
       e = ValueError \/ e = OverflowError).
Proof.
  apply (load_then_summaries ["date"; "min"; "max"]
           [["2021-07-06"; "30"; "80"]; []; ["soon"; " 20"; "+90"; "x"]]).
  reflexivity.
Defined.

(** X11. Writing and loading is a round trip: from the rows that spell
    the records of a list, the date as it is and each temperature as [str]
    prints the integer, the loader returns the records of the list, in
    their order, whatever header comes first.  The temperatures are taken
    below [2^53] in magnitude, far inside the range in which [str] and
    [int] handle every digit. *)
Theorem load_data_from_csv_written_records (header : list string)
    (recs : list WeatherRecord) :
  Forall (fun r => small (minTempF r) /\ small (maxTempF r)) recs ->
  load_data_from_csv (header :: map csv_row recs) = OK (map row_of recs).
Proof.
  intros Hsmall.
  rewrite load_data_from_csv_spec.
  induction Hsmall as [| r recs [Hmin Hmax] _ IH]; [reflexivity |].
  cbn [map filter non_empty csv_row mapM]. fold (csv_row r).
  assert (Hrow : processed_row (csv_row r) = OK (row_of r)).
  { apply processed_row_OK.
    exists (date r), (string_of_Z (minTempF r)), (string_of_Z (maxTempF r)),
      [], (minTempF r), (maxTempF r).
    repeat split; try reflexivity;
      now apply parse_int_string_of_Z, small_below_limit. }
  rewrite Hrow. cbn [bind]. rewrite IH. reflexivity.
Qed.

Lemma load_data_from_csv_written_records_witness :
  load_data_from_csv
    [["date"; "min"; "max"]; ["2021-07-06"; "-3"; "80"];
     ["2021-07-07"; "20"; "90"]]%list =
  OK [[PyStr "2021-07-06"; PyInt (-3); PyInt 80];
      [PyStr "2021-07-07"; PyInt 20; PyInt 90]]%list.
Proof.
  apply (load_data_from_csv_written_records ["date"; "min"; "max"]
           [mk_record "2021-07-06" (-3) 80; mk_record "2021-07-07" 20 90]).
  repeat (apply Forall_cons; [split; unfold small; cbn; lia |]).
  apply Forall_nil.
Defined.

(** ** Further properties of [convert_date] *)

(** What the parser returns has passed the range checks of the
    constructor. *)
Lemma fromisoformat_valid (s : string) (dt : Datetime.datetime) :
  Datetime.fromisoformat s = Some dt ->
  Datetime.valid_date (Datetime.year dt) (Datetime.month dt) (Datetime.day dt)
    = true.
Proof.
  unfold Datetime.fromisoformat.
  destruct (String.length s <? 7)%nat; [discriminate |].
  destruct (Datetime.find_isoformat_datetime_separator s) as [sep |];
    [| discriminate].
  destruct (Datetime.parse_isoformat_date s sep) as [[[y m] d] |];
    [| discriminate].
  destruct (if (sep <? String.length s)%nat
            then Datetime.parse_isoformat_time
                   (Datetime.drop (sep + Datetime.utf8_width (Datetime.at_ s sep)) s)
            else Some (0, 0, 0, 0, None)) as [[[[[h mi] se] us] tz] |];
    [| discriminate].
  destruct (Datetime.valid_date y m d) eqn:Hv; [| discriminate].
  destruct (Datetime.valid_time h mi se us); [| discriminate].
  destruct (Datetime.valid_offset tz); [| discriminate].
  cbn [andb]. intros H. injection H as <-. exact Hv.
Qed.

(** X12. Whatever text [convert_date] accepts, what it prints is a date
    of the calendar: a year from 1 to 9999, a month from 1 to 12 and a day
    that the month has in that year, printed with the name of its day of
    the week. *)
Theorem convert_date_prints_calendar_date (s t : string) :
  convert_date (PyStr s) = OK t ->
  exists y m d,
    1 <= y <= 9999 /\ 1 <= m <= 12 /\ 1 <= d <= Datetime.days_in_month y m /\
    t = long_date y m d.
Proof.
  rewrite convert_date_of_fromisoformat.
  destruct (Datetime.fromisoformat s) as [dt |] eqn:E; [| discriminate].
  intros H. injection H as <-.
  apply fromisoformat_valid in E. unfold Datetime.valid_date in E.
  rewrite !andb_true_iff in E.
  exists (Datetime.year dt), (Datetime.month dt), (Datetime.day dt).
  repeat split; try reflexivity; lia.
Qed.

Lemma convert_date_prints_calendar_date_witness :
  exists y m d,
    1 <= y <= 9999 /\ 1 <= m <= 12 /\ 1 <= d <= Datetime.days_in_month y m /\
    "Thursday 29 February 2024" = long_date y m d.
Proof.
  apply (convert_date_prints_calendar_date "2024-W09-4").
  reflexivity.
Defined.

Lemma fromisoformat_basic_date (a b c d e f g h : ascii) :
  all_digits [a; b; c; d; e; f; g; h] = true ->
  Datetime.fromisoformat (basic_date a b c d e f g h) =
    if Datetime.valid_date (num4 a b c d) (num2 e f) (num2 g h)
    then Some (Datetime.mk_datetime (num4 a b c d) (num2 e f) (num2 g h)
                 0 0 0 0 None)
    else None.
Proof.
  cbn [all_digits forallb]. rewrite !andb_true_iff.
  intros (Ha & Hb & Hc & Hd & He & Hf & Hg & Hh & _).
  unfold Datetime.fromisoformat, Datetime.find_isoformat_datetime_separator,
    Datetime.parse_isoformat_date, basic_date.
  repeat (cbn [Datetime.parse_digits Datetime.at_ String.get Nat.add andb negb
                 String.length Nat.eqb Nat.ltb Nat.leb];
          rewrite ?Ha, ?Hb, ?Hc, ?Hd, ?He, ?Hf, ?Hg, ?Hh,
            ?(digit_not_W e He), ?(digit_not_dash e He);
          cbv iota).
  change (Datetime.valid_time 0 0 0 0) with true.
  change (Datetime.valid_offset None) with true.
  rewrite !andb_true_r.
  replace (10 * (10 * (10 * (10 * 0 + Text.digit_val a) + Text.digit_val b)
                 + Text.digit_val c) + Text.digit_val d)
    with (num4 a b c d) by (unfold num4; ring).
  replace (10 * (10 * 0 + Text.digit_val e) + Text.digit_val f)
    with (num2 e f) by (unfold num2; ring).
  replace (10 * (10 * 0 + Text.digit_val g) + Text.digit_val h)
    with (num2 g h) by (unfold num2; ring).
  reflexivity.
Qed.

(** X13. A date in the basic format, eight digits [YYYYMMDD], is read as
    the date that the same digits spell in the extended format
    [YYYY-MM-DD]: [convert_date] prints the same text for both, or fails
    on both. *)
Theorem convert_date_basic_format (a b c d e f g h : ascii) :
  all_digits [a; b; c; d; e; f; g; h] = true ->
  convert_date (PyStr (basic_date a b c d e f g h)) =
  convert_date (PyStr (extended_date a b c d e f g h EmptyString)).
Proof.
  intros Hdigits.
  rewrite !convert_date_of_fromisoformat.
  now rewrite fromisoformat_basic_date, fromisoformat_extended_date.
Qed.

Lemma convert_date_basic_format_witness :
  convert_date (PyStr "20210706") = convert_date (PyStr "2021-07-06").
Proof.
  apply (convert_date_basic_format "2" "0" "2" "1" "0" "7" "0" "6").
  reflexivity.
Defined.

(** ** Integer temperatures, checked one by one *)

Lemma same_float_eq (x y : F64.float) : same_float x y = true -> x = y.
Proof.
  destruct x as [a | a | | a m e], y as [b | b | | b m' e']; cbn;
    try discriminate; try reflexivity.
  - intros H. apply Bool.eqb_prop in H. now subst.
  - intros H. apply Bool.eqb_prop in H. now subst.
  - rewrite !andb_true_iff. intros [[Hs Hm] He].
    apply Bool.eqb_prop in Hs. apply Pos.eqb_eq in Hm. apply Z.eqb_eq in He.
    now subst.
Qed.

Lemma forallb_Zrange (P : Z -> bool) (lo : Z) (n : nat) :
  forallb P (Zrange lo n) = true ->
  forall t, lo <= t < lo + Z.of_nat n -> P t = true.
Proof.
  intros H t Ht. rewrite forallb_forall in H. apply H.
  unfold Zrange. apply in_map_iff. exists (Z.to_nat (t - lo)). split; [lia |].
  apply in_seq. lia.
Qed.

(** The integer [celsius_tenths t] is the one nearest to ten times
    [(t - 32) * 5 / 9]; the two are never half a unit apart. *)
Lemma celsius_tenths_nearest (t : Z) :
  2 * Z.abs (9 * celsius_tenths t - 50 * (t - 32)) < 9.
Proof.
  unfold celsius_tenths.
  pose proof (Z.div_mod (100 * (t - 32) + 9) 18 ltac:(lia)) as Hdiv.
  pose proof (Z.mod_pos_bound (100 * (t - 32) + 9) 18 ltac:(lia)) as Hmod.
  lia.
Qed.

(** X14. For every integer temperature from -1000 to 1000 degrees
    Fahrenheit the float arithmetic of [convert_f_to_c] loses nothing: the
    result is the double nearest to [d / 10], where [d] is the integer
    nearest to ten times the exact value of [(t - 32) * 5 / 9]. *)
Theorem convert_f_to_c_integers_exact (t : Z) :
  -1000 <= t <= 1000 ->
  exists d,
    2 * Z.abs (9 * d - 50 * (t - 32)) < 9 /\
    convert_f_to_c (PyInt t) = OK (F64.of_decimal (d <? 0) (Z.abs_N d) (-1)).
Proof.
  intros Ht. exists (celsius_tenths t). split; [apply celsius_tenths_nearest |].
  assert (Hall : forallb celsius_is_exact (Zrange (-1000) 2001) = true)
    by (vm_compute; reflexivity).
  pose proof (forallb_Zrange _ _ _ Hall t ltac:(lia)) as Hcheck.
  unfold celsius_is_exact in Hcheck.
  destruct (convert_f_to_c (PyInt t)) as [x | e]; [| discriminate].
  apply same_float_eq in Hcheck. now subst.
Qed.

Lemma convert_f_to_c_integers_exact_witness :
  exists d,
    2 * Z.abs (9 * d - 50 * (71 - 32)) < 9 /\
    convert_f_to_c (PyInt 71) = OK (F64.of_decimal (d <? 0) (Z.abs_N d) (-1)).
Proof.
  apply (convert_f_to_c_integers_exact 71). lia.
Defined.

(** X15. For every integer temperature from -40 to 130 degrees
    Fahrenheit, what [format_temperature] prints for the result of
    [convert_f_to_c] is the decimal numeral of that exact value rounded to
    one decimal, with one digit after the point, followed by the degree
    sign and [C]: a minus sign when the value is negative, the digits of
    the integer part, a point and the digit of the tenths. *)
Theorem format_temperature_one_decimal (t : Z) :
  -40 <= t <= 130 ->
  exists d x,
    2 * Z.abs (9 * d - 50 * (t - 32)) < 9 /\
    convert_f_to_c (PyInt t) = OK x /\
    format_temperature (PyFloat x) =
      OK ((if d <? 0 then "-" else "") ++
          string_of_Z (Z.abs d / 10) ++ "." ++ string_of_Z (Z.abs d mod 10) ++
          DEGREE_SYMBOL).
Proof.
  intros Ht. exists (celsius_tenths t).
  assert (Hall : forallb celsius_prints_exact (Zrange (-40) 171) = true)
    by (vm_compute; reflexivity).
  pose proof (forallb_Zrange _ _ _ Hall t ltac:(lia)) as Hcheck.
  unfold celsius_prints_exact in Hcheck.
  destruct (convert_f_to_c (PyInt t)) as [x | e]; [| discriminate].
  exists x. split; [apply celsius_tenths_nearest |]. split; [reflexivity |].
  destruct (format_temperature (PyFloat x)) as [text | e]; [| discriminate].
  apply String.eqb_eq in Hcheck. rewrite Hcheck.
  unfold tenths_text. now rewrite !append_assoc.
Qed.

Lemma format_temperature_one_decimal_witness :
  exists d x,
    2 * Z.abs (9 * d - 50 * (-4 - 32)) < 9 /\
    convert_f_to_c (PyInt (-4)) = OK x /\
    format_temperature (PyFloat x) =
      OK ((if d <? 0 then "-" else "") ++
          string_of_Z (Z.abs d / 10) ++ "." ++ string_of_Z (Z.abs d mod 10) ++
          DEGREE_SYMBOL).
Proof.
  apply (format_temperature_one_decimal (-4)). lia.
Defined.

(** ** The overview asks less than the daily summary *)

Lemma well_formed_temperatures (r : WeatherRecord) :
  well_formed r -> temperatures_convert r.
Proof. intros (_ & Hmin & Hmax). now split. Qed.

(** X16. Whenever [generate_daily_summary] succeeds on a list of records,
    [generate_summary] succeeds on it too.  The converse does not hold:
    the overview reads two dates only, so a record whose date is not
    readable and that holds neither extreme makes the daily summary fail
    and leaves the overview as it is. *)
Theorem daily_summary_implies_overview :
  (forall recs : list WeatherRecord,
     succeeds (generate_daily_summary (map row_of recs)) ->
     succeeds (generate_summary (map row_of recs))) /\
  (exists recs : list WeatherRecord,
     succeeds (generate_summary (map row_of recs)) /\
     generate_daily_summary (map row_of recs) = Raise ValueError).
Proof.
  split.
  - intros recs [text Htext].
    destruct recs as [| r0 recs0]; [now exists "" |].
    set (recs := r0 :: recs0) in *.
    rewrite generate_daily_summary_blocks in Htext.
    destruct (mapM day_block (map row_of recs)) as [blocks |] eqn:Hb;
      [| discriminate].
    pose proof (daily_blocks_well_formed recs blocks Hb) as Hwf.
    assert (Hconv : Forall temperatures_convert recs).
    { eapply Forall_impl; [| exact Hwf]. apply well_formed_temperatures. }
    destruct (generate_summary_extremes recs ltac:(discriminate) Hconv)
      as (lo & i & hi & j & rlo & rhi & _ & _ & Hrlo & Hrhi & Hsum).
    rewrite Forall_forall in Hwf.
    destruct (proj1 (Hwf rlo (nth_error_In _ _ Hrlo))) as [dlo Hdlo].
    destruct (proj1 (Hwf rhi (nth_error_In _ _ Hrhi))) as [dhi Hdhi].
    rewrite Hsum, Hdlo, Hdhi. cbn [bind]. eexists. reflexivity.
  - exists [mk_record "2021-07-06" 30 80; mk_record "no date" 35 85;
            mk_record "2021-07-08" 20 90].
    apply generate_summary_skips_other_dates.
Qed.

Lemma daily_summary_implies_overview_witness :
  succeeds (generate_summary (map row_of example_records)).
Proof.
  apply (proj1 daily_summary_implies_overview example_records).
  eexists. vm_compute. reflexivity.
Defined.

(** ** [format_temperature] *)

Lemma append_length (a b : string) :
  String.length (a ++ b) = (String.length a + String.length b)%nat.
Proof. induction a as [| c a IH]; cbn; [reflexivity | now rewrite IH]. Qed.

Lemma append_cancel_r (a b s : string) : a ++ s = b ++ s -> a = b.
Proof.
  revert b. induction a as [| c a IH]; intros [| c' b] H; cbn in H.
  - reflexivity.
  - apply (f_equal String.length) in H. cbn in H. rewrite append_length in H. lia.
  - apply (f_equal String.length) in H. cbn in H. rewrite append_length in H. lia.
  - injection H as -> H. f_equal. now apply IH.
Qed.

(** X17. On an integer [format_temperature] prints the numeral that
    [str] writes, followed by the two bytes of the degree sign and the
    letter [C], when the integer has at most 4300 digits, and raises the
    [ValueError] of [str] when it has more.  Two integers are printed
    alike only when they are equal: the numeral before the unit reads back
    as the integer. *)
Theorem format_temperature_integers :
  (forall z : Z,
     Z.abs z < 10 ^ 4300 ->
     format_temperature (PyInt z) = OK (string_of_Z z ++ DEGREE_SYMBOL)) /\
  (forall z : Z,
     10 ^ 4300 <= Z.abs z ->
     format_temperature (PyInt z) = Raise ValueError) /\
  (forall (a b : Z) (text : string),
     format_temperature (PyInt a) = OK text ->
     format_temperature (PyInt b) = OK text ->
     a = b).
Proof.
  assert (Hfmt : forall z,
            format_temperature (PyInt z) =
            if Z.abs z <? 10 ^ Text.max_str_digits
            then OK (string_of_Z z ++ DEGREE_SYMBOL) else Raise ValueError).
  { intros z. unfold format_temperature. rewrite py_str_int.
    now destruct (Z.abs z <? 10 ^ Text.max_str_digits). }
  change 4300 with Text.max_str_digits.
  split; [| split].
  - intros z Hz. rewrite Hfmt.
    now destruct (Z.ltb_spec (Z.abs z) (10 ^ Text.max_str_digits)); [| lia].
  - intros z Hz. rewrite Hfmt.
    now destruct (Z.ltb_spec (Z.abs z) (10 ^ Text.max_str_digits)); [lia |].
  - intros a b text Ha Hb. rewrite Hfmt in Ha, Hb.
    destruct (Z.ltb_spec (Z.abs a) (10 ^ Text.max_str_digits)) as [Ha' | _];
      [| discriminate].
    destruct (Z.ltb_spec (Z.abs b) (10 ^ Text.max_str_digits)) as [Hb' | _];
      [| discriminate].
    injection Ha as <-. injection Hb as Hb.
    apply append_cancel_r in Hb.
    pose proof (parse_int_string_of_Z a Ha') as Hpa.
    rewrite <- Hb, (parse_int_string_of_Z b Hb') in Hpa. now injection Hpa.
Qed.

Lemma format_temperature_integers_witness :
  format_temperature (PyInt (-21)) = OK (string_of_Z (-21) ++ DEGREE_SYMBOL).
Proof.
  apply (proj1 format_temperature_integers (-21)).
  apply small_below_limit. unfold small. cbn. lia.
Defined.
